(** * android-wifi-mcp: the device command bridge, embedded and verified

    The TypeScript sources embedded here are
    - [src/adb/adb-client.ts]      (AdbClient: exec, shell, listDevices, ...)
    - [src/adb/device-manager.ts]  (DeviceManager: refreshDevices, listDevices,
                                    ensureDeviceSelected, checkAndroidVersion)
    - [src/adb/wifi-commands.ts]   (WifiCommands: the three text parsers, connect,
                                    disconnect, scan and the commands they use)
    - [src/adb/enterprise-wifi.ts] (EnterpriseWifiCommands: the file-drop protocol)
    - [src/network/network-check.ts] (NetworkCheck: ping, dnsLookup, checkInternet,
                                    checkCaptivePortal, getInterfaceInfo)
    - [src/index.ts]               (the tool handlers device_select and wifi_connect)

    Conventions of the embedding.
    - A JavaScript string is a [list ascii]: a sequence of code units below
      256.  White space is the part of ECMAScript's WhiteSpace and
      LineTerminator sets in that range.
    - A regular expression literal is a value of [regex], run by a
      backtracking matcher with the priorities of ECMAScript (leftmost match,
      greedy quantifiers, first alternative first).
    - A number is a double.  The numbers that are computed with here are
      integers, NaN or an infinity; [parseInt] rounds to the nearest double
      and a template literal prints a number as Number::toString does.
    - Asynchronous methods run in the monad [M]: a host state (the selected
      device, the DeviceInfo cache, the clock, the log of the command lines
      that were spawned) is threaded through, a thrown [Error] is the result
      [Throw].  The device and the bridge binary are an oracle [execAsync]
      over an abstract [World].
    - A value of type [T | null] is an [option]; [JSON.parse] may deliver
      null. *)

From Stdlib Require Import Ascii String ZArith NArith Lia List Bool DecimalString.
From stdpp Require Import base option list gmap strings.
From Equations Require Import Equations.

Local Open Scope Z_scope.

(** ** JavaScript strings *)

Abbreviation str := (list ascii).

Definition lit (s : string) : str := list_ascii_of_string s.
Arguments lit s%_string.

Definition code (a : ascii) : nat := nat_of_ascii a.

Definition ascii_eqb (a b : ascii) : bool := Ascii.eqb a b.

Fixpoint str_eqb (s t : str) : bool :=
  match s, t with
  | [], [] => true
  | a :: s', b :: t' => ascii_eqb a b && str_eqb s' t'
  | _, _ => false
  end.

(** [if (s)] on a string: the empty string is falsy. *)
Definition truthy (s : str) : bool :=
  match s with [] => false | _ => true end.

(** [a || b] on strings. *)
Definition or_else (a b : str) : str := if truthy a then a else b.

(** ECMAScript white space (WhiteSpace and LineTerminator) below 256:
    TAB, LF, VT, FF, CR, SP and NBSP. *)
Definition is_space (a : ascii) : bool :=
  let n := code a in
  ((9 <=? n)%nat && (n <=? 13)%nat) || (n =? 32)%nat || (n =? 160)%nat.

Definition is_digit (a : ascii) : bool :=
  let n := code a in (48 <=? n)%nat && (n <=? 57)%nat.

Definition is_upper (a : ascii) : bool :=
  let n := code a in
  ((65 <=? n)%nat && (n <=? 90)%nat)
  || ((192 <=? n)%nat && (n <=? 222)%nat && negb (n =? 215)%nat).

Definition to_lower (a : ascii) : ascii :=
  if is_upper a then ascii_of_nat (code a + 32) else a.

Definition toLowerCase (s : str) : str := map to_lower s.

Fixpoint trimStart (s : str) : str :=
  match s with
  | a :: s' => if is_space a then trimStart s' else s
  | [] => []
  end.

Definition trimEnd (s : str) : str := rev (trimStart (rev s)).

Definition trim (s : str) : str := trimEnd (trimStart s).

Fixpoint startsWith (p s : str) : bool :=
  match p, s with
  | [], _ => true
  | a :: p', b :: s' => ascii_eqb a b && startsWith p' s'
  | _ :: _, [] => false
  end.

(** [s.includes(sub)] *)
Fixpoint includes (sub s : str) : bool :=
  startsWith sub s ||
  match s with
  | [] => false
  | _ :: s' => includes sub s'
  end.

(** [s.endsWith(suffix)] *)
Definition endsWith (suffix s : str) : bool :=
  startsWith (rev suffix) (rev s).

(** [s.indexOf(c)] for a one-character needle; [None] is JavaScript's -1. *)
Fixpoint indexOf (c : ascii) (s : str) : option nat :=
  match s with
  | [] => None
  | a :: s' => if ascii_eqb a c then Some 0%nat else S <$> indexOf c s'
  end.

(** [s.split(c)] for a one-character separator. *)
Fixpoint split_char (c : ascii) (s : str) : list str :=
  match s with
  | [] => [[]]
  | a :: s' =>
      if ascii_eqb a c then [] :: split_char c s'
      else match split_char c s' with
           | t :: ts => (a :: t) :: ts
           | [] => [[a]]
           end
  end.

(** [s.split(/\s+/)]: a maximal run of white space is one separator; a
    leading or a trailing run leaves an empty first or last piece. *)
Fixpoint split_ws_from (inSep : bool) (s : str) : list str :=
  match s with
  | [] => [[]]
  | a :: s' =>
      if is_space a then
        if inSep then split_ws_from true s' else [] :: split_ws_from true s'
      else match split_ws_from false s' with
           | t :: ts => (a :: t) :: ts
           | [] => [[a]]
           end
  end.

Definition split_ws (s : str) : list str := split_ws_from false s.

(** [l.join(sep)] *)
Fixpoint join (sep : str) (l : list str) : str :=
  match l with
  | [] => []
  | [x] => x
  | x :: rest => x ++ sep ++ join sep rest
  end.

Fixpoint digits_value (acc : Z) (s : str) : Z :=
  match s with
  | [] => acc
  | a :: s' => digits_value (10 * acc + Z.of_nat (code a - 48)) s'
  end.

Fixpoint take_while (p : ascii -> bool) (s : str) : str :=
  match s with
  | a :: s' => if p a then a :: take_while p s' else []
  | [] => []
  end.

(** A number of the program is a double.  Of the numbers that are not
    kept abstract here every one is an integer, NaN or an infinity: an
    integer is a [Z], NaN is [None], and [INFINITY] (a power of two that is
    no double) stands for Infinity, its negative for -Infinity; -0 is not
    told apart from 0 (both print as 0 and compare alike). *)
Definition INFINITY : Z := 2 ^ 1024.

(** The Number value for a non-negative integer: the nearest double, a
    tie going to the even significand of 53 bits, and Infinity from
    2^1024 - 2^970 on. *)
Definition toDouble (n : Z) : Z :=
  let bits := Z.log2 n + 1 in
  if bits <=? 53 then n else
  let shift := bits - 53 in
  let q := Z.shiftr n shift in
  let r := n - Z.shiftl q shift in
  let half := Z.shiftl 1 (shift - 1) in
  let q' := if r <? half then q
            else if half <? r then q + 1
            else if Z.even q then q else q + 1 in
  let v := Z.shiftl q' shift in
  if INFINITY <=? v then INFINITY else v.

(** [parseInt(s, 10)]; [None] is NaN.  The digits are read as the integer
    they write, which is then rounded to a double (as V8 does it, which
    rounds correctly however many digits there are). *)
Definition parseInt (s : str) : option Z :=
  let s1 := trimStart s in
  let '(neg, s2) :=
    match s1 with
    | a :: t => if ascii_eqb a "-" then (true, t)
                else if ascii_eqb a "+" then (false, t) else (false, s1)
    | [] => (false, s1)
    end in
  match take_while is_digit s2 with
  | [] => None
  | ds =>
      let v := toDouble (digits_value 0 ds) in
      Some (if neg then - v else v)
  end.

(** ** Regular expressions *)

Inductive regex : Type :=
| Eps : regex
| Chr : (ascii -> bool) -> regex          (* one character of a class *)
| Cat : regex -> regex -> regex
| Alt : regex -> regex -> regex           (* r1|r2, r1 tried first *)
| Star : (ascii -> bool) -> regex         (* c* on a class, greedy *)
| Cap : regex -> regex                    (* the capture group *)
| Eol : regex.                            (* $ *)

Definition Opt (r : regex) : regex := Alt r Eps.             (* r? *)
Definition Plus (c : ascii -> bool) : regex := Cat (Chr c) (Star c).  (* c+ *)

Fixpoint Rep (n : nat) (r : regex) : regex :=              (* r{n} *)
  match n with
  | O => Eps
  | S n' => Cat r (Rep n' r)
  end.

(** r{0,n}, greedy *)
Fixpoint UpTo (n : nat) (r : regex) : regex :=
  match n with
  | O => Eps
  | S n' => Opt (Cat r (UpTo n' r))
  end.

Definition is_char (c : ascii) : ascii -> bool := fun a => ascii_eqb a c.

(** a character under the [i] flag *)
Definition is_char_ci (c : ascii) : ascii -> bool :=
  fun a => ascii_eqb (to_lower a) (to_lower c).

Fixpoint Lit (s : str) : regex :=
  match s with
  | [] => Eps
  | c :: s' => Cat (Chr (is_char c)) (Lit s')
  end.

Fixpoint LitCI (s : str) : regex :=
  match s with
  | [] => Eps
  | c :: s' => Cat (Chr (is_char_ci c)) (LitCI s')
  end.

Fixpoint star_k {R : Type} (c : ascii -> bool) (s : str) (k : str -> option R)
  : option R :=
  match s with
  | a :: s' =>
      if c a then
        match star_k c s' k with
        | Some r => Some r
        | None => k s
        end
      else k s
  | [] => k s
  end.

(** [rmatch r s cap k]: match [r] at the head of [s], then continue with
    [k] on what is left; the first success in priority order wins. *)
Fixpoint rmatch {R : Type} (r : regex) (s : str) (cap : option str)
    (k : str -> option str -> option R) : option R :=
  match r with
  | Eps => k s cap
  | Chr c =>
      match s with
      | a :: s' => if c a then k s' cap else None
      | [] => None
      end
  | Cat r1 r2 => rmatch r1 s cap (fun s1 cap1 => rmatch r2 s1 cap1 k)
  | Alt r1 r2 =>
      match rmatch r1 s cap k with
      | Some x => Some x
      | None => rmatch r2 s cap k
      end
  | Star c => star_k c s (fun s1 => k s1 cap)
  | Cap r1 =>
      rmatch r1 s cap
        (fun s1 _ => k s1 (Some (take (length s - length s1) s)))
  | Eol =>
      match s with
      | [] => k s cap
      | _ :: _ => None
      end
  end.

(** A match at the head of [s]: the text of the capture group. *)
Definition exec_here (r : regex) (s : str) : option (option str) :=
  rmatch r s None (fun _ cap => Some cap).

(** The leftmost match anywhere in [s]. *)
Fixpoint search (r : regex) (s : str) : option (option str) :=
  match exec_here r s with
  | Some c => Some c
  | None =>
      match s with
      | [] => None
      | _ :: s' => search r s'
      end
  end.

(** A regular expression literal: [anchored] is a leading [^]. *)
Record RegExp : Type := mkRegExp { anchored : bool; body : regex }.

Definition re_exec (re : RegExp) (s : str) : option (option str) :=
  if anchored re then exec_here (body re) s else search (body re) s.

(** [re.test(s)] *)
Definition re_test (re : RegExp) (s : str) : bool :=
  match re_exec re s with Some _ => true | None => false end.

(** [s.match(re)], as far as this program looks at it: [None] when there
    is no match, else element 1 of the match array (every pattern whose
    match array is read has one capture group, which takes part in every
    match). *)
Definition re_match (re : RegExp) (s : str) : option str :=
  match re_exec re s with
  | Some (Some g) => Some g
  | Some None => Some []
  | None => None
  end.

(** Character classes of the patterns below. *)
Definition cls_hex_ci (a : ascii) : bool :=           (* [0-9a-f] under i *)
  is_digit a ||
  (let n := code (to_lower a) in (97 <=? n)%nat && (n <=? 102)%nat).

Definition cls_digit_dot (a : ascii) : bool :=        (* [0-9.] *)
  is_digit a || ascii_eqb a ".".

Definition cls_hex_colon_ci (a : ascii) : bool :=     (* [0-9a-f:] under i *)
  cls_hex_ci a || ascii_eqb a ":".

Definition LF : ascii := ascii_of_nat 10.
Definition DQUOTE : ascii := ascii_of_nat 34.
Definition SQUOTE : ascii := ascii_of_nat 39.

Definition cls_quote (a : ascii) : bool :=     (* a double or a single quote *)
  ascii_eqb a DQUOTE || ascii_eqb a SQUOTE.

Definition quoted (s : str) : str := DQUOTE :: s ++ [DQUOTE].

(** The complement class of the two ssid patterns: anything but a quote
    or a line feed ([ssid_char false]), and also not a comma
    ([ssid_char true]). *)
Definition ssid_char (noComma : bool) (a : ascii) : bool :=
  negb (cls_quote a || ascii_eqb a LF || (noComma && ascii_eqb a ",")).

(** r{lo,hi}, greedy *)
Definition RepRange (lo hi : nat) (r : regex) : regex :=
  Cat (Rep lo r) (UpTo (hi - lo) r).

(** The loop [for (...) { ...; if (...) continue; ...; results.push(x) }]
    over the lines of a text: the body yields [None] on [continue]. *)
Fixpoint for_each_line {A : Type} (body : str -> option A) (lines : list str)
  : list A :=
  match lines with
  | [] => []
  | line :: rest =>
      match body line with
      | Some x => x :: for_each_line body rest
      | None => for_each_line body rest
      end
  end.

(** ** types.ts *)

Record ScanResult : Type := mkScanResult {
  scan_ssid : str;
  scan_bssid : str;
  scan_frequency : Z;
  scan_rssi : Z;
  scan_security : str
}.

Record SavedNetwork : Type := mkSavedNetwork {
  networkId : Z;
  saved_ssid : str
}.

(** WifiStatus; [networkId], [supplicantState] and [macAddress] of the
    interface are assigned nowhere and are left out. *)
Record WifiStatus : Type := mkWifiStatus {
  st_enabled : bool;
  st_connected : bool;
  st_ssid : option str;
  st_bssid : option str;
  st_ipAddress : option str;
  st_linkSpeed : option Z;
  st_rssi : option Z;
  st_frequency : option Z
}.

Record WifiConnectionResult : Type := mkWifiConnectionResult {
  conn_success : bool;
  conn_ssid : str;
  conn_error : option str
}.

Inductive SecurityType : Type := sec_open | sec_owe | sec_wpa2 | sec_wpa3.

Definition SecurityType_text (s : SecurityType) : str :=
  match s with
  | sec_open => lit "open"
  | sec_owe => lit "owe"
  | sec_wpa2 => lit "wpa2"
  | sec_wpa3 => lit "wpa3"
  end.

(** The [code] of the error that [child_process.exec] rejects with: the
    exit status of the child, or the name of the system or Node.js error
    that ended the call (ENOENT, E2BIG,
    ERR_CHILD_PROCESS_STDIO_MAXBUFFER).  [exitCode] is declared a number;
    the catch branch hands the code on whatever it is. *)
Inductive ExitCode : Type :=
| ExitStatus (n : Z)
| ErrorName (name : str).

Record AdbResult : Type := mkAdbResult {
  success : bool;
  stdout : str;
  stderr : str;
  exitCode : ExitCode
}.

Record Device : Type := mkDevice {
  serial : str;
  state : str;
  product : option str;
  model : option str;
  device : option str;
  transportId : option str
}.

Record DeviceInfo : Type := mkDeviceInfo {
  info_serial : str;
  info_model : str;
  info_brand : str;
  info_manufacturer : str;
  info_androidVersion : str;
  info_sdkVersion : option Z;          (* [None] is NaN *)
  info_buildId : str
}.

Inductive EapMethod : Type := peap | ttls | tls.

Record EapConfig : Type := mkEapConfig {
  eap_ssid : str;
  eapMethod : EapMethod;
  phase2Method : option str;
  identity : str;
  password : option str;
  anonymousIdentity : option str;
  domainSuffixMatch : str;
  caCertificate : option str;
  clientCertificate : option str;
  privateKey : option str;
  privateKeyPassword : option str
}.

Record EnterpriseConnectionResult : Type := mkEnterpriseConnectionResult {
  ent_success : bool;
  ent_ssid : str;
  ent_eapMethod : EapMethod;
  ent_error : option str
}.

Record DnsResult : Type := mkDnsResult {
  dns_hostname : str;
  dns_addresses : list str;
  dns_error : option str
}.

(** ** wifi-commands.ts: the parsers *)

(** [/^([0-9a-f]{2}:){5}[0-9a-f]{2}$/i] *)
Definition bssidPattern : RegExp :=
  mkRegExp true
    (Cat (Rep 5 (Cap (Cat (Rep 2 (Chr cls_hex_ci)) (Chr (is_char ":")))))
         (Cat (Rep 2 (Chr cls_hex_ci)) Eol)).

(** [/^\d{4,5}$/] *)
Definition frequencyPattern : RegExp :=
  mkRegExp true (Cat (RepRange 4 5 (Chr is_digit)) Eol).

(** [/^-?\d{1,3}$/] *)
Definition rssiPattern : RegExp :=
  mkRegExp true
    (Cat (Opt (Chr (is_char "-"))) (Cat (RepRange 1 3 (Chr is_digit)) Eol)).

(** The cascade of lines 127-135. *)
Definition securityOfFlags (flagsPart : str) : str :=
  if truthy flagsPart then
    if includes (lit "SAE") flagsPart then lit "SAE"
    else if includes (lit "WPA3") flagsPart then lit "WPA3"
    else if includes (lit "WPA2") flagsPart then lit "WPA2"
    else if includes (lit "WPA") flagsPart then lit "WPA"
    else if includes (lit "WEP") flagsPart then lit "WEP"
    else if includes (lit "OWE") flagsPart then lit "OWE"
    else lit "Open"
  else lit "Open".

Definition mainPartOf (line : str) : str :=
  match indexOf "[" line with
  | Some firstBracketIndex => take firstBracketIndex line
  | None => line
  end.

Definition flagsPartOf (line : str) : str :=
  match indexOf "[" line with
  | Some firstBracketIndex => drop firstBracketIndex line
  | None => []
  end.

(** The body of the loop of [parseScanResults] on [lines[i]]. *)
Definition scanLine (raw : str) : option ScanResult :=
  let line := trim raw in
  if negb (truthy line) then None else
  let mainPart := mainPartOf line in
  let flagsPart := flagsPartOf line in
  let parts := split_ws (trim mainPart) in
  if (length parts <? 3)%nat then None else
  let p0 := nth 0 parts [] in
  let p1 := nth 1 parts [] in
  let p2 := nth 2 parts [] in
  if negb (re_test bssidPattern p0) then None else
  let bssid := p0 in
  let frequency :=
    if re_test frequencyPattern p1 then default 0 (parseInt p1) else 0 in
  let rssi :=
    if re_test rssiPattern p2 then default 0 (parseInt p2) else 0 in
  let ssid :=
    if (4 <? length parts)%nat then trim (join (lit " ") (drop 4 parts))
    else [] in
  let security := securityOfFlags flagsPart in
  if truthy bssid then
    Some (mkScanResult (or_else ssid (lit "<hidden>")) bssid frequency rssi
            security)
  else None.

Definition parseScanResults (output : str) : list ScanResult :=
  let lines := split_char LF output in
  let startIndex :=
    match lines with
    | l0 :: _ => if includes (lit "BSSID") l0 then 1%nat else 0%nat
    | [] => 0%nat
    end in
  for_each_line scanLine (drop startIndex lines).

(** [/(?:Network\s+)?ID:?\s*(\d+)/i] *)
Definition savedIdPattern : RegExp :=
  mkRegExp false
    (Cat (Opt (Cat (LitCI (lit "Network")) (Plus is_space)))
      (Cat (LitCI (lit "ID"))
        (Cat (Opt (Chr (is_char ":")))
          (Cat (Star is_space) (Cap (Plus is_digit)))))).

(** [/SSID:?\s*[Q']?([^Q'\n]+)[Q']?/i], where Q stands for the double
    quote *)
Definition savedSsidPattern : RegExp :=
  mkRegExp false
    (Cat (LitCI (lit "SSID"))
      (Cat (Opt (Chr (is_char ":")))
        (Cat (Star is_space)
          (Cat (Opt (Chr cls_quote))
            (Cat (Cap (Plus (ssid_char false))) (Opt (Chr cls_quote))))))).

(** The body of the loop of [parseSavedNetworks]. *)
Definition savedLine (line : str) : option SavedNetwork :=
  let trimmed := trim line in
  if negb (truthy trimmed) then None else
  let idMatch := re_match savedIdPattern trimmed in
  let ssidMatch := re_match savedSsidPattern trimmed in
  match idMatch with
  | Some id =>
      Some (mkSavedNetwork (default 0 (parseInt id))
              (match ssidMatch with
               | Some s => trim s
               | None => lit "Unknown"
               end))
  | None => None
  end.

Definition parseSavedNetworks (output : str) : list SavedNetwork :=
  for_each_line savedLine (split_char LF output).

(** The patterns of [getStatus]. *)

(** [/SSID:\s*[Q']?([^Q',\n]+)[Q']?/i], where Q stands for the double
    quote *)
Definition statusSsidPattern : RegExp :=
  mkRegExp false
    (Cat (LitCI (lit "SSID:"))
      (Cat (Star is_space)
        (Cat (Opt (Chr cls_quote))
          (Cat (Cap (Plus (ssid_char true))) (Opt (Chr cls_quote)))))).

(** [/BSSID:\s*([0-9a-f:]{17})/i] *)
Definition statusBssidPattern : RegExp :=
  mkRegExp false
    (Cat (LitCI (lit "BSSID:"))
      (Cat (Star is_space) (Cap (Rep 17 (Chr cls_hex_colon_ci))))).

(** [/IP(?:\s+address)?:\s*([0-9.]+)/i] *)
Definition statusIpPattern : RegExp :=
  mkRegExp false
    (Cat (LitCI (lit "IP"))
      (Cat (Opt (Cat (Plus is_space) (LitCI (lit "address"))))
        (Cat (Chr (is_char ":"))
          (Cat (Star is_space) (Cap (Plus cls_digit_dot)))))).

(** [/Link\s+speed:\s*(\d+)/i] *)
Definition statusSpeedPattern : RegExp :=
  mkRegExp false
    (Cat (LitCI (lit "Link"))
      (Cat (Plus is_space)
        (Cat (LitCI (lit "speed:"))
          (Cat (Star is_space) (Cap (Plus is_digit)))))).

(** [/RSSI:\s*(-?\d+)/i] *)
Definition statusRssiPattern : RegExp :=
  mkRegExp false
    (Cat (LitCI (lit "RSSI:"))
      (Cat (Star is_space)
        (Cap (Cat (Opt (Chr (is_char "-"))) (Plus is_digit))))).

(** [/Frequency:\s*(\d+)/i] *)
Definition statusFrequencyPattern : RegExp :=
  mkRegExp false
    (Cat (LitCI (lit "Frequency:"))
      (Cat (Star is_space) (Cap (Plus is_digit)))).

(** Lines 285-289: the ssid of the status. *)
Definition statusSsid (dumpsys : str) : option str :=
  match re_match statusSsidPattern dumpsys with
  | Some g => if negb (str_eqb g (lit "<none>")) then Some (trim g) else None
  | None => None
  end.

(** Lines 272-321 of [getStatus]: the status record built from the
    output of the two commands. *)
Definition statusOfOutputs (statusStdout dumpsys : str) : WifiStatus :=
  mkWifiStatus
    (includes (lit "wifi is enabled") (toLowerCase statusStdout))
    (includes (lit "state: COMPLETED") dumpsys
     || includes (lit "CONNECTED") dumpsys)
    (statusSsid dumpsys)
    (re_match statusBssidPattern dumpsys)
    (re_match statusIpPattern dumpsys)
    (re_match statusSpeedPattern dumpsys ≫= parseInt)
    (re_match statusRssiPattern dumpsys ≫= parseInt)
    (re_match statusFrequencyPattern dumpsys ≫= parseInt).


(** ** The platform: child_process, timers and JSON

    What [util.promisify(child_process.exec)] settles with.  A rejection
    carries the error object of Node.js; besides the four properties
    that [AdbClient.exec] reads ([stdout], [stderr], [code], [message]) it
    has [killed], which Node.js sets when it killed the child itself, as it
    does when the [timeout] option elapses. *)

Record ExecError : Type := mkExecError {
  err_stdout : option str;
  err_stderr : option str;
  err_code : option ExitCode;
  err_message : option str;
  err_killed : bool
}.

Inductive ExecOutcome : Type :=
| Resolved (out err : str)
| Rejected (e : ExecError).

(** A settled call and the milliseconds it took. *)
Record ExecReply : Type := mkExecReply {
  outcome : ExecOutcome;
  took : N
}.

(** The payload that [connectEnterprise] serialises:
    [{ action, timestamp: Date.now(), ...config }]. *)
Record CommandPayload : Type := mkCommandPayload {
  action : str;
  timestamp : N;
  payload_config : EapConfig
}.

Class Platform : Type := {
  World : Type;
  (** [execAsync(command, { timeout })] *)
  execAsync : str -> N -> World -> ExecReply * World;
  (** a parsed JSON value other than null, [JSON.parse] ([None]: it
      throws; [Some None]: the text is the JSON null), the truthiness of
      a value, and [JSON.stringify] of a payload *)
  Json : Type;
  JSON_parse : str -> option (option Json);
  json_truthy : Json -> bool;
  JSON_stringify : CommandPayload -> str
}.

(** ** The host process *)

(** The one [AdbClient] ([adbPath], [selectedDevice]) and the one
    [DeviceManager] ([devices]) of the process, with the clock
    ([Date.now()], in milliseconds) and the command lines spawned so far,
    each with what it settled with. *)
Record HostOf (W : Type) : Type := mkHost {
  world : W;
  clock : N;
  adbPath : str;
  selectedDevice : option str;
  devices : gmap str DeviceInfo;
  spawned : list (str * ExecOutcome)
}.
Arguments mkHost {W}.
Arguments world {W}.
Arguments clock {W}.
Arguments adbPath {W}.
Arguments selectedDevice {W}.
Arguments devices {W}.
Arguments spawned {W}.

Abbreviation Host := (HostOf World).

Section Host.
Context `{P : Platform}.


Inductive Res (A : Type) : Type :=
| Return (a : A)
| Throw (message : str).
Global Arguments Return {A} a.
Global Arguments Throw {A} message.

Definition M (A : Type) : Type := Host -> Res A * Host.

Definition ret {A : Type} (a : A) : M A := fun h => (Return a, h).

Definition throw {A : Type} (message : str) : M A :=
  fun h => (Throw message, h).

Definition bind {A B : Type} (m : M A) (k : A -> M B) : M B :=
  fun h =>
    match m h with
    | (Return a, h') => k a h'
    | (Throw e, h') => (Throw e, h')
    end.

(** [try { m } catch { handler }] *)
Definition try_catch {A : Type} (m : M A) (handler : str -> M A) : M A :=
  fun h =>
    match m h with
    | (Return a, h') => (Return a, h')
    | (Throw e, h') => handler e h'
    end.

End Host.

Notation "'let*' x ':=' m 'in' k" := (bind m (fun x => k))
  (at level 10, x name, m at level 100, k at level 200).

(** What [connectEnterprise] resolves with: a record it built itself, or
    the parsed result file of the companion app, cast to the result type. *)
Inductive EnterpriseReturnOf (J : Type) : Type :=
| Local (r : EnterpriseConnectionResult)
| FromAgent (j : J).
Arguments Local {J}.
Arguments FromAgent {J}.

Abbreviation EnterpriseReturn := (EnterpriseReturnOf Json).

Section Bridge.
Context `{P : Platform}.

(** [await new Promise(resolve => setTimeout(resolve, ms))]: the clock
    moves on by [ms]; a timer that fires late is not told apart from a
    slow next command. *)
Definition sleep (ms : N) : M unit :=
  fun h => (Return tt,
            mkHost (world h) (clock h + ms)%N (adbPath h) (selectedDevice h)
                   (devices h) (spawned h)).

Definition Date_now : M N := fun h => (Return (clock h), h).

(** [this.selectedDevice] is tested for truthiness. *)
Definition selection (h : Host) : option str :=
  match selectedDevice h with
  | Some d => if truthy d then Some d else None
  | None => None
  end.

(** ** adb-client.ts *)

Definition getSelectedDevice : M (option str) :=
  fun h => (Return (selectedDevice h), h).

Definition adb_selectDevice (serial : option str) : M unit :=
  fun h => (Return tt,
            mkHost (world h) (clock h) (adbPath h) serial (devices h)
                   (spawned h)).

(** The [catch] branch of [exec]. *)
Definition resultOfError (e : ExecError) : AdbResult :=
  mkAdbResult false
    (or_else (default [] (trim <$> err_stdout e)) [])
    (or_else (default [] (trim <$> err_stderr e))
       (or_else (default [] (err_message e)) (lit "Unknown error")))
    (match err_code e with                       (* [err.code || 1] *)
     | Some (ExitStatus c) => if c =? 0 then ExitStatus 1 else ExitStatus c
     | Some (ErrorName name) =>
         if truthy name then ErrorName name else ExitStatus 1
     | None => ExitStatus 1
     end).

Definition resultOfOutcome (o : ExecOutcome) : AdbResult :=
  match o with
  | Resolved out err => mkAdbResult true (trim out) (trim err) (ExitStatus 0)
  | Rejected e => resultOfError e
  end.

(** The command line that [exec] spawns: the path of the binary, the
    device scope when a device is selected, the arguments. *)
Definition commandLine (h : Host) (args : list str) : str :=
  let deviceArgs :=
    match selection h with
    | Some d => [lit "-s"; d]
    | None => []
    end in
  let fullArgs := deviceArgs ++ args in
  adbPath h ++ lit " " ++ join (lit " ") fullArgs.

Definition exec (args : list str) (timeout : N) : M AdbResult :=
  fun h =>
    let command := commandLine h args in
    let '(reply, w) := execAsync command timeout (world h) in
    (Return (resultOfOutcome (outcome reply)),
     mkHost w (clock h + took reply)%N (adbPath h) (selectedDevice h)
            (devices h) (spawned h ++ [(command, outcome reply)])).

Definition DEFAULT_TIMEOUT : N := 30000.

Definition shell (command : str) (timeout : N) : M AdbResult :=
  exec [lit "shell"; command] timeout.

(** The inner loop of [listDevices] over [parts[2..]]. *)
Fixpoint deviceProperties (d : Device) (parts : list str) : Device :=
  match parts with
  | [] => d
  | p :: rest =>
      let kv := split_char ":" p in
      let key := nth 0 kv [] in
      let value := nth_error kv 1 in
      let d' :=
        if str_eqb key (lit "product") then
          mkDevice (serial d) (state d) value (model d) (device d)
                   (transportId d)
        else if str_eqb key (lit "model") then
          mkDevice (serial d) (state d) (product d) value (device d)
                   (transportId d)
        else if str_eqb key (lit "device") then
          mkDevice (serial d) (state d) (product d) (model d) value
                   (transportId d)
        else if str_eqb key (lit "transport_id") then
          mkDevice (serial d) (state d) (product d) (model d) (device d) value
        else d in
      deviceProperties d' rest
  end.

(** The body of the loop of [listDevices]. *)
Definition deviceLine (line : str) : option Device :=
  if negb (truthy (trim line)) then None else
  let parts := split_ws (trim line) in
  if (length parts <? 2)%nat then None else
  Some (deviceProperties
          (mkDevice (nth 0 parts []) (nth 1 parts []) None None None None)
          (drop 2 parts)).

Definition adb_listDevices : M (list Device) :=
  let* result := exec [lit "devices"; lit "-l"] DEFAULT_TIMEOUT in
  if negb (success result) then
    throw (lit "Failed to list devices: " ++ stderr result)
  else
    ret (for_each_line deviceLine (drop 1 (split_char LF (stdout result)))).

Definition isReady (d : Device) : bool := str_eqb (state d) (lit "device").

Definition props : list str :=
  [lit "ro.product.model"; lit "ro.product.brand";
   lit "ro.product.manufacturer"; lit "ro.build.version.release";
   lit "ro.build.version.sdk"; lit "ro.build.id"].

(** The loop of [getDeviceInfo] over [props]: the values read, in order. *)
Fixpoint readProps (ps : list str) : M (list str) :=
  match ps with
  | [] => ret []
  | prop :: rest =>
      let* result := shell (lit "getprop " ++ prop) DEFAULT_TIMEOUT in
      let* values := readProps rest in
      ret ((if success result then stdout result else []) :: values)
  end.

Definition getDeviceInfo : M DeviceInfo :=
  let* current := getSelectedDevice in
  let* _ :=
  (match current ≫= (fun d => if truthy d then Some d else None) with
   | Some _ => ret tt
   | None =>
       let* devs := adb_listDevices in
       let connectedDevices := List.filter isReady devs in
       match connectedDevices with
       | [] => throw (lit "No devices connected")
       | [d] => adb_selectDevice (Some (serial d))
       | _ =>
           throw
             (lit "Multiple devices connected. Please select a device first.")
       end
   end) in
  let* values := readProps props in
  let* sel := getSelectedDevice in
  let results (i : nat) : str := nth i values [] in
  ret (mkDeviceInfo
         (default [] sel)
         (or_else (results 0%nat) (lit "Unknown"))
         (or_else (results 1%nat) (lit "Unknown"))
         (or_else (results 2%nat) (lit "Unknown"))
         (or_else (results 3%nat) (lit "Unknown"))
         (parseInt (or_else (results 4%nat) (lit "0")))
         (or_else (results 5%nat) (lit "Unknown"))).

(** ** device-manager.ts *)

Definition cache_set (serial : str) (info : DeviceInfo) : M unit :=
  fun h => (Return tt,
            mkHost (world h) (clock h) (adbPath h) (selectedDevice h)
                   (<[serial := info]> (devices h)) (spawned h)).

Definition cache_has (serial : str) : M bool :=
  fun h => (Return (bool_decide (is_Some (devices h !! serial))), h).

(** The second loop of [refreshDevices]: every cached serial that is not
    in [connectedSerials] is deleted. *)
Definition cache_retain (connectedSerials : gset str) : M unit :=
  fun h => (Return tt,
            mkHost (world h) (clock h) (adbPath h) (selectedDevice h)
                   (filter (fun kv => kv.1 ∈ connectedSerials) (devices h))
                   (spawned h)).

(** The first loop of [refreshDevices]. *)
Fixpoint cacheNewDevices (devs : list Device) : M unit :=
  match devs with
  | [] => ret tt
  | d :: rest =>
      let* cached := cache_has (serial d) in
      let* _ :=
        (if isReady d && negb cached then
           try_catch
             (let* _ := adb_selectDevice (Some (serial d)) in
              let* info := getDeviceInfo in
              cache_set (serial d) info)
             (fun _ => ret tt)
         else ret tt) in
      cacheNewDevices rest
  end.

Definition refreshDevices : M (list Device) :=
  let* devs := adb_listDevices in
  let* _ := cacheNewDevices devs in
  let connectedSerials : gset str := list_to_set (map serial devs) in
  let* _ := cache_retain connectedSerials in
  let* currentSelection := getSelectedDevice in
  let* _ :=
  (match currentSelection with
   | Some s =>
       if truthy s && negb (bool_decide (s ∈ connectedSerials))
       then adb_selectDevice None
       else ret tt
   | None => ret tt
   end) in
  ret devs.

Definition ensureDeviceSelected : M str :=
  let* currentSelection := getSelectedDevice in
  match currentSelection ≫= (fun d => if truthy d then Some d else None) with
  | Some s => ret s
  | None =>
      let* devs := refreshDevices in
      let connectedDevices := List.filter isReady devs in
      match connectedDevices with
      | [] =>
          throw (lit "No Android devices connected. Please connect a device with USB debugging enabled.")
      | [d] =>
          let* _ := adb_selectDevice (Some (serial d)) in
          ret (serial d)
      | _ =>
          throw (lit "Multiple devices connected: "
                 ++ join (lit ", ") (map serial connectedDevices)
                 ++ lit ". "
                 ++ lit "Please select a device using device_select.")
      end
  end.

(** ** wifi-commands.ts: the commands *)

Definition getStatus : M WifiStatus :=
  let* statusResult := shell (lit "cmd wifi status") DEFAULT_TIMEOUT in
  let* dumpsysResult :=
    shell (lit "dumpsys wifi | grep -E "
           ++ quoted (lit "mWifiInfo|Wi-Fi is|current SSID|IP address|Link speed|Frequency|RSSI"))
          DEFAULT_TIMEOUT in
  ret (statusOfOutputs (stdout statusResult) (stdout dumpsysResult)).

Definition is_open (s : SecurityType) : bool :=
  match s with sec_open => true | _ => false end.

Definition connectCommand (ssid : str) (security : SecurityType)
    (password : option str) : str :=
  let command :=
    lit "cmd wifi connect-network " ++ quoted ssid ++ lit " "
    ++ SecurityType_text security in
  match password with
  | Some pw =>
      if truthy pw && negb (is_open security)
      then command ++ lit " " ++ quoted pw
      else command
  | None => command
  end.

(** [status.ssid === ssid] *)
Definition ssid_is (o : option str) (ssid : str) : bool :=
  match o with
  | Some s => str_eqb s ssid
  | None => false
  end.

Definition connect (ssid : str) (security : SecurityType)
    (password : option str) : M WifiConnectionResult :=
  let* result := shell (connectCommand ssid security password)
                   DEFAULT_TIMEOUT in
  if negb (success result)
     || includes (lit "error") (toLowerCase (stdout result))
  then
    ret (mkWifiConnectionResult false ssid
           (Some (or_else (stderr result)
                    (or_else (stdout result) (lit "Connection failed")))))
  else
    let* _ := sleep 3000 in
    let* status := getStatus in
    let connected := st_connected status && ssid_is (st_ssid status) ssid in
    ret (mkWifiConnectionResult connected ssid
           (if connected then None
            else Some (lit "Failed to verify connection"))).

(** ** network-check.ts: dnsLookup *)

(** [/Address(?:\s+\d)?:\s*([0-9.]+|[0-9a-f:]+)/i] *)
Definition addressPattern : RegExp :=
  mkRegExp false
    (Cat (LitCI (lit "Address"))
      (Cat (Opt (Cat (Plus is_space) (Chr is_digit)))
        (Cat (Chr (is_char ":"))
          (Cat (Star is_space)
            (Cap (Alt (Plus cls_digit_dot) (Plus cls_hex_colon_ci))))))).

(** [/^([0-9.]+)/] *)
Definition getentPattern : RegExp :=
  mkRegExp true (Cap (Plus cls_digit_dot)).

(** [/\(([0-9.]+)\)/] *)
Definition pingAddressPattern : RegExp :=
  mkRegExp false
    (Cat (Chr (is_char "(")) (Cat (Cap (Plus cls_digit_dot))
                                  (Chr (is_char ")")))).

(** The loop over the lines of the nslookup output: the addresses pushed. *)
Fixpoint nslookupAddresses (inAnswer : bool) (lines : list str) : list str :=
  match lines with
  | [] => []
  | line :: rest =>
      let inAnswer' := if includes (lit "Name:") line then true else inAnswer in
      let pushed :=
        if inAnswer' then
          match re_match addressPattern line with
          | Some a => if negb (includes (lit ":") a) then [a] else []
          | None => []
          end
        else [] in
      pushed ++ nslookupAddresses inAnswer' rest
  end.

Definition is_empty {A : Type} (l : list A) : bool :=
  match l with [] => true | _ => false end.

Definition dnsLookup (hostname : str) : M DnsResult :=
  let* result := shell (lit "nslookup " ++ hostname) DEFAULT_TIMEOUT in
  let addresses1 :=
    if success result
    then nslookupAddresses false (split_char LF (stdout result))
    else [] in
  let* addresses2 :=
    (if is_empty addresses1 then
       let* result := shell (lit "getent hosts " ++ hostname)
                        DEFAULT_TIMEOUT in
       ret (if success result then
              match re_match getentPattern (stdout result) with
              | Some a => addresses1 ++ [a]
              | None => addresses1
              end
            else addresses1)
     else ret addresses1) in
  let* addresses3 :=
    (if is_empty addresses2 then
       let* result := shell (lit "ping -c 1 " ++ hostname) DEFAULT_TIMEOUT in
       ret (if success result then
              match re_match pingAddressPattern (stdout result) with
              | Some a => addresses2 ++ [a]
              | None => addresses2
              end
            else addresses2)
     else ret addresses2) in
  ret (mkDnsResult hostname addresses3
         (if is_empty addresses3 then Some (lit "DNS lookup failed")
          else None)).

(** ** enterprise-wifi.ts *)

Definition COMPANION_PACKAGE : str := lit "com.example.wifimcpcompanion".
Definition COMMAND_FILE : str := lit "/sdcard/Download/wifi_mcp_command.json".
Definition RESULT_FILE : str := lit "/sdcard/Download/wifi_mcp_result.json".
Definition RESULT_TIMEOUT : N := 30000.
Definition pollInterval : N := 500.

Definition isCompanionAppInstalled : M bool :=
  let* result := shell (lit "pm list packages | grep " ++ COMPANION_PACKAGE)
                   DEFAULT_TIMEOUT in
  ret (includes COMPANION_PACKAGE (stdout result)).

(** [json.replace(/'/g, "'\\''")] *)
Fixpoint escapeQuotes (json : str) : str :=
  match json with
  | [] => []
  | a :: rest =>
      if ascii_eqb a SQUOTE
      then SQUOTE :: "\"%char :: SQUOTE :: SQUOTE :: escapeQuotes rest
      else a :: escapeQuotes rest
  end.

Definition writeCommandFile (payload : CommandPayload) : M unit :=
  let json := JSON_stringify payload in
  let escaped := escapeQuotes json in
  let* _ := shell (lit "echo '" ++ escaped ++ lit "' > " ++ COMMAND_FILE)
              DEFAULT_TIMEOUT in
  ret tt.

Definition rmResultCommand : str := lit "rm -f " ++ RESULT_FILE.
Definition catResultCommand : str :=
  lit "cat " ++ RESULT_FILE ++ lit " 2>/dev/null".

(** One turn of the loop of [waitForResult]: [Some result] when the turn
    ends in [return result], where [result] is a value or null. *)
Definition pollOnce : M (option (option Json)) :=
  let* _ := sleep pollInterval in
  let* checkResult := shell catResultCommand DEFAULT_TIMEOUT in
  if success checkResult && truthy (trim (stdout checkResult)) then
    match JSON_parse (stdout checkResult) with
    | Some result =>
        let* _ := shell rmResultCommand DEFAULT_TIMEOUT in
        ret (Some result)
    | None => ret None
    end
  else ret None.

Definition inspect {A : Type} (a : A) : {b : A | a = b} := exist _ a eq_refl.

(** [while (Date.now() - startTime < RESULT_TIMEOUT) { ... } return null]:
    every turn sleeps for [pollInterval], so the time left shrinks.  The
    loop resolves with null ([None]) when the time is up and also when a
    read delivered the JSON null. *)
Equations? pollLoop (startTime : N) (h : Host) : Res (option Json) * Host
  by wf (N.to_nat (startTime + RESULT_TIMEOUT - clock h)) lt :=
  pollLoop startTime h with inspect (clock h - startTime <? RESULT_TIMEOUT)%N := {
    | exist _ false _ := (Return None, h);
    | exist _ true _ with inspect (pollOnce h) := {
        | exist _ (Return (Some result), h') _ := (Return result, h');
        | exist _ (Return None, h') _ := pollLoop startTime h';
        | exist _ (Throw e, h') _ := (Throw e, h') } }.
Proof.
  clear pollLoop.
  match goal with H : pollOnce h = _ |- _ => rename H into Hstep end.
  match goal with H : (_ <? _)%N = true |- _ => rename H into Hlt end.
  apply N.ltb_lt in Hlt.
  assert (Hclock : (clock h + pollInterval <= clock h')%N).
  { unfold pollOnce, bind, sleep, shell, exec, ret in Hstep. cbn in Hstep.
    destruct (execAsync _ _ _) as [reply w] in Hstep. cbn in Hstep.
    destruct (success _ && truthy _) in Hstep;
      [destruct (JSON_parse _) in Hstep |]; cbn in Hstep.
    - destruct (execAsync _ _ _) as [reply2 w2] in Hstep. discriminate.
    - injection Hstep as <-. cbn. lia.
    - injection Hstep as <-. cbn. lia. }
  unfold pollInterval, RESULT_TIMEOUT in *. lia.
Qed.

Definition waitForResult (identifier : str) : M (option Json) :=
  let* startTime := Date_now in
  let* _ := shell rmResultCommand DEFAULT_TIMEOUT in
  pollLoop startTime.

Definition absent (o : option str) : bool :=        (* [!o] *)
  match o with
  | Some s => negb (truthy s)
  | None => true
  end.

Definition needsPassword (m : EapMethod) : bool :=
  match m with peap | ttls => true | tls => false end.

Definition is_tls (m : EapMethod) : bool :=
  match m with tls => true | _ => false end.

Definition connectEnterprise (config : EapConfig) : M EnterpriseReturn :=
  let failure (error : str) : EnterpriseReturn :=
    Local (mkEnterpriseConnectionResult false (eap_ssid config)
             (eapMethod config) (Some error)) in
  if needsPassword (eapMethod config) && absent (password config) then
    ret (failure (lit "Password is required for EAP-PEAP/TTLS"))
  else if is_tls (eapMethod config)
          && (absent (clientCertificate config) || absent (privateKey config))
  then
    ret (failure
           (lit "Client certificate and private key are required for EAP-TLS"))
  else
    let* appInstalled := isCompanionAppInstalled in
    if negb appInstalled then
      ret (failure (lit "Companion app not installed. Please install "
                    ++ COMPANION_PACKAGE))
    else
      let* now := Date_now in
      let commandPayload :=
        mkCommandPayload (lit "connect_enterprise") now config in
      let* _ := writeCommandFile commandPayload in
      let* broadcastResult :=
        shell (lit "am broadcast -a " ++ COMPANION_PACKAGE
               ++ lit ".CONNECT_ENTERPRISE "
               ++ lit "-n " ++ COMPANION_PACKAGE ++ lit "/.AdbBridgeReceiver "
               ++ lit "--es config_file " ++ quoted COMMAND_FILE)
              DEFAULT_TIMEOUT in
      if negb (success broadcastResult) then
        ret (failure (lit "Failed to send broadcast: "
                      ++ stderr broadcastResult))
      else
        let* result := waitForResult (eap_ssid config) in
        ret (match result with
             | Some j =>
                 if json_truthy j then FromAgent j
                 else failure (lit "Timeout waiting for connection result")
             | None => failure (lit "Timeout waiting for connection result")
             end).

End Bridge.

(** ** The remaining operations

    [`${n}`] of a number in a template literal: Number::toString of
    ECMAScript, for a number that is an integer or an infinity.  Below
    2^53 every integer is a double and prints as its decimal digits.
    Beyond, the digits printed are the shortest that still round to the
    number ([shortest]); they are filled up with zeros when the number has
    at most 21 digits and are put in exponent notation otherwise. *)
Definition digitsOf (n : Z) : str := lit (NilZero.string_of_int (Z.to_int n)).

(** The digits [s], [k] of them, and the position [n] of the decimal point
    such that [s * 10^(n-k)] rounds to the double [v]: the least [k] from
    [k] on that has such digits, of two candidates the one nearer to [v],
    of two equally near ones the even one.  [fuel] bounds the search;
    seventeen digits tell any two doubles apart. *)
Fixpoint shortest (fuel : nat) (k : Z) (v : Z) : str * Z :=
  let n := Z.of_nat (length (digitsOf v)) in
  match fuel with
  | O => (digitsOf v, n)
  | S fuel' =>
      if n <=? k then (digitsOf v, n) else
      let unit := 10 ^ (n - k) in
      let lo := v / unit in
      let hi := lo + 1 in
      let okLo := toDouble (lo * unit) =? v in
      let okHi := toDouble (hi * unit) =? v in
      let pick (s : Z) := (digitsOf s, Z.of_nat (length (digitsOf s)) + (n - k)) in
      if okLo && okHi then
        if v - lo * unit <? hi * unit - v then pick lo
        else if hi * unit - v <? v - lo * unit then pick hi
        else if Z.even lo then pick lo else pick hi
      else if okLo then pick lo
      else if okHi then pick hi
      else shortest fuel' (k + 1) v
  end.

Fixpoint stripZeros (rev_digits : str) : str :=
  match rev_digits with
  | a :: rest => if ascii_eqb a "0" then stripZeros rest else rev_digits
  | [] => []
  end.

Definition numberText (n : Z) : str :=
  let v := Z.abs n in
  let sign := if n <? 0 then lit "-" else [] in
  if INFINITY <=? v then sign ++ lit "Infinity"
  else if v <=? 2 ^ 53 then sign ++ digitsOf v
  else
    let '(digits, point) := shortest 17 1 v in
    let s := match rev (stripZeros (rev digits)) with
             | [] => lit "0"
             | d => d
             end in
    let k := Z.of_nat (length s) in
    if point <=? 21 then
      sign ++ s ++ repeat "0"%char (Z.to_nat (point - k))
    else
      match s with
      | [d] => sign ++ [d] ++ lit "e+" ++ digitsOf (point - 1)
      | d :: more =>
          sign ++ [d] ++ lit "." ++ more ++ lit "e+" ++ digitsOf (point - 1)
      | [] => sign
      end.

Definition numberOrNaN (n : option Z) : str :=
  match n with
  | Some z => numberText z
  | None => lit "NaN"
  end.

(** [parseFloat]: a floating-point number is kept abstract. *)
Class Numbers : Type := {
  Float : Type;
  parseFloat : str -> Float
}.

(** *** types.ts, continued *)

Record PingResultOf (F : Type) : Type := mkPingResult {
  ping_host : str;
  alive : bool;
  ping_time : option F;
  packetLoss : option Z;
  ping_output : str
}.
Arguments mkPingResult {F}.
Arguments ping_host {F}.
Arguments alive {F}.
Arguments ping_time {F}.
Arguments packetLoss {F}.
Arguments ping_output {F}.

Abbreviation PingResult := (PingResultOf Float).

(** The [latency] of a ConnectivityResult: the difference of two readings
    of the clock, or the average time that ping printed. *)
Inductive LatencyOf (F : Type) : Type :=
| Elapsed (ms : N)
| Average (t : F).
Arguments Elapsed {F}.
Arguments Average {F}.

Record ConnectivityResultOf (F : Type) : Type := mkConnectivityResult {
  hasInternet : bool;
  latency : option (LatencyOf F);
  endpoint : option str;
  net_error : option str
}.
Arguments mkConnectivityResult {F}.
Arguments hasInternet {F}.
Arguments latency {F}.
Arguments endpoint {F}.
Arguments net_error {F}.

Abbreviation ConnectivityResult := (ConnectivityResultOf Float).

Record CaptivePortalResult : Type := mkCaptivePortalResult {
  isCaptive : bool;
  portalUrl : option str;
  captive_error : option str
}.

(** The record that [getInterfaceInfo] resolves with. *)
Record InterfaceInfo : Type := mkInterfaceInfo {
  interface : str;
  if_ipAddress : option str;
  gateway : option str;
  dns : option (list str)
}.

Inductive CertificateType : Type := ca | client.

Record CertificateInstallResult : Type := mkCertificateInstallResult {
  cert_success : bool;
  cert_alias : str;
  cert_type : CertificateType;
  cert_error : option str
}.

(** [Device & Partial<DeviceInfo>]: a listed device with the cached
    information spread over it. *)
Record DeviceEntry : Type := mkDeviceEntry {
  entry_serial : str;
  entry_state : str;
  entry_product : option str;
  entry_model : option str;
  entry_device : option str;
  entry_transportId : option str;
  entry_brand : option str;
  entry_manufacturer : option str;
  entry_androidVersion : option str;
  entry_sdkVersion : option (option Z);
  entry_buildId : option str
}.

(** What [checkAndroidVersion] resolves with. *)
Record VersionCheck : Type := mkVersionCheck {
  supported : bool;
  version : option Z;                  (* [None] is NaN *)
  version_message : str
}.

(** The payloads of the two certificate commands. *)
Record InstallPayload : Type := mkInstallPayload {
  install_action : str;
  install_timestamp : N;
  install_certificate : str;
  install_alias : str;
  install_type : CertificateType
}.

Record ListPayload : Type := mkListPayload {
  list_action : str;
  list_timestamp : N
}.

(** [JSON.stringify] of these payloads, and [j?.[key]] on a parsed value
    ([None]: undefined or null). *)
Class CertificateJson (J : Type) : Type := {
  stringifyInstall : InstallPayload -> str;
  stringifyList : ListPayload -> str;
  json_get : J -> str -> option J
}.

(** What [installCertificate] and [listCertificates] resolve with: a value
    built here, or a value of the parsed result file, cast to the result
    type. *)
Inductive InstallReturnOf (J : Type) : Type :=
| LocalInstall (r : CertificateInstallResult)
| AgentInstall (j : J).
Arguments LocalInstall {J}.
Arguments AgentInstall {J}.

Inductive CertificatesReturnOf (J : Type) : Type :=
| NoCertificates                       (* the literal [[]] *)
| AgentCertificates (j : J).
Arguments NoCertificates {J}.
Arguments AgentCertificates {J}.

(** What a tool handler resolves with. *)
Record ToolResultOf (T : Type) : Type := mkToolResult {
  content : T;
  isError : bool
}.
Arguments mkToolResult {T}.
Arguments content {T}.
Arguments isError {T}.

(** The content of the [wifi_connect] tool: a plain text, or the value
    that is serialised, [{ success: true, ssid, status }] or
    [{ success: false, ssid, error }]. *)
Inductive ConnectContent : Type :=
| ConnectText (text : str)
| Connected (ssid : str) (status : WifiStatus)
| NotConnected (ssid : str) (error : option str).

Section Operations.
Context `{P : Platform} `{FL : Numbers} `{CJ : CertificateJson Json}.

(** *** device-manager.ts *)

(** [{ ...device, ...info }] *)
Definition spread (d : Device) (info : option DeviceInfo) : DeviceEntry :=
  match info with
  | Some i =>
      mkDeviceEntry (info_serial i) (state d) (product d)
        (Some (info_model i)) (device d) (transportId d)
        (Some (info_brand i)) (Some (info_manufacturer i))
        (Some (info_androidVersion i)) (Some (info_sdkVersion i))
        (Some (info_buildId i))
  | None =>
      mkDeviceEntry (serial d) (state d) (product d) (model d) (device d)
        (transportId d) None None None None None
  end.

Definition listDevices : M (list DeviceEntry) :=
  let* devs := refreshDevices in
  fun h => (Return (map (fun d => spread d (devices h !! serial d)) devs), h).

Definition selectDevice (serial : option str) : M unit :=
  adb_selectDevice serial.

Definition getSelectedDeviceInfo : M DeviceInfo := getDeviceInfo.

(** [version < 30]; a comparison with NaN is false. *)
Definition below (version : option Z) (n : Z) : bool :=
  match version with
  | Some v => v <? n
  | None => false
  end.

Definition checkAndroidVersion : M VersionCheck :=
  let* info := getDeviceInfo in
  let version := info_sdkVersion info in
  if below version 30 then
    ret (mkVersionCheck false version
           (lit "Android SDK " ++ numberOrNaN version
            ++ lit " detected. This tool requires Android 11 (SDK 30) or higher for full functionality."))
  else
    ret (mkVersionCheck true version
           (lit "Android SDK " ++ numberOrNaN version
            ++ lit " detected. Full functionality available.")).

(** *** wifi-commands.ts *)

Definition setEnabled (enabled : bool) : M unit :=
  let state := if enabled then lit "enabled" else lit "disabled" in
  let* result := shell (lit "cmd wifi set-wifi-enabled " ++ state)
                   DEFAULT_TIMEOUT in
  if negb (success result) then
    throw (lit "Failed to " ++ (if enabled then lit "enable" else lit "disable")
           ++ lit " WiFi: " ++ stderr result)
  else ret tt.

Definition startScan : M unit :=
  let* result := shell (lit "cmd wifi start-scan") DEFAULT_TIMEOUT in
  if negb (success result) then
    throw (lit "Failed to start scan: " ++ stderr result)
  else ret tt.

Definition getScanResults : M (list ScanResult) :=
  let* result := shell (lit "cmd wifi list-scan-results") DEFAULT_TIMEOUT in
  if negb (success result) then
    throw (lit "Failed to get scan results: " ++ stderr result)
  else ret (parseScanResults (stdout result)).

Definition scan : M (list ScanResult) :=
  let* _ := startScan in
  let* _ := sleep 2000 in
  getScanResults.

Definition listSavedNetworks : M (list SavedNetwork) :=
  let* result := shell (lit "cmd wifi list-networks") DEFAULT_TIMEOUT in
  if negb (success result) then
    throw (lit "Failed to list networks: " ++ stderr result)
  else ret (parseSavedNetworks (stdout result)).

Definition forgetNetwork (networkId : Z) : M unit :=
  let* result := shell (lit "cmd wifi forget-network " ++ numberText networkId)
                   DEFAULT_TIMEOUT in
  if negb (success result) then
    throw (lit "Failed to forget network: " ++ stderr result)
  else ret tt.

Inductive DisconnectMode : Type := toggle | forget.

Definition disconnect (mode : DisconnectMode) : M unit :=
  match mode with
  | forget =>
      let* status := getStatus in
      if negb (st_connected status) || absent (st_ssid status) then
        throw (lit "Not connected to any network")
      else
        let* networks := listSavedNetworks in
        match List.find (fun n => ssid_is (st_ssid status) (saved_ssid n))
                networks with
        | Some current => forgetNetwork (networkId current)
        | None =>
            throw (lit "Could not find saved network for "
                   ++ quoted (default [] (st_ssid status)))
        end
  | toggle =>
      let* _ := setEnabled false in
      let* _ := sleep 1000 in
      setEnabled true
  end.

(** *** network-check.ts *)

(** [/avg[^=]*=\s*[\d.]+\/([\d.]+)/] *)
Definition pingTimePattern : RegExp :=
  mkRegExp false
    (Cat (Lit (lit "avg"))
      (Cat (Star (fun a => negb (ascii_eqb a "=")))
        (Cat (Chr (is_char "="))
          (Cat (Star is_space)
            (Cat (Plus cls_digit_dot)
              (Cat (Chr (is_char "/")) (Cap (Plus cls_digit_dot)))))))).

(** [/(\d+)%\s*packet loss/] *)
Definition packetLossPattern : RegExp :=
  mkRegExp false
    (Cat (Cap (Plus is_digit))
      (Cat (Chr (is_char "%"))
        (Cat (Star is_space) (Lit (lit "packet loss"))))).

Definition ping (host : str) (count : Z) : M PingResult :=
  let* result := shell (lit "ping -c " ++ numberText count ++ lit " -W 5 "
                        ++ host) DEFAULT_TIMEOUT in
  let output := or_else (stdout result) (stderr result) in
  if success result then
    ret (mkPingResult host
           (negb (includes (lit "100% packet loss") (stdout result)))
           (parseFloat <$> re_match pingTimePattern (stdout result))
           (re_match packetLossPattern (stdout result) ≫= parseInt)
           output)
  else ret (mkPingResult host false None None output).

Definition testUrls : list (str * Z) :=
  [(lit "https://www.google.com/generate_204", 204);
   (lit "https://connectivitycheck.gstatic.com/generate_204", 204);
   (lit "https://www.cloudflare.com/cdn-cgi/trace", 200)].

(** [httpCode === expected || (httpCode >= 200 && httpCode < 400)]; every
    comparison with NaN is false. *)
Definition codeAccepted (httpCode : option Z) (expected : Z) : bool :=
  match httpCode with
  | Some c => (c =? expected) || ((200 <=? c) && (c <? 400))
  | None => false
  end.

Definition probeCommand (url : str) : str :=
  lit "curl -s -o /dev/null -w " ++ quoted (lit "%{http_code}")
  ++ lit " --connect-timeout 5 --max-time 10 " ++ quoted url.

(** The loop of [checkInternet] over [testUrls]: [Some result] when a turn
    ends in [return]. *)
Fixpoint probeUrls (tests : list (str * Z)) : M (option ConnectivityResult) :=
  match tests with
  | [] => ret None
  | (url, expected) :: rest =>
      let* startTime := Date_now in
      let* result := shell (probeCommand url) DEFAULT_TIMEOUT in
      let* now := Date_now in
      let latency := (now - startTime)%N in
      if success result
         && codeAccepted (parseInt (trim (stdout result))) expected
      then ret (Some (mkConnectivityResult true (Some (Elapsed latency))
                        (Some url) None))
      else probeUrls rest
  end.

Definition checkInternet : M ConnectivityResult :=
  let* found := probeUrls testUrls in
  match found with
  | Some r => ret r
  | None =>
      let* pingResult := ping (lit "8.8.8.8") 1 in
      if alive pingResult then
        ret (mkConnectivityResult true (Average <$> ping_time pingResult)
               (Some (lit "8.8.8.8 (ping)")) None)
      else
        ret (mkConnectivityResult false None None
               (Some (lit "Failed to reach any internet endpoints")))
  end.

Definition captiveCheckUrl : str :=
  lit "http://connectivitycheck.gstatic.com/generate_204".

(** [httpCode === n] *)
Definition code_is (httpCode : option Z) (n : Z) : bool :=
  match httpCode with
  | Some c => c =? n
  | None => false
  end.

Definition captiveProbeCommand : str :=
  lit "curl -s -o /dev/null -w " ++ quoted (lit "%{http_code}\n%{redirect_url}")
  ++ lit " --connect-timeout 5 --max-time 10 -L " ++ quoted captiveCheckUrl.

Definition captiveContentCommand : str :=
  lit "curl -s --connect-timeout 5 --max-time 10 " ++ quoted captiveCheckUrl
  ++ lit " | head -c 200".

Definition checkCaptivePortal : M CaptivePortalResult :=
  let* result := shell captiveProbeCommand DEFAULT_TIMEOUT in
  if negb (success result) then
    ret (mkCaptivePortalResult false None
           (Some (lit "Failed to check captive portal")))
  else
    let lines := split_char LF (trim (stdout result)) in
    let httpCode := parseInt (nth 0 lines []) in
    let redirectUrl := or_else (nth 1 lines []) [] in
    if code_is httpCode 204 then
      ret (mkCaptivePortalResult false None None)
    else if (code_is httpCode 301 || code_is httpCode 302)
            && truthy redirectUrl then
      ret (mkCaptivePortalResult true (Some redirectUrl) None)
    else
      let notCaptive := ret (mkCaptivePortalResult false None None) in
      if code_is httpCode 200 then
        let* contentResult := shell captiveContentCommand DEFAULT_TIMEOUT in
        if success contentResult
           && (0 <? length (stdout contentResult))%nat then
          ret (mkCaptivePortalResult true (Some captiveCheckUrl) None)
        else notCaptive
      else notCaptive.

(** [/inet\s+([0-9.]+)/] *)
Definition inetPattern : RegExp :=
  mkRegExp false
    (Cat (Lit (lit "inet")) (Cat (Plus is_space) (Cap (Plus cls_digit_dot)))).

(** [/via\s+([0-9.]+)/] *)
Definition viaPattern : RegExp :=
  mkRegExp false
    (Cat (Lit (lit "via")) (Cat (Plus is_space) (Cap (Plus cls_digit_dot)))).

Definition getInterfaceInfo : M InterfaceInfo :=
  let* ipResult := shell (lit "ip addr show wlan0 | grep "
                          ++ quoted (lit "inet ")) DEFAULT_TIMEOUT in
  let ipAddress :=
    if success ipResult then re_match inetPattern (stdout ipResult)
    else None in
  let* gwResult := shell (lit "ip route | grep default") DEFAULT_TIMEOUT in
  let gateway :=
    if success gwResult then re_match viaPattern (stdout gwResult)
    else None in
  let* dnsResult := shell (lit "getprop net.dns1 && getprop net.dns2")
                      DEFAULT_TIMEOUT in
  let dns :=
    if success dnsResult then
      let dnsServers :=
        List.filter (fun line => truthy (trim line))
          (split_char LF (stdout dnsResult)) in
      if (0 <? length dnsServers)%nat then Some dnsServers else None
    else None in
  ret (mkInterfaceInfo (lit "wlan0") ipAddress gateway dns).

(** *** enterprise-wifi.ts *)

(** [writeCommandFile] after [JSON.stringify(payload)]. *)
Definition writeCommandJson (json : str) : M unit :=
  let escaped := escapeQuotes json in
  let* _ := shell (lit "echo '" ++ escaped ++ lit "' > " ++ COMMAND_FILE)
              DEFAULT_TIMEOUT in
  ret tt.

Definition installBroadcast : str :=
  lit "am broadcast -a " ++ COMPANION_PACKAGE ++ lit ".INSTALL_CERTIFICATE "
  ++ lit "-n " ++ COMPANION_PACKAGE ++ lit "/.AdbBridgeReceiver "
  ++ lit "--es config_file " ++ quoted COMMAND_FILE.

Definition installCertificate (certificate alias : str)
    (type : CertificateType) : M (InstallReturnOf Json) :=
  let failure (error : str) : InstallReturnOf Json :=
    LocalInstall (mkCertificateInstallResult false alias type (Some error)) in
  let* appInstalled := isCompanionAppInstalled in
  if negb appInstalled then
    ret (failure (lit "Companion app not installed. Please install "
                  ++ COMPANION_PACKAGE))
  else
    let* now := Date_now in
    let commandPayload :=
      mkInstallPayload (lit "install_certificate") now certificate alias
        type in
    let* _ := writeCommandJson (stringifyInstall commandPayload) in
    let* broadcastResult := shell installBroadcast DEFAULT_TIMEOUT in
    if negb (success broadcastResult) then
      ret (failure (lit "Failed to send broadcast: "
                    ++ stderr broadcastResult))
    else
      let* result := waitForResult alias in
      ret (match result with
           | Some j =>
               if json_truthy j then AgentInstall j
               else failure
                      (lit "Timeout waiting for certificate installation result")
           | None =>
               failure
                 (lit "Timeout waiting for certificate installation result")
           end).

Definition listBroadcast : str :=
  lit "am broadcast -a " ++ COMPANION_PACKAGE ++ lit ".LIST_CERTIFICATES "
  ++ lit "-n " ++ COMPANION_PACKAGE ++ lit "/.AdbBridgeReceiver "
  ++ lit "--es config_file " ++ quoted COMMAND_FILE.

Definition listCertificates : M (CertificatesReturnOf Json) :=
  let* appInstalled := isCompanionAppInstalled in
  if negb appInstalled then ret NoCertificates
  else
    let* now := Date_now in
    let commandPayload := mkListPayload (lit "list_certificates") now in
    let* _ := writeCommandJson (stringifyList commandPayload) in
    let* _ := shell listBroadcast DEFAULT_TIMEOUT in
    let* result := waitForResult (lit "list") in
    ret (match result ≫= (fun j => json_get j (lit "certificates")) with
         | Some certificates =>
             if json_truthy certificates then AgentCertificates certificates
             else NoCertificates
         | None => NoCertificates
         end).

(** *** index.ts: two tool handlers

    What a handler resolves with: its one text item and the [isError]
    flag (false when the handler leaves it out).  Where the text is
    [JSON.stringify(value, null, 2)], the content is the value. *)

Definition ensureDevice : M unit :=
  let* _ := ensureDeviceSelected in
  ret tt.

Definition device_select (serial : str) : M (ToolResultOf str) :=
  let* _ := selectDevice (Some serial) in
  let* info := getSelectedDeviceInfo in
  ret (mkToolResult
         (lit "Selected device: " ++ serial ++ [LF]
          ++ lit "Model: " ++ info_model info ++ [LF]
          ++ lit "Android: " ++ info_androidVersion info
          ++ lit " (SDK " ++ numberOrNaN (info_sdkVersion info) ++ lit ")")
         false).

(** [security === 'wpa2' || security === 'wpa3'] *)
Definition needsPassphrase (security : SecurityType) : bool :=
  match security with
  | sec_wpa2 | sec_wpa3 => true
  | _ => false
  end.

Definition wifi_connect (ssid : str) (security : SecurityType)
    (password : option str) : M (ToolResultOf ConnectContent) :=
  let* _ := ensureDevice in
  if needsPassphrase security && absent password then
    ret (mkToolResult
           (ConnectText
              (lit "Error: Password is required for WPA2/WPA3 networks"))
           true)
  else
    let* result := connect ssid security password in
    if conn_success result then
      let* status := getStatus in
      ret (mkToolResult (Connected (conn_ssid result) status) false)
    else
      ret (mkToolResult
             (NotConnected (conn_ssid result) (conn_error result)) true).

End Operations.

(** ** Vocabulary of the statements *)

(** The value that a run resolved with, if it did. *)
Definition returned {A : Type} (r : Res A) : option A :=
  match r with
  | Return a => Some a
  | Throw _ => None
  end.

(** *** The command executor *)

(** The stderr that the [catch] branch reports, said from the error
    object: the captured stderr when it is not blank, else the message of
    the error, else a fixed text. *)
Definition reported_stderr (e : ExecError) (text : str) : Prop :=
  match err_stderr e with
  | Some s =>
      if truthy (trim s) then text = trim s
      else match err_message e with
           | Some (a :: m) => text = a :: m
           | _ => text = lit "Unknown error"
           end
  | None =>
      match err_message e with
      | Some (a :: m) => text = a :: m
      | _ => text = lit "Unknown error"
      end
  end.

(** The exit code that the [catch] branch reports: the code of the error
    when it is a number other than 0 or a name that is not empty, else
    1. *)
Definition reported_code (e : ExecError) (c : ExitCode) : Prop :=
  match err_code e with
  | Some (ExitStatus n) => if decide (n = 0) then c = ExitStatus 1 else c = ExitStatus n
  | Some (ErrorName []) => c = ExitStatus 1
  | Some (ErrorName name) => c = ErrorName name
  | None => c = ExitStatus 1
  end.

Definition not_killed (e : ExecError) : ExecError :=
  mkExecError (err_stdout e) (err_stderr e) (err_code e) (err_message e) false.

(** *** The scan-result parser *)

(** The priority list of the security labels, as the specification words
    it: (marker, label) pairs tried from the top, "Open" when no marker is
    found. *)
Definition securityPriority : list (str * str) :=
  [(lit "SAE", lit "SAE"); (lit "WPA3", lit "WPA3"); (lit "WPA2", lit "WPA2");
   (lit "WPA", lit "WPA"); (lit "WEP", lit "WEP"); (lit "OWE", lit "OWE")].

Fixpoint firstMatch (table : list (str * str)) (flags : str) : str :=
  match table with
  | [] => lit "Open"
  | (marker, label) :: rest =>
      if includes marker flags then label else firstMatch rest flags
  end.

(** The bracketed capability suffix of a scan line: the line from its
    first opening bracket on, and the empty text when it has none. *)
Fixpoint bracketSuffix (line : str) : str :=
  match line with
  | [] => []
  | a :: rest => if ascii_eqb a "[" then line else bracketSuffix rest
  end.

(** Six pairs of hexadecimal digits with colons in between: [groups] more
    pairs follow the first. *)
Fixpoint isMacFrom (groups : nat) (t : str) : bool :=
  match t with
  | a :: b :: rest =>
      cls_hex_ci a && cls_hex_ci b &&
      match groups with
      | O => is_empty rest
      | S g =>
          match rest with
          | c :: rest' => ascii_eqb c ":" && isMacFrom g rest'
          | [] => false
          end
      end
  | _ => false
  end.

Definition isMac (t : str) : bool := isMacFrom 5 t.

(** One group of the MAC pattern. *)
Definition hexGroup : regex :=
  Cap (Cat (Rep 2 (Chr cls_hex_ci)) (Chr (is_char ":"))).

Definition allDigits (t : str) : bool := forallb is_digit t.



(** The number that a string of digits, with an optional minus sign,
    writes. *)
Definition decimal (t : str) : Z := digits_value 0 t.







(** A character that is not white space; a text that does not begin with
    white space. *)
Definition nonspace (a : ascii) : bool := negb (is_space a).

Definition headNonspace (s : str) : Prop :=
  match s with
  | a :: _ => is_space a = false
  | [] => True
  end.

(** The first white-space token of a line. *)
Definition firstToken (line : str) : str :=
  take_while (fun a => negb (is_space a)) (trimStart line).

(** *** The device registry *)

(** The two error texts of [ensureDeviceSelected]. *)
Definition noDeviceMessage : str :=
  lit "No Android devices connected. Please connect a device with USB debugging enabled.".

Definition ambiguityMessage (serials : list str) : str :=
  lit "Multiple devices connected: " ++ join (lit ", ") serials
  ++ lit ". Please select a device using device_select.".

(** The host after [this.adb.selectDevice(serial)]. *)
Definition selecting `{P : Platform} (serial : str) (h : Host) : Host :=
  mkHost (world h) (clock h) (adbPath h) (Some serial) (devices h) (spawned h).

(** *** The enterprise bridge *)

(** What [connectEnterprise] resolves with when it gives up. *)
Definition buildFailure `{P : Platform} (config : EapConfig) (error : str)
  : EnterpriseReturn :=
  Local (mkEnterpriseConnectionResult false (eap_ssid config)
           (eapMethod config) (Some error)).

(** The request lacks a field that its method requires: the password
    for PEAP and TTLS, the client certificate or the private key for TLS
    (a field that holds the empty string counts as lacking). *)
Definition lacksRequiredField (config : EapConfig) : Prop :=
  match eapMethod config with
  | peap | ttls => absent (password config) = true
  | tls => absent (clientCertificate config) = true
           \/ absent (privateKey config) = true
  end.

Definition timeoutFailure `{P : Platform} (config : EapConfig)
  : EnterpriseReturn :=
  buildFailure config (lit "Timeout waiting for connection result").

(** The command lines of an enterprise exchange. *)
Definition sh `{P : Platform} (h : Host) (command : str) : str :=
  commandLine h [lit "shell"; command].

Definition pmCommand : str :=
  lit "pm list packages | grep com.example.wifimcpcompanion".

Definition echoCommand `{P : Platform} (payload : CommandPayload) : str :=
  lit "echo '" ++ escapeQuotes (JSON_stringify payload)
  ++ lit "' > /sdcard/Download/wifi_mcp_command.json".

Definition broadcastCommand : str :=
  lit "am broadcast -a com.example.wifimcpcompanion.CONNECT_ENTERPRISE -n com.example.wifimcpcompanion/.AdbBridgeReceiver --es config_file "
  ++ quoted (lit "/sdcard/Download/wifi_mcp_command.json").

(** The error text for a device without the companion app. *)
Definition agentMissing : str :=
  lit "Companion app not installed. Please install com.example.wifimcpcompanion".

(** What a read of the result file delivers: nothing when the command
    failed, printed only white space, or printed what does not parse; else
    the value parsed, which may be null. *)
Definition delivered `{P : Platform} (o : ExecOutcome)
  : option (option Json) :=
  if success (resultOfOutcome o) && truthy (trim (stdout (resultOfOutcome o)))
  then JSON_parse (stdout (resultOfOutcome o))
  else None.

Definition readEntries `{P : Platform} (h : Host) (reads : list ExecOutcome)
  : list (str * ExecOutcome) :=
  map (fun o => (sh h catResultCommand, o)) reads.

(** What the loop of the poll adds to the log on the way from [h] to
    [h'], and what it resolves with: reads of the result file that
    delivered nothing, and then either nothing more, when the time is up
    (thirty seconds after [startTime] at the least; the poll resolves with
    null), or one read that delivered, followed by the deletion of the
    file (the poll resolves with what that read delivered). *)
Definition loopTrace `{P : Platform} (startTime : N) (h h' : Host)
    (result : option Json) (log : list (str * ExecOutcome)) : Prop :=
  exists reads : list ExecOutcome,
    Forall (fun o => delivered o = None) reads /\
    ((log = readEntries h reads /\ result = None
      /\ (startTime + RESULT_TIMEOUT <= clock h')%N)
     \/
     (exists o_read o_rm,
        log = readEntries h reads
              ++ [(sh h catResultCommand, o_read);
                  (sh h rmResultCommand, o_rm)]
        /\ delivered o_read = Some result)).

(** The same for a poll whose time counts from [h]. *)
Definition pollTrace `{P : Platform} (h h' : Host) (result : option Json)
    (log : list (str * ExecOutcome)) : Prop :=
  loopTrace (clock h) h h' result log.




(** The two commands that touch the result file. *)
Definition isDelete (command : str) : bool :=
  endsWith (lit " shell rm -f /sdcard/Download/wifi_mcp_result.json") command.

Definition isCat (command : str) : bool :=
  endsWith (lit " shell cat /sdcard/Download/wifi_mcp_result.json 2>/dev/null")
    command.











(** The command line of a call depends on the host only through the
    client's [adbPath] and selection. *)
Definition sameClient `{P : Platform} (h h' : Host) : Prop :=
  adbPath h' = adbPath h /\ selectedDevice h' = selectedDevice h.

(** ** A simulated device

    A stand-in for the bridge binary and the device, used to run the
    operations on concrete inputs.  The device holds the result file of the
    companion app; [rm -f] of it deletes it (on a device that is
    [sim_readOnly] it fails and leaves the file), [cat] of it prints it
    (and fails when there is none), every other command is answered from
    a script.  [sim_agent] is what the companion app does in the meantime:
    before the n-th command runs, it writes the n-th entry (when that is
    [Some content]) to the result file. *)

Record Sim : Type := mkDevice_sim {
  sim_resultFile : option str;
  sim_agent : list (option str);
  sim_script : list ExecReply;
  sim_readOnly : bool
}.

(** A device on which [rm -f] works. *)
Definition mkSim (file : option str) (agent : list (option str))
    (script : list ExecReply) : Sim :=
  mkDevice_sim file agent script false.

Definition replyOk (out : str) : ExecReply := mkExecReply (Resolved out []) 20.

(** The rejection of [exec] for a command that exits with [code]. *)
Definition replyExit (command : str) (code : Z) (errText : str) : ExecReply :=
  mkExecReply
    (Rejected (mkExecError (Some []) (Some errText) (Some (ExitStatus code))
                 (Some (lit "Command failed: " ++ command ++ [LF] ++ errText))
                 false))
    20.

Definition sim_exec (command : str) (timeout : N) (w : Sim)
  : ExecReply * Sim :=
  let file :=
    match sim_agent w with
    | Some content :: _ => Some content
    | _ => sim_resultFile w
    end in
  let agent := tail (sim_agent w) in
  let device f script := mkDevice_sim f agent script (sim_readOnly w) in
  if isDelete command then
    if sim_readOnly w
    then (replyExit command 1
            (lit "rm: /sdcard/Download/wifi_mcp_result.json: Read-only file system"),
          device file (sim_script w))
    else (replyOk [], device None (sim_script w))
  else if isCat command then
    match file with
    | Some content => (replyOk content, device file (sim_script w))
    | None => (replyExit command 1 [], device file (sim_script w))
    end
  else
    match sim_script w with
    | r :: rest => (r, device file rest)
    | [] => (replyOk [], device file [])
    end.

(** A toy JSON for the simulated device: a value is the text of an
    object, [{...}], or null. *)
Definition sim_parse (s : str) : option (option str) :=
  let t := trim s in
  if str_eqb t (lit "null") then Some None
  else if startsWith (lit "{") t && startsWith (lit "}") (rev t)
  then Some (Some t)
  else None.

Definition sim_stringify (p : CommandPayload) : str :=
  lit "{" ++ quoted (lit "action") ++ lit ":" ++ quoted (action p)
  ++ lit "," ++ quoted (lit "ssid") ++ lit ":"
  ++ quoted (eap_ssid (payload_config p)) ++ lit "}".

#[global] Instance SimPlatform : Platform :=
  {| World := Sim;
     execAsync := sim_exec;
     Json := str;
     JSON_parse := sim_parse;
     json_truthy := fun _ => true;
     JSON_stringify := sim_stringify |}.

Abbreviation SimHost := (HostOf (@World SimPlatform)).








Definition sim_host (w : Sim) : SimHost :=
  @mkHost (@World SimPlatform) w 0%N (lit "adb") None ∅ [].

Definition set_world (w : Sim) (h : SimHost) : SimHost :=
  @mkHost (@World SimPlatform) w (clock h) (adbPath h) (selectedDevice h) (devices h)
    (spawned h).

Definition set_resultFile (f : option str) (w : Sim) : Sim :=
  mkDevice_sim f (sim_agent w) (sim_script w) (sim_readOnly w).

(** ** Inputs of the examples *)

(** What Node.js rejects with when it has killed [adb shell sleep 60] on
    the timeout, and when the same command line exits with status 1
    without output. *)
Definition timeoutError : ExecError :=
  mkExecError (Some []) (Some []) None
    (Some (lit "Command failed: adb shell sleep 60" ++ [LF])) true.

Definition plainFailure : ExecError :=
  mkExecError (Some []) (Some []) (Some (ExitStatus 1))
    (Some (lit "Command failed: adb shell sleep 60" ++ [LF])) false.

(** What Node.js rejects with when the output of the child exceeds
    [maxBuffer]. *)
Definition bufferOverflow : ExecError :=
  mkExecError (Some (lit "03-01 12:00:00.000 I/first line")) (Some [])
    (Some (ErrorName (lit "ERR_CHILD_PROCESS_STDIO_MAXBUFFER")))
    (Some (lit "stderr maxBuffer length exceeded")) false.

Definition sim_overflow : Sim :=
  mkSim None [] [mkExecReply (Rejected bufferOverflow) 120].

Definition sim_timeout : Sim := mkSim None [] [mkExecReply (Rejected timeoutError) 30000].
Definition sim_failure : Sim := mkSim None [] [mkExecReply (Rejected plainFailure) 20].

Definition peapWithoutPassword : EapConfig :=
  mkEapConfig (lit "corp") peap (Some (lit "mschapv2")) (lit "alice") None None
    (lit "corp.example") None None None None.

Definition tlsWithoutKey : EapConfig :=
  mkEapConfig (lit "corp") tls None (lit "alice") None None
    (lit "corp.example") None (Some (lit "-----BEGIN CERTIFICATE-----")) None
    None.

(** A simulated exchange: a stale result is on the device, the agent
    answers before the third read. *)
Definition peapConfig : EapConfig :=
  mkEapConfig (lit "corp") peap (Some (lit "mschapv2")) (lit "alice")
    (Some (lit "secret")) None (lit "corp.example") None None None None.

Definition scanLineMixed : str :=
  lit "84:18:3a:06:be:58 5180 -51 17.210 HomeNet [WPA2-PSK-CCMP][RSN-SAE-CCMP][ESS]".

(** The line of a WPA2 network whose name holds the letters SAE. *)
Definition scanLineSaeName : str :=
  lit "aa:bb:cc:dd:ee:ff 2412 -60 1.000 SAE-Cafe [WPA2-PSK-CCMP][ESS]".

(** A listing of three scan lines, the second without MAC address. *)
Definition scanThreeLines : str :=
  lit "84:18:3a:06:be:58 2412 -51 17.210 HomeNet [WPA2-PSK-CCMP][ESS]" ++ [LF]
  ++ lit "not-a-mac 2412 -60 1.000 Broken [ESS]" ++ [LF]
  ++ lit "aa:bb:cc:dd:ee:ff 5180 -70 0.500 Cafe [ESS]".


(** Status dumps: the ssid is the absence marker followed by a blank, and
    the ssid is missing before the comma. *)
Definition dumpNoneThenBlank : str :=
  lit "mWifiInfo SSID: <none> " ++ [LF] ++ lit "Wi-Fi is enabled".

Definition dumpEmptySsid : str :=
  lit "mWifiInfo SSID: , BSSID: 84:18:3a:06:be:58, RSSI: -51".

Definition sim_status (dumpsys : str) : Sim :=
  mkSim None [] [replyOk (lit "Wifi is enabled"); replyOk dumpsys].

(** The output of nslookup on a device for a dual-stack name. *)
Definition nslookupDualStack : str :=
  lit "Server:    8.8.8.8" ++ [LF]
  ++ lit "Address 1: 8.8.8.8 dns.google" ++ [LF]
  ++ [LF]
  ++ lit "Name:      google.com" ++ [LF]
  ++ lit "Address 1: 2607:f8b0:4005:80a::200e sfo03s25-in-x0e.1e100.net" ++ [LF]
  ++ lit "Address 2: 142.250.72.206 sfo03s25-in-f14.1e100.net".

Definition sim_nslookup : Sim := mkSim None [] [replyOk nslookupDualStack].

(** The listing of two ready devices and one that is offline, and of one
    ready device. *)
Definition sim_two_ready : Sim :=
  mkSim None []
    [replyOk (lit "List of devices attached" ++ [LF]
              ++ lit "emulator-5554 device product:sdk model:Pixel_7 transport_id:1"
              ++ [LF]
              ++ lit "R58M12345 device product:x model:Galaxy" ++ [LF]
              ++ lit "ZX1G22 offline")].

Definition sim_one_ready : Sim :=
  mkSim None []
    [replyOk (lit "List of devices attached" ++ [LF]
              ++ lit "R58M12345 device product:x model:Galaxy" ++ [LF]
              ++ lit "ZX1G22 unauthorized")].

Definition sim_stale_then_fresh : Sim :=
  mkSim (Some (lit "{stale}"))
    [None; None; None; None; None; None; Some (lit "{fresh}")]
    [replyOk (lit "package:com.example.wifimcpcompanion")].

Definition sim_stale_no_answer : Sim :=
  mkSim (Some (lit "{stale}")) []
    [replyOk (lit "package:com.example.wifimcpcompanion")].



(** The agent answers with the JSON null before the third read. *)
Definition sim_null_answer : Sim :=
  mkSim None
    [None; None; None; None; None; None; Some (lit "null")]
    [replyOk (lit "package:com.example.wifimcpcompanion")].

(** The device accepts the connect command and then reports the network
    [ssid] as connected. *)
Definition sim_connects_to (ssid : str) : Sim :=
  mkSim None []
    [replyOk (lit "Connection initiated");
     replyOk (lit "Wifi is enabled");
     replyOk (lit "mWifiInfo SSID: " ++ quoted ssid
              ++ lit ", BSSID: 84:18:3a:06:be:58, Supplicant state: COMPLETED, RSSI: -51, Link speed: 433Mbps, Frequency: 5180MHz")].

(** ** Vocabulary of the further statements *)

(** A run from [h] to [h'] that spawned the command lines of [log], in
    this order, and changed neither the client nor the cache. *)
Definition ran `{P : Platform} (h h' : Host) (log : list (str * ExecOutcome))
  : Prop :=
  spawned h' = spawned h ++ log /\ adbPath h' = adbPath h
  /\ selectedDevice h' = selectedDevice h /\ devices h' = devices h
  /\ (clock h <= clock h')%N.

(** A text without white space. *)
Definition spaceless (t : str) : bool := forallb nonspace t.

(** Every cached record is stored under its own serial. *)
Definition keyed (cache : gmap str DeviceInfo) : Prop :=
  forall k i, cache !! k = Some i -> info_serial i = k.

(** A device of the listing that is ready and has the serial [k]. *)
Definition listedReady (devs : list Device) (k : str) : Prop :=
  exists d, In d devs /\ isReady d = true /\ serial d = k.

(** A listed device names its serial and its state: both are tokens, not
    empty and without white space. *)
Definition wellformedDevice (d : Device) : Prop :=
  serial d <> [] /\ state d <> []
  /\ spaceless (serial d) = true /\ spaceless (state d) = true.

(** What [getDeviceInfo] keeps of one property read. *)
Definition propValue (o : ExecOutcome) : str :=
  if success (resultOfOutcome o) then stdout (resultOfOutcome o) else [].

(** The command lines of the property reads. *)
Definition getpropCommands `{P : Platform} (h : Host) : list str :=
  map (fun prop => sh h (lit "getprop " ++ prop)) props.

(** The command lines of the WiFi operations. *)
Definition statusCommand : str := lit "cmd wifi status".

Definition dumpsysCommand : str :=
  lit "dumpsys wifi | grep -E "
  ++ quoted (lit "mWifiInfo|Wi-Fi is|current SSID|IP address|Link speed|Frequency|RSSI").

Definition setEnabledCommand (enabled : bool) : str :=
  lit "cmd wifi set-wifi-enabled "
  ++ (if enabled then lit "enabled" else lit "disabled").

Definition listNetworksCommand : str := lit "cmd wifi list-networks".

Definition forgetCommand (networkId : Z) : str :=
  lit "cmd wifi forget-network " ++ numberText networkId.

Definition startScanCommand : str := lit "cmd wifi start-scan".
Definition listScanCommand : str := lit "cmd wifi list-scan-results".

(** [current] is the first of [networks] that is saved under [ssid]. *)
Definition firstSaved (networks : list SavedNetwork) (ssid : str)
    (current : SavedNetwork) : Prop :=
  exists before after,
    networks = before ++ current :: after /\ saved_ssid current = ssid
    /\ List.Forall (fun n => saved_ssid n <> ssid) before.

(** The command lines of the network checks. *)
Definition pingCommand (host : str) (count : Z) : str :=
  lit "ping -c " ++ numberText count ++ lit " -W 5 " ++ host.

Definition probeCommands `{P : Platform} (h : Host) : list str :=
  map (fun test : str * Z => sh h (probeCommand test.1)) testUrls.

Definition dnsCommands `{P : Platform} (h : Host) (hostname : str)
  : list str :=
  [sh h (lit "nslookup " ++ hostname); sh h (lit "getent hosts " ++ hostname);
   sh h (lit "ping -c 1 " ++ hostname)].

Definition interfaceCommands `{P : Platform} (h : Host) : list str :=
  [sh h (lit "ip addr show wlan0 | grep " ++ quoted (lit "inet "));
   sh h (lit "ip route | grep default");
   sh h (lit "getprop net.dns1 && getprop net.dns2")].

(** An HTTP status from 200 to 399. *)
Definition httpOk (httpCode : option Z) : bool :=
  match httpCode with
  | Some c => (200 <=? c) && (c <? 400)
  | None => false
  end.

(** A probe that settled with such a status on its output. *)
Definition reachable (o : ExecOutcome) : bool :=
  success (resultOfOutcome o)
  && httpOk (parseInt (trim (stdout (resultOfOutcome o)))).

(** The status that the captive-portal probe printed on its first line. *)
Definition probedStatus (o : ExecOutcome) : option Z :=
  parseInt (nth 0 (split_char LF (trim (stdout (resultOfOutcome o)))) []).

(** What each tier of the DNS lookup yields from the outcome of its
    command: nothing when the command failed, else the addresses (the
    address) that the output shows. *)
Definition nslookupYield (o : ExecOutcome) : list str :=
  if success (resultOfOutcome o)
  then nslookupAddresses false (split_char LF (stdout (resultOfOutcome o)))
  else [].

Definition getentYield (o : ExecOutcome) : option str :=
  if success (resultOfOutcome o)
  then re_match getentPattern (stdout (resultOfOutcome o))
  else None.

Definition pingYield (o : ExecOutcome) : option str :=
  if success (resultOfOutcome o)
  then re_match pingAddressPattern (stdout (resultOfOutcome o))
  else None.

(** A dotted address: digits and dots, at least one. *)
Definition dotted (a : str) : Prop := a <> [] /\ forallb cls_digit_dot a = true.

(** A pattern without capture group. *)
Fixpoint capless (r : regex) : bool :=
  match r with
  | Cat r1 r2 | Alt r1 r2 => capless r1 && capless r2
  | Cap _ => false
  | _ => true
  end.

(** The argument of [echo] in the command line of [writeCommandFile]. *)
Definition echoArgument (json : str) : str :=
  SQUOTE :: escapeQuotes json ++ [SQUOTE].

Definition echoJsonCommand (json : str) : str :=
  lit "echo " ++ echoArgument json ++ lit " > " ++ COMMAND_FILE.

(** The command line of [command] on the device [serial]. *)
Definition shOn `{P : Platform} (h : Host) (serial command : str) : str :=
  adbPath h ++ lit " -s " ++ serial ++ lit " shell " ++ command.

(** ** The simulated device, continued *)

(** Toy numbers and certificate payloads for the simulated device: a
    floating-point number is kept as its text, a certificate payload is
    serialised as its action and alias, and a parsed value has no
    properties. *)
#[global] Instance SimNumbers : Numbers :=
  {| Float := str; parseFloat := fun s => s |}.

#[global] Instance SimCertificates : CertificateJson str :=
  {| stringifyInstall := fun p =>
       lit "{" ++ quoted (lit "action") ++ lit ":" ++ quoted (install_action p)
       ++ lit "," ++ quoted (lit "alias") ++ lit ":" ++ quoted (install_alias p)
       ++ lit "}";
     stringifyList := fun p =>
       lit "{" ++ quoted (lit "action") ++ lit ":" ++ quoted (list_action p)
       ++ lit "}";
     json_get := fun _ _ => None |}.

(** Every property read is refused, as for a serial that names no
    device. *)
Definition deviceNotFound : ExecReply :=
  replyExit (lit "adb -s NOSUCH shell getprop") 1
    (lit "adb: device 'NOSUCH' not found").

Definition sim_no_such_device : Sim :=
  mkSim None [] (repeat deviceNotFound 6).

(** The SDK level reads as a text that is not a number. *)
Definition sim_sdk_not_a_number : Sim :=
  mkSim None []
    [replyOk (lit "Pixel 7"); replyOk (lit "google"); replyOk (lit "Google");
     replyOk (lit "14"); replyOk (lit "UpsideDownCake");
     replyOk (lit "UP1A")].

(** The connect command is accepted and the verification sees the
    network, but the network is gone when the tool reads the status for its
    report. *)
Definition sim_connects_then_drops (ssid : str) : Sim :=
  mkSim None []
    [replyOk (lit "Connection initiated");
     replyOk (lit "Wifi is enabled");
     replyOk (lit "mWifiInfo SSID: " ++ quoted ssid
              ++ lit ", BSSID: 84:18:3a:06:be:58, Supplicant state: COMPLETED");
     replyOk (lit "Wifi is enabled");
     replyOk (lit "mWifiInfo SSID: <unknown ssid>, Supplicant state: SCANNING")].

(** A ping report whose loss line has two blanks before the words. *)
Definition sim_ping_two_blanks : Sim :=
  mkSim None []
    [replyOk (lit "1 packets transmitted, 0 received, 100%  packet loss, time 0ms")].

(** The serials that a refresh probes, in order: the ready devices of the
    listing that are not cached when their turn comes ([cached] holds the
    serials cached so far). *)
Fixpoint probedSerials (cached : gset str) (devs : list Device) : list str :=
  match devs with
  | [] => []
  | d :: rest =>
      if isReady d && negb (bool_decide (serial d ∈ cached))
      then serial d :: probedSerials ({[serial d]} ∪ cached) rest
      else probedSerials cached rest
  end.

(** What is left of a selection that names no listed device. *)
Definition stillListed (sel : option str) (devs : list Device) : option str :=
  match sel with
  | Some s => if bool_decide (s ∈ map serial devs) then Some s else None
  | None => None
  end.

(** The device is connected to HomeNet, which is saved as network 3 after
    another network. *)
Definition sim_forget : Sim :=
  mkSim None []
    [replyOk (lit "Wifi is enabled");
     replyOk (lit "mWifiInfo SSID: " ++ quoted (lit "HomeNet")
              ++ lit ", Supplicant state: COMPLETED");
     replyOk (lit "Network ID: 1 SSID: Cafe" ++ [LF]
              ++ lit "Network ID: 3 SSID: HomeNet");
     replyOk []].

(** The same, with ids beyond the integers that a double tells apart. *)
Definition sim_forget_far (id : str) : Sim :=
  mkSim None []
    [replyOk (lit "Wifi is enabled");
     replyOk (lit "mWifiInfo SSID: " ++ quoted (lit "HomeNet")
              ++ lit ", Supplicant state: COMPLETED");
     replyOk (lit "Network ID: " ++ id ++ lit " SSID: HomeNet");
     replyOk []].

(** The agent answers with the JSON null before the second read. *)
Definition sim_null_at_second_read : Sim :=
  mkSim None [None; None; Some (lit "null")] [].

(** The first probe prints no status, the second prints 204. *)
Definition sim_second_probe : Sim :=
  mkSim None [] [replyOk (lit "000"); replyOk (lit "204")].

(** The captive-portal probe prints a redirect and its target. *)
Definition sim_portal : Sim :=
  mkSim None []
    [replyOk (lit "302" ++ [LF] ++ lit "http://portal.example/login")].

(** * Properties *)

(** ** Strings *)

Lemma ascii_eqb_eq (a b : ascii) : ascii_eqb a b = true <-> a = b.
Proof. unfold ascii_eqb. apply Ascii.eqb_eq. Qed.

Lemma ascii_eqb_refl (a : ascii) : ascii_eqb a a = true.
Proof. apply ascii_eqb_eq. reflexivity. Qed.

Lemma str_eqb_eq (s t : str) : str_eqb s t = true <-> s = t.
Proof.
  revert t. induction s as [|a s IH]; intros [|b t]; simpl; split;
    try discriminate; try reflexivity.
  - intros H. apply andb_true_iff in H as [Hab Hst].
    apply ascii_eqb_eq in Hab. apply IH in Hst. congruence.
  - intros H. injection H as -> ->. rewrite ascii_eqb_refl. simpl.
    apply IH. reflexivity.
Qed.


Lemma truthy_true (s : str) : truthy s = true <-> s <> [].
Proof. destruct s; simpl; split; congruence. Qed.

Lemma or_else_truthy (a b : str) : b <> [] -> or_else a b <> [].
Proof. unfold or_else. destruct a; simpl; congruence. Qed.

Lemma startsWith_app (p s : str) : startsWith p (p ++ s) = true.
Proof.
  induction p as [|a p IH]; simpl; [reflexivity|].
  rewrite ascii_eqb_refl. exact IH.
Qed.

Lemma includes_startsWith (p s : str) :
  startsWith p s = true -> includes p s = true.
Proof. intros H. destruct s; simpl in *; rewrite H; reflexivity. Qed.

Lemma includes_cons (p : str) (a : ascii) (s : str) :
  includes p s = true -> includes p (a :: s) = true.
Proof. intros H. simpl. rewrite H. apply orb_true_r. Qed.

Lemma includes_app_l (p u s : str) :
  includes p s = true -> includes p (u ++ s) = true.
Proof.
  intros H. induction u as [|a u IH]; simpl app; [exact H|].
  apply includes_cons. exact IH.
Qed.

Lemma includes_app_r (p s u : str) :
  includes p s = true -> includes p (s ++ u) = true.
Proof.
  revert p. induction s as [|a s IH]; intros p H.
  - destruct p; simpl in H; [|discriminate].
    destruct u; reflexivity.
  - simpl in H. apply orb_true_iff in H as [H|H].
    + apply includes_startsWith.
      clear IH. revert H. generalize (a :: s). clear a s.
      intros s. revert s. induction p as [|b p IHp]; intros s H.
      * destruct (s ++ u); reflexivity.
      * destruct s as [|c s]; simpl in H; [discriminate|].
        apply andb_true_iff in H as [Hbc Hps]. simpl.
        rewrite Hbc. simpl. apply IHp. exact Hps.
    + simpl app. apply includes_cons. apply IH. exact H.
Qed.

Lemma includes_self (p : str) : includes p p = true.
Proof.
  apply includes_startsWith. rewrite <- (app_nil_r p) at 2.
  apply startsWith_app.
Qed.

(** Every element of a joined list is a substring of the result. *)
Lemma includes_join (sep x : str) (l : list str) :
  In x l -> includes x (join sep l) = true.
Proof.
  induction l as [|y l IH]; intros Hin; [destruct Hin|].
  destruct Hin as [->|Hin].
  - destruct l as [|z l]; simpl join.
    + apply includes_self.
    + apply includes_app_r. apply includes_self.
  - destruct l as [|z l]; [destruct Hin|].
    change (join sep (y :: z :: l)) with (y ++ sep ++ join sep (z :: l)).
    apply includes_app_l. apply includes_app_l. apply IH. exact Hin.
Qed.

(** ** The matcher *)

Lemma star_k_continues {R : Type} (c : ascii -> bool) (s : str)
    (k : str -> option R) (x : R) :
  star_k c s k = Some x ->
  exists g s', s = g ++ s' /\ forallb c g = true /\ k s' = Some x.
Proof.
  induction s as [|a s IH]; simpl; intros H.
  - exists [], []. auto.
  - destruct (c a) eqn:Hc.
    + destruct (star_k c s k) as [y|] eqn:Hs.
      * injection H as ->. destruct (IH eq_refl) as (g & s' & -> & Hg & Hk).
        exists (a :: g), s'. simpl. rewrite Hc, Hg. auto.
      * exists [], (a :: s). auto.
    + exists [], (a :: s). auto.
Qed.

(** A successful match ends in a successful call of the continuation. *)
Lemma rmatch_continues {R : Type} (r : regex) :
  forall (s : str) (cap : option str) (k : str -> option str -> option R)
         (x : R),
    rmatch r s cap k = Some x -> exists s' cap', k s' cap' = Some x.
Proof.
  induction r as [|c|r1 IH1 r2 IH2|r1 IH1 r2 IH2|c|r1 IH1|];
    intros s cap k x H; simpl in H.
  - eauto.
  - destruct s as [|a s]; [discriminate|].
    destruct (c a); [eauto|discriminate].
  - apply IH1 in H as (s1 & cap1 & H). apply IH2 in H. exact H.
  - destruct (rmatch r1 s cap k) as [y|] eqn:H1.
    + injection H as ->. apply IH1 in H1. exact H1.
    + apply IH2 in H. exact H.
  - apply star_k_continues in H as (g & s' & _ & _ & H). eauto.
  - apply IH1 in H as (s1 & cap1 & H). eauto.
  - destruct s; [eauto|discriminate].
Qed.

Lemma rmatch_cat {R : Type} (r1 r2 : regex) (s : str) (cap : option str)
    (k : str -> option str -> option R) (x : R) :
  rmatch (Cat r1 r2) s cap k = Some x ->
  exists s1 cap1, rmatch r2 s1 cap1 k = Some x.
Proof. simpl. apply rmatch_continues. Qed.

(** The capture of [(c+)] is a non-empty run of the class. *)
Lemma rmatch_cap_plus {R : Type} (c : ascii -> bool) (s : str)
    (cap : option str) (k : str -> option str -> option R) (x : R) :
  rmatch (Cap (Plus c)) s cap k = Some x ->
  exists g s', s = g ++ s' /\ g <> [] /\ forallb c g = true
               /\ k s' (Some g) = Some x.
Proof.
  simpl. destruct s as [|a s]; [discriminate|].
  destruct (c a) eqn:Hc; [|discriminate].
  intros H. apply star_k_continues in H as (g & s' & -> & Hg & Hk).
  exists (a :: g), s'. split; [reflexivity|]. split; [discriminate|].
  split; [simpl; rewrite Hc; exact Hg|].
  replace (a :: g) with
    (take (length (a :: g ++ s') - length s') (a :: g ++ s')); [exact Hk|].
  change (a :: g ++ s') with ((a :: g) ++ s').
  rewrite length_app. replace (length (a :: g) + length s' - length s')%nat
    with (length (a :: g)) by lia.
  apply take_app_length.
Qed.

Lemma search_found (r : regex) (s : str) (c : option str) :
  search r s = Some c -> exists s', exec_here r s' = Some c.
Proof.
  induction s as [|a s IH]; simpl.
  - destruct (exec_here r []) eqn:H; [|discriminate].
    intros Heq. injection Heq as ->. eauto.
  - destruct (exec_here r (a :: s)) eqn:H.
    + intros Heq. injection Heq as ->. eauto.
    + exact IH.
Qed.

(** ** Digits *)

Lemma is_digit_plain (a : ascii) :
  is_digit a = true ->
  is_space a = false /\ ascii_eqb a "-" = false /\ ascii_eqb a "+" = false.
Proof.
  destruct a as [[] [] [] [] [] [] [] []]; vm_compute; intros H;
    try discriminate H; repeat split.
Qed.

Lemma take_while_all (p : ascii -> bool) (t : str) :
  forallb p t = true -> take_while p t = t.
Proof.
  induction t as [|a t IH]; simpl; [reflexivity|].
  intros H. apply andb_true_iff in H as [Ha Ht]. rewrite Ha, IH; auto.
Qed.


Lemma toDouble_nonneg (n : Z) : 0 <= n -> 0 <= toDouble n.
Proof.
  intros H0. unfold toDouble. cbv zeta.
  destruct (Z.log2 n + 1 <=? 53) eqn:Hb; [exact H0|].
  apply Z.leb_gt in Hb.
  match goal with |- 0 <= (if ?c then _ else ?v) => destruct c; [unfold INFINITY; lia|] end.
  rewrite Z.shiftl_mul_pow2 by lia.
  apply Z.mul_nonneg_nonneg; [|apply Z.pow_nonneg; lia].
  assert (0 <= Z.shiftr n (Z.log2 n + 1 - 53)) by (apply Z.shiftr_nonneg; exact H0).
  repeat match goal with |- context [if ?c then _ else _] => destruct c end; lia.
Qed.

Lemma digits_value_nonneg (t : str) : forall acc, 0 <= acc -> 0 <= digits_value acc t.
Proof.
  induction t as [|a t IH]; intros acc Hacc; simpl; [exact Hacc|].
  apply IH. lia.
Qed.



(** [parseInt] of a non-empty string of digits is the double of the number
    it writes, never NaN. *)
Lemma parseInt_digits (t : str) :
  t <> [] -> allDigits t = true -> parseInt t = Some (toDouble (decimal t)).
Proof.
  intros Hne Hd. destruct t as [|a t]; [contradiction|].
  unfold allDigits in Hd. pose proof Hd as Hall. simpl in Hd.
  apply andb_true_iff in Hd as [Ha Ht].
  destruct (is_digit_plain a Ha) as (Hs & Hm & Hp).
  unfold parseInt. simpl trimStart. rewrite Hs, Hm, Hp.
  rewrite (take_while_all is_digit (a :: t) Hall). reflexivity.
Qed.




(** ** The monad *)

Section HostFacts.
Context `{P : Platform}.

Lemma exec_unfold (args : list str) (timeout : N) (h : Host) :
  exec args timeout h =
  (Return (resultOfOutcome
             (outcome (execAsync (commandLine h args) timeout (world h)).1)),
   mkHost (execAsync (commandLine h args) timeout (world h)).2
          (clock h + took (execAsync (commandLine h args) timeout (world h)).1)%N
          (adbPath h) (selectedDevice h) (devices h)
          (spawned h ++
             [(commandLine h args,
               outcome (execAsync (commandLine h args) timeout (world h)).1)])).
Proof.
  unfold exec. destruct (execAsync _ _ _) as [reply w]. reflexivity.
Qed.



End HostFacts.

(** ** The command executor *)

Lemma resultOfError_stderr (e : ExecError) :
  reported_stderr e (stderr (resultOfError e)).
Proof.
  unfold reported_stderr, resultOfError, or_else. simpl.
  destruct (err_stderr e) as [s|]; simpl.
  - destruct (truthy (trim s)); [reflexivity|].
    destruct (err_message e) as [[|a m]|]; reflexivity.
  - destruct (err_message e) as [[|a m]|]; reflexivity.
Qed.

Lemma resultOfError_code (e : ExecError) :
  reported_code e (exitCode (resultOfError e)).
Proof.
  unfold reported_code, resultOfError. simpl.
  destruct (err_code e) as [[n|[|a name]]|]; try reflexivity.
  destruct (decide (n = 0)) as [->|Hn]; [reflexivity|].
  destruct (Z.eqb_spec n 0); [contradiction|reflexivity].
Qed.

Lemma resultOfError_stderr_nonempty (e : ExecError) :
  stderr (resultOfError e) <> [].
Proof.
  unfold resultOfError. simpl.
  apply or_else_truthy, or_else_truthy. discriminate.
Qed.

(** C1 (amended): every call of [exec] (and so of [shell]) resolves with a
    result and never throws.  When the child process succeeded the
    result has success=true, the trimmed outputs and exit code 0.  When it
    failed, for whatever reason, the result has success=false, stderr is
    the captured stderr (when not blank, else the error's message, else
    "Unknown error", never empty) and the exit code is the error's code,
    be it the exit status of the child or the name of an error, when that
    is truthy (a number other than 0, a name that is not empty), and 1
    otherwise.  A call killed on the timeout is reported like any other
    failure: the result does not depend on the error's [killed] flag. *)
Theorem exec_reports_failure `{P : Platform}
    (args : list str) (timeout : N) (h : Host) :
  exists (r : AdbResult) (h' : Host),
    exec args timeout h = (Return r, h') /\
    (forall command : str,
       shell command timeout = exec [lit "shell"; command] timeout) /\
    match outcome (execAsync (commandLine h args) timeout (world h)).1 with
    | Resolved out err =>
        success r = true /\ stdout r = trim out /\ stderr r = trim err
        /\ exitCode r = ExitStatus 0
    | Rejected e =>
        success r = false
        /\ reported_stderr e (stderr r)
        /\ stderr r <> []
        /\ reported_code e (exitCode r)
        /\ r = resultOfError (not_killed e)
    end.
Proof.
  rewrite exec_unfold. eexists _, _. split; [reflexivity|].
  split; [reflexivity|].
  destruct (outcome _) as [out err|e]; simpl.
  - repeat split.
  - split; [reflexivity|]. split; [apply resultOfError_stderr|].
    split; [apply resultOfError_stderr_nonempty|].
    split; [apply resultOfError_code|]. reflexivity.
Qed.

(** C1 (as stated, refuted): the call that Node.js killed on the timeout
    and the call whose command exited with status 1 resolve with the very
    same result, success=false, stderr "Command failed: ..." and exit code
    1; no marker in stderr tells the timeout apart. *)
Lemma exec_timeout_has_no_marker :
  err_killed timeoutError = true /\
  err_killed plainFailure = false /\
  (shell (lit "sleep 60") 30000 (sim_host sim_timeout)).1
    = Return (mkAdbResult false []
                (lit "Command failed: adb shell sleep 60" ++ [LF])
                (ExitStatus 1)) /\
  (shell (lit "sleep 60") 30000 (sim_host sim_failure)).1
    = (shell (lit "sleep 60") 30000 (sim_host sim_timeout)).1.
Proof. vm_compute. repeat split. Qed.

(** An error that carries a name for its code, as when the output of the
    child exceeds the buffer: the name is handed on as the exit code. *)
Example exec_hands_on_error_name :
  (shell (lit "logcat -d") 30000 (sim_host sim_overflow)).1
  = Return (mkAdbResult false (lit "03-01 12:00:00.000 I/first line")
              (lit "stderr maxBuffer length exceeded")
              (ErrorName (lit "ERR_CHILD_PROCESS_STDIO_MAXBUFFER")))
  /\ exitCode (resultOfError (mkExecError None None (Some (ErrorName []))
                                None false))
     = ExitStatus 1.
Proof. vm_compute. repeat split. Qed.

(** ** The device registry *)

Section Registry.
Context `{P : Platform}.

Lemma selection_Some (h : Host) (s : str) :
  selection h = Some s <-> selectedDevice h = Some s /\ s <> [].
Proof.
  unfold selection. destruct (selectedDevice h) as [d|]; [|split; [discriminate|intros [? _]; discriminate]].
  destruct d as [|a d]; simpl.
  - split; [discriminate|]. intros [H Hne]. injection H as <-. contradiction.
  - split.
    + intros H. injection H as <-. split; [reflexivity|discriminate].
    + intros [H _]. exact H.
Qed.

Lemma ambiguityMessage_names (serials : list str) (s : str) :
  In s serials -> includes s (ambiguityMessage serials) = true.
Proof.
  intros Hin. unfold ambiguityMessage.
  apply includes_app_l, includes_app_r, includes_join. exact Hin.
Qed.

(** C5: with a selection set, [ensureDeviceSelected] returns it and leaves
    the host untouched.  Without one it refreshes; when the refresh
    succeeds and finds exactly one ready device it selects that device and
    returns its serial; when it finds none it throws the "no device"
    error; when it finds several it throws the ambiguity error, whose text
    holds the serial of every ready device.  (A failure of the refresh
    itself is thrown on.) *)
Theorem ensureDeviceSelected_spec (h : Host) :
  (forall s, selection h = Some s -> ensureDeviceSelected h = (Return s, h))
  /\
  (selection h = None ->
   match refreshDevices h with
   | (Throw e, h1) => ensureDeviceSelected h = (Throw e, h1)
   | (Return devs, h1) =>
       match List.filter isReady devs with
       | [] => ensureDeviceSelected h = (Throw noDeviceMessage, h1)
       | [d] =>
           ensureDeviceSelected h = (Return (serial d), selecting (serial d) h1)
           /\ selectedDevice (selecting (serial d) h1) = Some (serial d)
       | ready =>
           ensureDeviceSelected h
             = (Throw (ambiguityMessage (map serial ready)), h1)
           /\ (forall d, In d ready ->
                 includes (serial d) (ambiguityMessage (map serial ready))
                 = true)
       end
   end).
Proof.
  unfold ensureDeviceSelected, bind, getSelectedDevice, selection.
  split.
  - intros s Hs. destruct (selectedDevice h) as [d|]; [|discriminate].
    cbn [mbind option_bind]. destruct (truthy d); [|discriminate].
    injection Hs as <-. reflexivity.
  - intros Hs.
    assert (Hb : selectedDevice h ≫= (fun d => if truthy d then Some d else None)
                 = None).
    { destruct (selectedDevice h) as [d|]; [|reflexivity].
      cbn [mbind option_bind]. destruct (truthy d); [discriminate|reflexivity]. }
    rewrite Hb. destruct (refreshDevices h) as [[devs|e] h1]; [|reflexivity].
    destruct (List.filter isReady devs) as [|d [|d' ready]] eqn:Hf.
    + reflexivity.
    + split; reflexivity.
    + split; [reflexivity|].
      intros d0 Hin. apply ambiguityMessage_names. apply in_map. exact Hin.
Qed.

End Registry.

(** End-to-end scenarios A and B of the specification, no device at all,
    and a selection already set. *)
Lemma ensureDeviceSelected_examples :
  (ensureDeviceSelected (sim_host sim_two_ready)).1
    = Throw (lit "Multiple devices connected: emulator-5554, R58M12345. Please select a device using device_select.")
  /\ (ensureDeviceSelected (sim_host sim_one_ready)).1
     = Return (lit "R58M12345")
  /\ selectedDevice (ensureDeviceSelected (sim_host sim_one_ready)).2
     = Some (lit "R58M12345")
  /\ (ensureDeviceSelected (sim_host (mkSim None [] [replyOk (lit "List of devices attached")]))).1
     = Throw noDeviceMessage
  /\ ensureDeviceSelected (selecting (lit "ABC") (sim_host sim_two_ready))
     = (Return (lit "ABC"), selecting (lit "ABC") (sim_host sim_two_ready)).
Proof. vm_compute. repeat split. Qed.

(** The refresh probes every new ready device through the shared
    selection and leaves it on the last one: after the ambiguity error the
    selection is set, and the next call returns it. *)
Example selection_after_ambiguity :
  selectedDevice (ensureDeviceSelected (sim_host sim_two_ready)).2
    = Some (lit "R58M12345")
  /\ (ensureDeviceSelected (ensureDeviceSelected (sim_host sim_two_ready)).2).1
     = Return (lit "R58M12345").
Proof. vm_compute. repeat split. Qed.

(** ** The scan-result parser: the security label *)

Lemma scanLine_Some (raw : str) (r : ScanResult) :
  scanLine raw = Some r ->
  let line := trim raw in
  let parts := split_ws (trim (mainPartOf line)) in
  truthy line = true /\
  (3 <= length parts)%nat /\
  re_test bssidPattern (nth 0 parts []) = true /\
  r = mkScanResult
        (or_else (if (4 <? length parts)%nat
                  then trim (join (lit " ") (drop 4 parts)) else [])
                 (lit "<hidden>"))
        (nth 0 parts [])
        (if re_test frequencyPattern (nth 1 parts [])
         then default 0 (parseInt (nth 1 parts [])) else 0)
        (if re_test rssiPattern (nth 2 parts [])
         then default 0 (parseInt (nth 2 parts [])) else 0)
        (securityOfFlags (flagsPartOf line)).
Proof.
  unfold scanLine. cbv zeta.
  destruct (truthy (trim raw)); simpl negb; cbv iota; [|discriminate].
  destruct (Nat.ltb_spec (length (split_ws (trim (mainPartOf (trim raw))))) 3);
    [discriminate|].
  destruct (re_test bssidPattern _) eqn:Hb; simpl negb; cbv iota;
    [|discriminate].
  destruct (truthy (nth 0 _ _)); [|discriminate].
  intros Heq. injection Heq as <-. auto.
Qed.

(** The cascade of conditionals is the priority list read from the top. *)
Lemma securityOfFlags_firstMatch (flags : str) :
  securityOfFlags flags = firstMatch securityPriority flags.
Proof.
  unfold securityOfFlags. destruct flags as [|a flags]; [reflexivity|].
  simpl truthy. cbv iota. unfold securityPriority, firstMatch.
  repeat match goal with
         | |- context [includes ?m ?f] => destruct (includes m f)
         end; reflexivity.
Qed.

(** The part of the line that the code searches for markers is its
    bracketed suffix. *)
Lemma flagsPartOf_bracketSuffix (line : str) :
  flagsPartOf line = bracketSuffix line.
Proof.
  unfold flagsPartOf. induction line as [|a rest IH]; [reflexivity|].
  cbn [indexOf bracketSuffix]. destruct (ascii_eqb a "["); [reflexivity|].
  destruct (indexOf "[" rest) as [i|]; cbn [fmap option_fmap option_map] in *;
    exact IH.
Qed.

(** C3: the security label of an emitted record is the label of the first
    marker, in the order SAE, WPA3, WPA2, WPA, WEP, OWE, that occurs in the
    bracketed suffix of the line (the line from its first opening bracket
    on: a marker in the name of the network does not count), and Open when
    none occurs; when the suffix holds a WPA2 marker and also an SAE or a
    WPA3 marker, the label is SAE or WPA3 and not WPA2. *)
Theorem security_label_priority (raw : str) (r : ScanResult) :
  scanLine raw = Some r ->
  let flags := bracketSuffix (trim raw) in
  scan_security r = firstMatch securityPriority flags /\
  (includes (lit "WPA2") flags = true ->
   includes (lit "SAE") flags = true \/ includes (lit "WPA3") flags = true ->
   (scan_security r = lit "SAE" \/ scan_security r = lit "WPA3")
   /\ scan_security r <> lit "WPA2").
Proof.
  intros Hr. apply scanLine_Some in Hr. cbv zeta in Hr.
  destruct Hr as (_ & _ & _ & ->). simpl scan_security. cbv zeta.
  rewrite flagsPartOf_bracketSuffix.
  split; [apply securityOfFlags_firstMatch|].
  rewrite securityOfFlags_firstMatch. unfold securityPriority, firstMatch.
  intros H2 [Hs|H3].
  - rewrite Hs. split; [left; reflexivity|discriminate].
  - rewrite H3. destruct (includes (lit "SAE") _).
    + split; [left; reflexivity|discriminate].
    + split; [right; reflexivity|discriminate].
Qed.

(** The line with both markers in its suffix is labelled SAE; the line of
    a WPA2 network whose name holds the letters SAE is labelled WPA2. *)
Lemma security_label_priority_witness :
  (let r := mkScanResult (lit "HomeNet") (lit "84:18:3a:06:be:58") 5180 (-51)
              (lit "SAE") in
   let flags := bracketSuffix (trim scanLineMixed) in
   scan_security r = firstMatch securityPriority flags /\
   (includes (lit "WPA2") flags = true ->
    includes (lit "SAE") flags = true \/ includes (lit "WPA3") flags = true ->
    (scan_security r = lit "SAE" \/ scan_security r = lit "WPA3")
    /\ scan_security r <> lit "WPA2"))
  /\
  (let r := mkScanResult (lit "SAE-Cafe") (lit "aa:bb:cc:dd:ee:ff") 2412 (-60)
              (lit "WPA2") in
   scanLine scanLineSaeName = Some r
   /\ bracketSuffix (trim scanLineSaeName) = lit "[WPA2-PSK-CCMP][ESS]"
   /\ scan_security r
      = firstMatch securityPriority (bracketSuffix (trim scanLineSaeName))).
Proof.
  split.
  - apply (security_label_priority scanLineMixed). vm_compute. reflexivity.
  - assert (H : scanLine scanLineSaeName
                = Some (mkScanResult (lit "SAE-Cafe") (lit "aa:bb:cc:dd:ee:ff")
                          2412 (-60) (lit "WPA2")))
      by (vm_compute; reflexivity).
    split; [exact H|]. split; [vm_compute; reflexivity|].
    exact (proj1 (security_label_priority scanLineSaeName _ H)).
Defined.

(** ** The scan-result parser: the token patterns *)

Lemma rmatch_hexGroup {R : Type} (s : str) (cap : option str)
    (k : str -> option str -> option R) :
  rmatch hexGroup s cap k =
  match s with
  | a :: b :: c :: s' =>
      if cls_hex_ci a && cls_hex_ci b && ascii_eqb c ":"
      then k s' (Some [a; b; c]) else None
  | _ => None
  end.
Proof.
  unfold hexGroup. cbn [rmatch Rep].
  destruct s as [|a [|b [|c s']]]; try reflexivity.
  - destruct (cls_hex_ci a); reflexivity.
  - destruct (cls_hex_ci a); [|reflexivity]. destruct (cls_hex_ci b); reflexivity.
  - destruct (cls_hex_ci a); [|reflexivity]. destruct (cls_hex_ci b); [|reflexivity].
    unfold is_char. destruct (ascii_eqb c ":"); [|reflexivity].
    cbn [andb]. f_equal. f_equal.
    replace (length (a :: b :: c :: s') - length s')%nat with 3%nat
      by (cbn [length]; lia).
    reflexivity.
Qed.

Lemma macGroups (n : nat) : forall (t : str) (cap : option str),
  match rmatch (Cat (Rep n hexGroup) (Cat (Rep 2 (Chr cls_hex_ci)) Eol)) t cap
          (fun _ c => Some c) with
  | Some _ => true
  | None => false
  end = isMacFrom n t.
Proof.
  induction n as [|n IH]; intros t cap.
  - cbn [rmatch Rep].
    destruct t as [|a [|b [|c t']]]; cbn [isMacFrom is_empty]; try reflexivity.
    + destruct (cls_hex_ci a); reflexivity.
    + destruct (cls_hex_ci a), (cls_hex_ci b); reflexivity.
    + destruct (cls_hex_ci a), (cls_hex_ci b); reflexivity.
  - change (rmatch (Cat (Rep (S n) hexGroup) (Cat (Rep 2 (Chr cls_hex_ci)) Eol))
              t cap (fun _ c => Some c))
      with (rmatch hexGroup t cap
              (fun s1 cap1 =>
                 rmatch (Cat (Rep n hexGroup) (Cat (Rep 2 (Chr cls_hex_ci)) Eol))
                   s1 cap1 (fun _ c => Some c))).
    rewrite rmatch_hexGroup.
    destruct t as [|a [|b [|c t']]]; cbn [isMacFrom]; try reflexivity.
    + destruct (cls_hex_ci a), (cls_hex_ci b); reflexivity.
    + destruct (cls_hex_ci a), (cls_hex_ci b); cbn [andb]; try reflexivity.
      destruct (ascii_eqb c ":"); cbn [andb]; [apply IH|reflexivity].
Qed.

Lemma bssidPattern_isMac (t : str) : re_test bssidPattern t = isMac t.
Proof. apply (macGroups 5 t None). Qed.

Lemma isMac_length (t : str) : isMac t = true -> length t = 17%nat.
Proof.
  unfold isMac.
  assert (H : forall n t, isMacFrom n t = true -> length t = (3 * n + 2)%nat).
  { clear t. induction n as [|n IH]; intros t; cbn [isMacFrom].
    - destruct t as [|a [|b [|c t']]]; try discriminate.
      + reflexivity.
      + rewrite andb_false_r. discriminate.
    - destruct t as [|a [|b [|c t']]]; try discriminate.
      + rewrite andb_false_r. discriminate.
      + intros H. apply andb_true_iff in H as [_ H].
        apply andb_true_iff in H as [_ H]. apply IH in H.
        cbn [length]. lia. }
  apply H.
Qed.



(** ** The scan-result parser: the bssid gate *)

Lemma trimStart_suffix (s : str) : exists ws, s = ws ++ trimStart s.
Proof.
  induction s as [|a s [ws IH]]; simpl.
  - exists []. reflexivity.
  - destruct (is_space a).
    + exists (a :: ws). simpl. f_equal. exact IH.
    + exists []. reflexivity.
Qed.

Lemma trimStart_head (s : str) : headNonspace (trimStart s).
Proof.
  induction s as [|a s IH]; simpl; [exact I|].
  destruct (is_space a) eqn:Ha; [exact IH|exact Ha].
Qed.

Lemma trimStart_fixed (s : str) : headNonspace s -> trimStart s = s.
Proof. destruct s as [|a s]; simpl; [reflexivity|]. intros ->. reflexivity. Qed.

Lemma trimEnd_prefix (s : str) : exists ws, s = trimEnd s ++ ws.
Proof.
  unfold trimEnd. destruct (trimStart_suffix (rev s)) as [ws H].
  exists (rev ws). rewrite <- rev_app_distr, <- H, rev_involutive. reflexivity.
Qed.

Lemma headNonspace_prefix (u v : str) : headNonspace (u ++ v) -> headNonspace u.
Proof. destruct u; simpl; auto. Qed.

Lemma headNonspace_trim (s : str) : headNonspace (trim s).
Proof.
  unfold trim. destruct (trimEnd_prefix (trimStart s)) as [ws H].
  apply (headNonspace_prefix _ ws). rewrite <- H. apply trimStart_head.
Qed.

Lemma take_while_app_stop (p : ascii -> bool) (u v : str) :
  forallb p u = false -> take_while p (u ++ v) = take_while p u.
Proof.
  induction u as [|a u IH]; simpl; [discriminate|].
  destruct (p a); simpl; [|reflexivity]. intros H. rewrite IH; auto.
Qed.

Lemma split_ws_from_nonempty (b : bool) (s : str) : split_ws_from b s <> [].
Proof.
  revert b. induction s as [|a s IH]; intros b; simpl; [discriminate|].
  destruct (is_space a).
  - destruct b; [apply IH|discriminate].
  - destruct (split_ws_from false s); discriminate.
Qed.

(** The first piece of [s.split(/\s+/)] is the text before the first
    white space. *)
Lemma split_ws_head (s : str) :
  nth 0 (split_ws s) [] = take_while nonspace s.
Proof.
  unfold split_ws, nonspace. induction s as [|a s IH]; simpl; [reflexivity|].
  destruct (is_space a); simpl; [reflexivity|].
  destruct (split_ws_from false s) as [|t ts] eqn:Hs.
  - exfalso. exact (split_ws_from_nonempty _ _ Hs).
  - simpl in *. rewrite IH. reflexivity.
Qed.

(** A text without white space is one piece. *)
Lemma split_ws_single (s : str) :
  forallb nonspace s = true -> split_ws s = [s].
Proof.
  unfold split_ws, nonspace. induction s as [|a s IH]; simpl; [reflexivity|].
  intros H. apply andb_true_iff in H as [Ha Hs].
  destruct (is_space a); [discriminate|]. rewrite (IH Hs). reflexivity.
Qed.

Lemma mainPartOf_prefix (line : str) : exists rest, line = mainPartOf line ++ rest.
Proof.
  unfold mainPartOf. destruct (indexOf "[" line) as [i|].
  - exists (drop i line). symmetry. apply take_drop.
  - exists []. symmetry. apply app_nil_r.
Qed.

(** The first token of the bracket-free prefix of a line is the first
    token of the line, as soon as the prefix has a second token. *)
Lemma prefix_token_is_first_token (raw : str) :
  (2 <= length (split_ws (trim (mainPartOf (trim raw)))))%nat ->
  nth 0 (split_ws (trim (mainPartOf (trim raw)))) [] = firstToken raw.
Proof.
  intros Hlen. rewrite split_ws_head.
  set (line := trim raw) in *. set (m := mainPartOf line) in *.
  assert (Hsp : forallb nonspace (trim m) = false).
  { destruct (forallb nonspace (trim m)) eqn:H; [|reflexivity].
    rewrite (split_ws_single _ H) in Hlen. simpl in Hlen. lia. }
  destruct (mainPartOf_prefix line) as [rest Hline]. fold m in Hline.
  assert (Hm : trimStart m = m).
  { apply trimStart_fixed. apply (headNonspace_prefix _ rest).
    rewrite <- Hline. apply headNonspace_trim. }
  assert (Htm : exists ws, m = trim m ++ ws).
  { unfold trim. rewrite Hm. apply trimEnd_prefix. }
  destruct Htm as [ws Htm].
  unfold firstToken.
  destruct (trimEnd_prefix (trimStart raw)) as [ws' Hraw].
  change (trimEnd (trimStart raw)) with line in Hraw.
  assert (Heq : trimStart raw = trim m ++ (ws ++ rest ++ ws')).
  { rewrite Hraw, Hline. rewrite Htm at 1. rewrite <- !app_assoc.
    reflexivity. }
  rewrite Heq. fold nonspace.
  rewrite take_while_app_stop by exact Hsp. reflexivity.
Qed.

Lemma for_each_line_length {A : Type} (f : str -> option A) (lines : list str) :
  (length (for_each_line f lines) <= length lines)%nat.
Proof.
  induction lines as [|l lines IH]; simpl; [lia|].
  destruct (f l); simpl; lia.
Qed.

Lemma for_each_line_dropped {A : Type} (f : str -> option A)
    (lines : list str) (l : str) :
  In l lines -> f l = None ->
  (length (for_each_line f lines) < length lines)%nat.
Proof.
  induction lines as [|l0 lines IH]; simpl; [tauto|].
  intros [->|Hin] Hl.
  - rewrite Hl. pose proof (for_each_line_length f lines). lia.
  - specialize (IH Hin Hl). destruct (f l0); simpl; lia.
Qed.

Lemma for_each_line_In {A : Type} (f : str -> option A) (lines : list str)
    (x : A) :
  In x (for_each_line f lines) -> exists l, In l lines /\ f l = Some x.
Proof.
  induction lines as [|l0 lines IH]; simpl; [tauto|].
  destruct (f l0) as [y|] eqn:Hf.
  - intros [->|Hin]; [eauto|]. destruct (IH Hin) as (l & Hl & Hx). eauto.
  - intros Hin. destruct (IH Hin) as (l & Hl & Hx). eauto.
Qed.

(** End-to-end scenario C of the specification. *)
Example scan_scenario_C :
  parseScanResults
    (lit "84:18:3a:06:be:58 2412 -51 17.210 HomeNet [WPA2-PSK-CCMP][RSN-PSK-CCMP][ESS]")
  = [mkScanResult (lit "HomeNet") (lit "84:18:3a:06:be:58") 2412 (-51)
       (lit "WPA2")].
Proof. vm_compute. reflexivity. Qed.

Lemma scanLine_mac (raw : str) (r : ScanResult) :
  scanLine raw = Some r ->
  scan_bssid r = firstToken raw /\ isMac (firstToken raw) = true.
Proof.
  intros H. apply scanLine_Some in H. cbv zeta in H.
  destruct H as (_ & Hlen & Hmac & ->). simpl scan_bssid.
  rewrite bssidPattern_isMac in Hmac.
  rewrite prefix_token_is_first_token in * by lia. auto.
Qed.

(** C2: a line whose first white-space token is not six colon-separated
    pairs of hexadecimal digits yields no record; so every record of the
    output has a bssid of that form (17 characters), the output has at most
    as many records as the input has lines, and fewer as soon as one line
    has no such first token. *)
Theorem scan_requires_mac (output : str) :
  let lines := split_char LF output in
  let records := parseScanResults output in
  (forall line, isMac (firstToken line) = false -> scanLine line = None)
  /\ (forall r, In r records ->
        isMac (scan_bssid r) = true /\ length (scan_bssid r) = 17%nat)
  /\ (length records <= length lines)%nat
  /\ (forall line, In line lines -> isMac (firstToken line) = false ->
        (length records < length lines)%nat).
Proof.
  cbv zeta. split; [|split; [|split]].
  - intros line Hbad. destruct (scanLine line) as [r|] eqn:Hr; [|reflexivity].
    apply scanLine_mac in Hr as [_ Hr]. congruence.
  - intros r Hin. unfold parseScanResults in Hin.
    apply for_each_line_In in Hin as (l & _ & Hl).
    apply scanLine_mac in Hl as [-> Hm]. split; [exact Hm|].
    apply isMac_length. exact Hm.
  - unfold parseScanResults.
    pose proof (for_each_line_length scanLine
                  (drop (match split_char LF output with
                         | l0 :: _ =>
                             if includes (lit "BSSID") l0 then 1%nat else 0%nat
                         | [] => 0%nat
                         end) (split_char LF output))) as Hle.
    rewrite length_drop in Hle.
    eapply Nat.le_trans; [exact Hle|apply Nat.le_sub_l].
  - intros line Hin Hbad. unfold parseScanResults.
    destruct (split_char LF output) as [|l0 lines] eqn:Hl; [destruct Hin|].
    destruct (includes (lit "BSSID") l0).
    + cbn [drop]. rewrite drop_0.
      pose proof (for_each_line_length scanLine lines). cbn [length]. lia.
    + cbn [drop]. apply (for_each_line_dropped _ _ line Hin).
      destruct (scanLine line) as [r|] eqn:Hr; [|reflexivity].
      apply scanLine_mac in Hr as [_ Hr]. congruence.
Qed.

(** ** The connection-status parser: the ssid *)

(** C4 (the code falls short of it): the absence marker is compared with
    the captured text before that text is trimmed, so a marker followed by
    a blank passes the guard and is returned, trimmed, as the ssid; and a
    capture that is all blanks is returned as the empty ssid. *)
Theorem getStatus_returns_absent_ssid :
  st_ssid <$> returned (getStatus (sim_host (sim_status dumpNoneThenBlank))).1
    = Some (Some (lit "<none>"))
  /\
  st_ssid <$> returned (getStatus (sim_host (sim_status dumpEmptySsid))).1
    = Some (Some [])
  /\ statusSsid dumpNoneThenBlank = Some (lit "<none>")
  /\ statusSsid dumpEmptySsid = Some [].
Proof. vm_compute. repeat split. Qed.

(** The guard does work on the marker alone. *)
Lemma statusSsid_none_marker :
  statusSsid (lit "mWifiInfo SSID: <none>, BSSID: <none>") = None.
Proof. vm_compute. reflexivity. Qed.

(** ** The WiFi connect operation *)

Section Connect.
Context `{P : Platform}.


Lemma ssid_is_true (o : option str) (ssid : str) :
  ssid_is o ssid = true <-> o = Some ssid.
Proof.
  destruct o as [s|]; simpl.
  - rewrite str_eqb_eq. split; congruence.
  - split; discriminate.
Qed.


End Connect.


(** The request for the network that the device then reports succeeds;
    the request for another network fails at the verification. *)
Example connect_examples :
  connectCommand (lit "HomeNet") sec_wpa2 (Some (lit "hunter2"))
    = lit "cmd wifi connect-network " ++ quoted (lit "HomeNet")
      ++ lit " wpa2 " ++ quoted (lit "hunter2")
  /\ (connect (lit "HomeNet") sec_wpa2 (Some (lit "hunter2"))
        (sim_host (sim_connects_to (lit "HomeNet")))).1
     = Return (mkWifiConnectionResult true (lit "HomeNet") None)
  /\ (connect (lit "Cafe") sec_open None
        (sim_host (sim_connects_to (lit "HomeNet")))).1
     = Return (mkWifiConnectionResult false (lit "Cafe")
                 (Some (lit "Failed to verify connection"))).
Proof. vm_compute. repeat split. Qed.

(** ** The parsers: what is dropped, what is defaulted *)




Ltac peel H :=
  repeat match type of H with
         | rmatch (Cat _ _) _ _ _ = Some _ =>
             let s1 := fresh "s" in let c1 := fresh "cap" in
             apply rmatch_cat in H as (s1 & c1 & H)
         end.

Ltac found H :=
  unfold re_match, re_exec in H; cbn [anchored body] in H;
  match type of H with
  | context [search ?r ?s] =>
      let c := fresh "c" in let Hs := fresh "Hs" in
      destruct (search r s) as [c|] eqn:Hs; [|discriminate H];
      apply search_found in Hs as (? & Hs); unfold exec_here in Hs
  end.
















Section Parsers.
Context `{P : Platform}.


End Parsers.


(** A data line that mentions BSSID is dropped when it comes first, and an
    id beyond 2^53 is rounded. *)
Example parsers_at_the_edges :
  parseScanResults (lit "aa:bb:cc:dd:ee:ff 2412 -51 1.0 BSSID-Net [ESS]") = []
  /\ parseScanResults
       ([LF] ++ lit "aa:bb:cc:dd:ee:ff 2412 -51 1.0 BSSID-Net [ESS]")
     = [mkScanResult (lit "BSSID-Net") (lit "aa:bb:cc:dd:ee:ff") 2412 (-51)
          (lit "Open")]
  /\ parseSavedNetworks (lit "Network ID: 9007199254740993 SSID: Cafe")
     = [mkSavedNetwork 9007199254740992 (lit "Cafe")].
Proof. vm_compute. repeat split. Qed.

(** ** The DNS lookup *)

Section Dns.
Context `{P : Platform}.

(** What one [shell] call does to the host: one more spawned command
    line, nothing else of the host process changes. *)
Lemma shell_effect (command : str) (timeout : N) (h : Host) :
  exists (o : ExecOutcome) (h' : Host),
    shell command timeout h = (Return (resultOfOutcome o), h') /\
    spawned h' = spawned h ++ [(commandLine h [lit "shell"; command], o)] /\
    selectedDevice h' = selectedDevice h /\
    adbPath h' = adbPath h /\
    devices h' = devices h /\
    (clock h <= clock h')%N.
Proof.
  unfold shell. rewrite exec_unfold. eexists _, _.
  split; [reflexivity|]. simpl. repeat split. lia.
Qed.

(** The first tier keeps no text with a colon in it. *)
Lemma nslookupAddresses_no_colon (inAnswer : bool) (lines : list str) (a : str) :
  In a (nslookupAddresses inAnswer lines) -> includes (lit ":") a = false.
Proof.
  revert inAnswer. induction lines as [|line rest IH]; intros inAnswer;
    cbn [nslookupAddresses]; [intros []|].
  intros Hin. apply in_app_or in Hin as [Hin|Hin]; [|exact (IH _ Hin)].
  destruct (if includes (lit "Name:") line then true else inAnswer);
    [|destruct Hin].
  destruct (re_match addressPattern line) as [g|]; [|destruct Hin].
  destruct (includes (lit ":") g) eqn:Hg; cbn [negb] in Hin; [destruct Hin|].
  destruct Hin as [<-|[]]. exact Hg.
Qed.

(** The tiers are tried in order and the lookup stops at the first that
    yields an address: when the nslookup tier yields one, nslookup is the
    only command spawned, and the addresses are the ones it yielded. *)
Lemma dnsLookup_stops_at_first_tier (hostname : str) (h : Host) :
  exists (o : ExecOutcome) (h1 : Host),
    shell (lit "nslookup " ++ hostname) DEFAULT_TIMEOUT h
      = (Return (resultOfOutcome o), h1) /\
    forall a rest,
      success (resultOfOutcome o) = true ->
      nslookupAddresses false (split_char LF (stdout (resultOfOutcome o)))
        = a :: rest ->
      dnsLookup hostname h
        = (Return (mkDnsResult hostname (a :: rest) None), h1) /\
      spawned h1 = spawned h
        ++ [(commandLine h [lit "shell"; lit "nslookup " ++ hostname], o)].
Proof.
  destruct (shell_effect (lit "nslookup " ++ hostname) DEFAULT_TIMEOUT h)
    as (o & h1 & Hsh & Hsp & _).
  exists o, h1. split; [exact Hsh|].
  intros a rest Hs Ha. split; [|exact Hsp].
  unfold dnsLookup, bind. rewrite Hsh, Hs, Ha. reflexivity.
Qed.

End Dns.

(** C8 (the code falls short of it): the address pattern tries [0-9.]+
    before [0-9a-f:]+, so of an IPv6 address that begins with digits it
    captures the digits before the first colon; that text has no colon,
    passes the filter and is kept as an address.  Here the lookup of a
    dual-stack name resolves with "2607" and the IPv4 address. *)
Theorem dnsLookup_keeps_ipv6_prefix :
  (dnsLookup (lit "google.com") (sim_host sim_nslookup)).1
    = Return (mkDnsResult (lit "google.com")
                [lit "2607"; lit "142.250.72.206"] None)
  /\ re_match addressPattern
       (lit "Address 1: 2607:f8b0:4005:80a::200e sfo03s25-in-x0e.1e100.net")
     = Some (lit "2607")
  /\ (length (spawned (dnsLookup (lit "google.com")
                         (sim_host sim_nslookup)).2) = 1)%nat.
Proof. vm_compute. repeat split. Qed.

(** An IPv6 address that begins with a letter is filtered out. *)
Lemma nslookupAddresses_filters_letter_ipv6 :
  nslookupAddresses true [lit "Address 1: fe80::1ff:fe23:4567:890a"] = [].
Proof. vm_compute. reflexivity. Qed.

(** ** The enterprise bridge, BUILD stage *)

(** C6: a PEAP or TTLS request without password, and a TLS request
    without client certificate or without private key, resolves with a
    failure result built locally; the host is left as it was: no
    command was spawned (no package query, no file write, no broadcast, no
    poll), and the device was not touched. *)
Theorem connectEnterprise_fails_at_build `{P : Platform}
    (config : EapConfig) (h : Host) :
  lacksRequiredField config ->
  exists error : str,
    connectEnterprise config h = (Return (buildFailure config error), h)
    /\ error <> []
    /\ spawned (connectEnterprise config h).2 = spawned h
    /\ world (connectEnterprise config h).2 = world h.
Proof.
  unfold lacksRequiredField, connectEnterprise, buildFailure.
  destruct (eapMethod config) eqn:Hm; simpl; intros H.
  - rewrite H. simpl. eexists. repeat split. discriminate.
  - rewrite H. simpl. eexists. repeat split. discriminate.
  - assert (Hor : absent (clientCertificate config)
                  || absent (privateKey config) = true)
      by (apply orb_true_iff; exact H).
    rewrite Hor. simpl. eexists. repeat split. discriminate.
Qed.

Lemma connectEnterprise_fails_at_build_witness :
  (exists error : str,
     @connectEnterprise SimPlatform peapWithoutPassword (sim_host sim_failure)
       = (Return (buildFailure peapWithoutPassword error),
          sim_host sim_failure)
     /\ error <> []
     /\ spawned (@connectEnterprise SimPlatform peapWithoutPassword
                   (sim_host sim_failure)).2 = []
     /\ world (@connectEnterprise SimPlatform peapWithoutPassword
                 (sim_host sim_failure)).2 = sim_failure)
  /\
  (exists error : str,
     @connectEnterprise SimPlatform tlsWithoutKey (sim_host sim_failure)
       = (Return (buildFailure tlsWithoutKey error), sim_host sim_failure)
     /\ error <> []
     /\ spawned (@connectEnterprise SimPlatform tlsWithoutKey
                   (sim_host sim_failure)).2 = []
     /\ world (@connectEnterprise SimPlatform tlsWithoutKey
                 (sim_host sim_failure)).2 = sim_failure).
Proof.
  split.
  - apply (@connectEnterprise_fails_at_build SimPlatform peapWithoutPassword
             (sim_host sim_failure)).
    reflexivity.
  - apply (@connectEnterprise_fails_at_build SimPlatform tlsWithoutKey
             (sim_host sim_failure)).
    right. reflexivity.
Defined.

(** ** The enterprise bridge, POLL stage *)

Section Poll.
Context `{P : Platform}.

Lemma sameClient_refl (h : Host) : sameClient h h.
Proof. split; reflexivity. Qed.

Lemma sameClient_trans (h1 h2 h3 : Host) :
  sameClient h1 h2 -> sameClient h2 h3 -> sameClient h1 h3.
Proof. intros [A B] [C D]. split; congruence. Qed.

Lemma sameClient_sh (h h' : Host) (c : str) : sameClient h h' -> sh h' c = sh h c.
Proof.
  intros [A B]. unfold sh, commandLine, selection. rewrite A, B. reflexivity.
Qed.

Lemma shell_step (command : str) (timeout : N) (h : Host) :
  exists (o : ExecOutcome) (h' : Host),
    shell command timeout h = (Return (resultOfOutcome o), h') /\
    spawned h' = spawned h ++ [(sh h command, o)] /\
    sameClient h h'.
Proof.
  destruct (shell_effect command timeout h) as (o & h' & H & Hs & A & B & _).
  exists o, h'. repeat split; assumption.
Qed.

(** The same, with the clock, which never runs backwards. *)
Lemma shell_timed (command : str) (timeout : N) (h : Host) :
  exists (o : ExecOutcome) (h' : Host),
    shell command timeout h = (Return (resultOfOutcome o), h') /\
    spawned h' = spawned h ++ [(sh h command, o)] /\
    sameClient h h' /\ (clock h <= clock h')%N.
Proof.
  destruct (shell_effect command timeout h) as (o & h' & H & Hs & A & B & _ & C).
  exists o, h'. repeat split; assumption.
Qed.

Lemma sleep_step (ms : N) (h : Host) :
  spawned (sleep ms h).2 = spawned h /\ sameClient h (sleep ms h).2.
Proof. repeat split. Qed.

(** One turn of the loop: half a second, a read, and when the read
    delivered, the deletion. *)
Lemma pollOnce_step (h : Host) :
  exists (o : ExecOutcome) (r : option (option Json)) (h' : Host),
    pollOnce h = (Return r, h') /\ sameClient h h' /\
    (clock h + pollInterval <= clock h')%N /\
    delivered o = r /\
    match r with
    | None => spawned h' = spawned h ++ [(sh h catResultCommand, o)]
    | Some _ =>
        exists o_rm,
          spawned h' = spawned h ++ [(sh h catResultCommand, o);
                                     (sh h rmResultCommand, o_rm)]
    end.
Proof.
  unfold pollOnce, bind.
  destruct (sleep_step pollInterval h) as [Hsp Hsc].
  assert (Hck : clock (sleep pollInterval h).2 = (clock h + pollInterval)%N)
    by reflexivity.
  change (sleep pollInterval h) with (Return tt, (sleep pollInterval h).2).
  cbv iota beta.
  destruct (shell_timed catResultCommand DEFAULT_TIMEOUT (sleep pollInterval h).2)
    as (o & h1 & Hsh & Hlog & Hc & Hk).
  rewrite Hsh. rewrite Hsp in Hlog. rewrite (sameClient_sh _ _ _ Hsc) in Hlog.
  pose proof (sameClient_trans _ _ _ Hsc Hc) as Hc1.
  rewrite Hck in Hk.
  exists o. unfold delivered.
  destruct (success (resultOfOutcome o)
            && truthy (trim (stdout (resultOfOutcome o)))) eqn:Hs;
    [destruct (JSON_parse (stdout (resultOfOutcome o))) as [result|] eqn:Hj|].
  - destruct (shell_timed rmResultCommand DEFAULT_TIMEOUT h1)
      as (o2 & h2 & Hsh2 & Hlog2 & Hc2 & Hk2).
    rewrite Hsh2. unfold ret. exists (Some result), h2.
    split; [reflexivity|]. split; [exact (sameClient_trans _ _ _ Hc1 Hc2)|].
    split; [lia|]. split; [reflexivity|].
    exists o2. rewrite Hlog2, Hlog, (sameClient_sh _ _ _ Hc1), <- app_assoc.
    reflexivity.
  - exists None, h1. unfold ret. auto.
  - exists None, h1. unfold ret. auto.
Qed.

Lemma loopTrace_sameClient (startTime : N) (h0 h h' : Host)
    (result : option Json) (polls : list (str * ExecOutcome)) :
  sameClient h0 h -> loopTrace startTime h h' result polls ->
  loopTrace startTime h0 h' result polls.
Proof.
  intros Hc (reads & Hu & H). exists reads. split; [exact Hu|].
  unfold readEntries in *. rewrite !(sameClient_sh _ _ _ Hc) in H. exact H.
Qed.

Lemma loopTrace_read (startTime : N) (h h' : Host) (o : ExecOutcome)
    (result : option Json) (polls : list (str * ExecOutcome)) :
  delivered o = None ->
  loopTrace startTime h h' result polls ->
  loopTrace startTime h h' result ((sh h catResultCommand, o) :: polls).
Proof.
  intros Ho (reads & Hu & H). exists (o :: reads).
  split; [constructor; assumption|].
  destruct H as [(-> & -> & Hk)|(o_read & o_rm & -> & Hd)].
  - left. auto.
  - right. exists o_read, o_rm. auto.
Qed.

(** The loop always ends; it only reads (and once deletes) the result
    file, and it resolves with what the last read delivered or, when the
    time is up, with null. *)
Lemma pollLoop_trace (startTime : N) (h : Host) :
  exists (result : option Json) (h' : Host) (polls : list (str * ExecOutcome)),
    pollLoop startTime h = (Return result, h') /\
    spawned h' = spawned h ++ polls /\
    sameClient h h' /\
    loopTrace startTime h h' result polls.
Proof.
  funelim (pollLoop startTime h);
    repeat match goal with
           | H : sigmaI _ _ _ = _ |- _ => clear H
           end.
  - exists None, h, []. rewrite app_nil_r. split; [reflexivity|].
    split; [reflexivity|]. split; [apply sameClient_refl|].
    exists []. split; [constructor|]. left. split; [reflexivity|].
    split; [reflexivity|].
    match goal with H : (_ <? _)%N = false |- _ => apply N.ltb_ge in H end.
    unfold RESULT_TIMEOUT in *. lia.
  - destruct (pollOnce_step h) as (o & r & h1 & Hp & Hc & _ & Hd & Hr).
    rewrite Hp in e0. injection e0 as -> ->.
    destruct Hr as (o_rm & Hlog).
    eexists _, _, _. split; [reflexivity|]. split; [exact Hlog|].
    split; [exact Hc|]. exists []. split; [constructor|].
    right. exists o, o_rm. auto.
  - destruct (pollOnce_step h) as (o & r & h1 & Hp & Hc & _ & Hd & Hr).
    rewrite Hp in e0. injection e0 as -> ->.
    match goal with
    | IH : exists _ _ _, pollLoop _ _ = _ /\ _ |- _ =>
        destruct IH as (result & h2 & polls & Hloop & Hlog & Hc2 & Htr)
    end.
    rewrite Hloop. exists result, h2, ((sh h catResultCommand, o) :: polls).
    split; [reflexivity|].
    split; [rewrite Hlog, Hr, <- app_assoc; reflexivity|].
    split; [exact (sameClient_trans _ _ _ Hc Hc2)|].
    apply loopTrace_read; [exact Hd|].
    exact (loopTrace_sameClient _ _ _ _ _ _ Hc Htr).
  - destruct (pollOnce_step h) as (o & r & h1 & Hp & _).
    rewrite Hp in e0. discriminate.
Qed.

Lemma waitForResult_trace (identifier : str) (h : Host) :
  exists (result : option Json) (h' : Host) (o_rm : ExecOutcome)
         (polls : list (str * ExecOutcome)),
    waitForResult identifier h = (Return result, h') /\
    spawned h' = spawned h ++ (sh h rmResultCommand, o_rm) :: polls /\
    sameClient h h' /\
    pollTrace h h' result polls.
Proof.
  unfold waitForResult, bind, Date_now.
  destruct (shell_step rmResultCommand DEFAULT_TIMEOUT h)
    as (o & h1 & Hsh & Hlog & Hc).
  rewrite Hsh.
  destruct (pollLoop_trace (clock h) h1)
    as (result & h2 & polls & Hloop & Hlog2 & Hc2 & Htr).
  rewrite Hloop. exists result, h2, o, polls.
  split; [reflexivity|].
  split; [rewrite Hlog2, Hlog, <- app_assoc; reflexivity|].
  split; [exact (sameClient_trans _ _ _ Hc Hc2)|].
  exact (loopTrace_sameClient _ _ _ _ _ _ Hc Htr).
Qed.

(** A poll that began later, with the same client, is one of the earlier
    host as well. *)
Lemma pollTrace_later (h0 h h' : Host) (result : option Json)
    (polls : list (str * ExecOutcome)) :
  sameClient h0 h -> (clock h0 <= clock h)%N ->
  pollTrace h h' result polls -> pollTrace h0 h' result polls.
Proof.
  intros Hc Hk (reads & Hu & H). exists reads. split; [exact Hu|].
  unfold readEntries in *. rewrite !(sameClient_sh _ _ _ Hc) in H.
  destruct H as [(A & B & C)|H]; [left|right; exact H].
  repeat split; [exact A|exact B|lia].
Qed.

(** A shell command line is the command after a prefix that ends in
    " shell ". *)
Lemma sh_prefix (h : Host) :
  exists prefix, forall c, sh h c = (prefix ++ lit " shell ") ++ c.
Proof.
  unfold sh, commandLine. destruct (selection h) as [d|].
  - exists (adbPath h ++ lit " -s " ++ d). intros c.
    cbn [app join]. rewrite <- !app_assoc. reflexivity.
  - exists (adbPath h). intros c.
    cbn [app join]. rewrite <- !app_assoc. reflexivity.
Qed.

Lemma sh_inj (h : Host) (c1 c2 : str) : sh h c1 = sh h c2 -> c1 = c2.
Proof.
  destruct (sh_prefix h) as [prefix H]. rewrite !H.
  apply app_inv_head.
Qed.



End Poll.

(** ** The enterprise bridge and the result file *)

Section ResultFile.
Context `{D : ResultFileDevice}.


















End ResultFile.



(** A stale result is on the device and the agent answers during the
    poll: the answer is the fresh result; the agent never answers: the
    exchange times out, after fifty-eight reads; the agent answers with
    the JSON null: the exchange reports a timeout after the third read. *)
Example exchange_with_stale_file :
  (@connectEnterprise SimPlatform peapConfig (sim_host sim_stale_then_fresh)).1
    = Return (@FromAgent str (lit "{fresh}"))
  /\ map fst (spawned (@connectEnterprise SimPlatform peapConfig
                         (sim_host sim_stale_then_fresh)).2)
     = [lit "adb shell " ++ pmCommand;
        lit "adb shell "
        ++ @echoCommand SimPlatform
             (mkCommandPayload (lit "connect_enterprise") 20 peapConfig);
        lit "adb shell " ++ broadcastCommand;
        lit "adb shell " ++ rmResultCommand;
        lit "adb shell " ++ catResultCommand;
        lit "adb shell " ++ catResultCommand;
        lit "adb shell " ++ catResultCommand;
        lit "adb shell " ++ rmResultCommand]
  /\ (@connectEnterprise SimPlatform peapConfig (sim_host sim_stale_no_answer)).1
     = Return (@timeoutFailure SimPlatform peapConfig)
  /\ length (spawned (@connectEnterprise SimPlatform peapConfig
                        (sim_host sim_stale_no_answer)).2) = 62%nat
  /\ (@connectEnterprise SimPlatform peapConfig (sim_host sim_null_answer)).1
     = Return (@timeoutFailure SimPlatform peapConfig)
  /\ length (spawned (@connectEnterprise SimPlatform peapConfig
                        (sim_host sim_null_answer)).2) = 8%nat
  /\ clock (@connectEnterprise SimPlatform peapConfig
              (sim_host sim_null_answer)).2 = 1660%N.
Proof. vm_compute. repeat split. Qed.

(** The deletion comes after the broadcast: an answer that the agent
    writes before the deletion runs is deleted with it, and the exchange
    times out. *)
Example quick_answer_is_deleted :
  (@connectEnterprise SimPlatform peapConfig
     (sim_host (mkSim None [None; None; None; Some (lit "{fresh}")]
                  [replyOk (lit "package:com.example.wifimcpcompanion")]))).1
  = Return (@timeoutFailure SimPlatform peapConfig).
Proof. vm_compute. reflexivity. Qed.

(** ** The theorems at concrete inputs *)

Lemma scan_requires_mac_witness :
  (length (parseScanResults scanThreeLines)
   < length (split_char LF scanThreeLines))%nat.
Proof.
  apply (proj2 (proj2 (proj2 (scan_requires_mac scanThreeLines)))
           (lit "not-a-mac 2412 -60 1.000 Broken [ESS]")).
  - vm_compute. tauto.
  - vm_compute. reflexivity.
Defined.



Ltac run_refresh H :=
  match type of H with
  | context [refreshDevices ?h] =>
      let rd := fresh "rd" in let E := fresh "E" in
      remember (refreshDevices h) as rd eqn:E in H;
      vm_compute in E; subst rd; cbv beta iota in H
  end;
  match type of H with
  | context [List.filter isReady ?devs] =>
      let f := eval vm_compute in (List.filter isReady devs) in
      change (List.filter isReady devs) with f in H
  end;
  cbv beta iota in H.

Lemma ensureDeviceSelected_spec_witness :
  (ensureDeviceSelected (sim_host sim_two_ready)).1
    = Throw (ambiguityMessage [lit "emulator-5554"; lit "R58M12345"])
  /\ (ensureDeviceSelected (sim_host sim_one_ready)).1
     = Return (lit "R58M12345").
Proof.
  split.
  - pose proof (proj2 (ensureDeviceSelected_spec (sim_host sim_two_ready))
                  eq_refl) as H.
    run_refresh H. destruct H as [H _]. rewrite H. reflexivity.
  - pose proof (proj2 (ensureDeviceSelected_spec (sim_host sim_one_ready))
                  eq_refl) as H.
    run_refresh H. destruct H as [H _]. rewrite H. reflexivity.
Defined.

(** * Further properties *)

(** ** Runs *)

Section Runs.
Context `{P : Platform}.

Lemma ran_refl (h : Host) : ran h h [].
Proof. unfold ran. rewrite app_nil_r. repeat split. lia. Qed.

Lemma ran_trans (h1 h2 h3 : Host) (l1 l2 : list (str * ExecOutcome)) :
  ran h1 h2 l1 -> ran h2 h3 l2 -> ran h1 h3 (l1 ++ l2).
Proof.
  intros (A1 & B1 & C1 & D1 & E1) (A2 & B2 & C2 & D2 & E2).
  unfold ran. rewrite A2, A1, <- app_assoc.
  repeat split; try congruence. lia.
Qed.

Lemma ran_sh (h h' : Host) (log : list (str * ExecOutcome)) (c : str) :
  ran h h' log -> sh h' c = sh h c.
Proof.
  intros (_ & A & B & _). unfold sh, commandLine, selection.
  rewrite A, B. reflexivity.
Qed.

Lemma ran_selection (h h' : Host) (log : list (str * ExecOutcome)) :
  ran h h' log -> selection h' = selection h.
Proof. intros (_ & _ & B & _). unfold selection. rewrite B. reflexivity. Qed.

Lemma sh_selected (h : Host) (s command : str) :
  selection h = Some s -> sh h command = shOn h s command.
Proof.
  intros Hs. unfold sh, shOn, commandLine. rewrite Hs.
  cbn [app join]. cbn [lit list_ascii_of_string app]. reflexivity.
Qed.

Lemma exec_ran (args : list str) (timeout : N) (h : Host) :
  exists (o : ExecOutcome) (h' : Host),
    exec args timeout h = (Return (resultOfOutcome o), h') /\
    ran h h' [(commandLine h args, o)] /\
    clock h' = (clock h
                + took (execAsync (commandLine h args) timeout (world h)).1)%N /\
    o = outcome (execAsync (commandLine h args) timeout (world h)).1.
Proof.
  rewrite exec_unfold. eexists _, _. split; [reflexivity|].
  unfold ran. simpl. repeat split. lia.
Qed.

Lemma shell_ran (command : str) (timeout : N) (h : Host) :
  exists (o : ExecOutcome) (h' : Host),
    shell command timeout h = (Return (resultOfOutcome o), h') /\
    ran h h' [(sh h command, o)].
Proof.
  destruct (exec_ran [lit "shell"; command] timeout h) as (o & h' & H & R & _).
  exists o, h'. split; assumption.
Qed.

Lemma sleep_ran (ms : N) (h : Host) :
  ran h (sleep ms h).2 [] /\ clock (sleep ms h).2 = (clock h + ms)%N.
Proof. unfold ran. simpl. rewrite app_nil_r. repeat split. lia. Qed.

End Runs.

(** ** The device listing *)

Lemma split_ws_from_spaceless (b : bool) (s : str) :
  Forall (fun t => spaceless t = true) (split_ws_from b s).
Proof.
  revert b. induction s as [|a s IH]; intros b; simpl.
  - repeat constructor.
  - destruct (is_space a) eqn:Ha.
    + destruct b; [apply IH|]. constructor; [reflexivity|apply IH].
    + specialize (IH false).
      destruct (split_ws_from false s) as [|t ts].
      * repeat constructor. unfold spaceless, nonspace. simpl. rewrite Ha.
        reflexivity.
      * inversion IH as [|? ? Ht Hts]; subst. constructor; [|exact Hts].
        unfold spaceless, nonspace in *. simpl. rewrite Ha. exact Ht.
Qed.

(** Only the first and the last piece of a split can be empty; after a
    separator that is already open, only the last. *)
Lemma split_ws_from_middle (s : str) : forall (b : bool) (i : nat),
  (b = false -> 0 < i)%nat -> (S i < length (split_ws_from b s))%nat ->
  nth i (split_ws_from b s) [] <> [].
Proof.
  induction s as [|a s IH]; intros b i Hi Hlen; simpl in *.
  - lia.
  - destruct (is_space a).
    + destruct b.
      * apply IH; [discriminate|exact Hlen].
      * specialize (Hi eq_refl). destruct i as [|i]; [lia|]. simpl in *.
        apply IH; [discriminate|lia].
    + pose proof (IH false) as IHf.
      destruct (split_ws_from false s) as [|t ts]; simpl in *; [lia|].
      destruct i as [|i]; [discriminate|].
      apply (IHf (S i)); [lia|]. simpl. lia.
Qed.

Lemma split_ws_from_last (s : str) : forall (b : bool) (c : ascii) (s0 : str),
  s = s0 ++ [c] -> is_space c = false ->
  List.last (split_ws_from b s) [] <> [].
Proof.
  induction s as [|a s IH]; intros b c s0 Hs Hc.
  - destruct s0; discriminate.
  - destruct s0 as [|a0 s0].
    + injection Hs as -> ->. simpl. rewrite Hc. simpl. discriminate.
    + injection Hs as -> ->. simpl.
      destruct (is_space a0).
      * destruct b.
        -- apply (IH true c s0); auto.
        -- pose proof (IH true c s0 eq_refl Hc) as H.
           pose proof (split_ws_from_nonempty true (s0 ++ [c])) as Hne.
           destruct (split_ws_from true (s0 ++ [c])); [contradiction|exact H].
      * pose proof (IH false c s0 eq_refl Hc) as H.
        destruct (split_ws_from false (s0 ++ [c])) as [|t ts];
          [discriminate|].
        destruct ts as [|t' ts]; [simpl; discriminate|exact H].
Qed.

(** A trimmed text that is not empty ends in a character that is not
    white space. *)
Lemma trim_last (s : str) :
  trim s <> [] -> exists s0 c, trim s = s0 ++ [c] /\ is_space c = false.
Proof.
  unfold trim, trimEnd. intros Hne.
  pose proof (trimStart_head (rev (trimStart s))) as Hh.
  destruct (trimStart (rev (trimStart s))) as [|c r]; [contradiction|].
  exists (rev r), c. split; [reflexivity|exact Hh].
Qed.

(** The pieces of a trimmed, non-empty text are not empty. *)
Lemma split_ws_trim_pieces (s : str) (i : nat) :
  trim s <> [] -> (i < length (split_ws (trim s)))%nat ->
  nth i (split_ws (trim s)) [] <> [].
Proof.
  intros Hne Hi. unfold split_ws in *.
  destruct (Nat.eq_dec (S i) (length (split_ws_from false (trim s)))) as [E|E].
  - destruct (trim_last s Hne) as (s0 & c & Hs & Hc).
    pose proof (split_ws_from_last _ false c s0 Hs Hc) as Hl.
    replace (nth i (split_ws_from false (trim s)) [])
      with (List.last (split_ws_from false (trim s)) []); [exact Hl|].
    generalize dependent (split_ws_from false (trim s)). intros l _ E _.
    revert i E. induction l as [|x l IH]; intros i E; [discriminate|].
    destruct l as [|y l]; [injection E as ->; reflexivity|].
    destruct i as [|i]; [discriminate|]. apply (IH i). simpl in *. lia.
  - destruct i as [|i].
    + fold (split_ws (trim s)). rewrite split_ws_head.
      pose proof (headNonspace_trim s) as Hh.
      destruct (trim s) as [|a t]; [contradiction|].
      simpl in *. unfold nonspace. rewrite Hh. discriminate.
    + apply split_ws_from_middle; [lia|lia].
Qed.

Lemma deviceProperties_names (parts : list str) : forall d : Device,
  serial (deviceProperties d parts) = serial d
  /\ state (deviceProperties d parts) = state d.
Proof.
  induction parts as [|p rest IH]; intros d; [split; reflexivity|].
  cbn [deviceProperties]. cbv zeta.
  match goal with
  | |- context [deviceProperties ?d' ?r] =>
      destruct (IH d') as [A B]; rewrite A, B
  end.
  repeat match goal with
         | |- context [if ?b then _ else _] => destruct b
         end; split; reflexivity.
Qed.

Lemma deviceLine_wellformed (line : str) (d : Device) :
  deviceLine line = Some d ->
  serial d <> [] /\ state d <> []
  /\ spaceless (serial d) = true /\ spaceless (state d) = true.
Proof.
  unfold deviceLine.
  destruct (truthy (trim line)) eqn:Ht; cbn [negb]; [|discriminate].
  apply truthy_true in Ht.
  destruct (Nat.ltb_spec (length (split_ws (trim line))) 2) as [|Hlen];
    [discriminate|].
  intros H. injection H as <-.
  destruct (deviceProperties_names (drop 2 (split_ws (trim line)))
              (mkDevice (nth 0 (split_ws (trim line)) [])
                 (nth 1 (split_ws (trim line)) []) None None None None))
    as [-> ->].
  cbn [serial state].
  pose proof (split_ws_from_spaceless false (trim line)) as Hall.
  fold (split_ws (trim line)) in Hall.
  rewrite List.Forall_forall in Hall.
  repeat split.
  - apply split_ws_trim_pieces; [exact Ht|lia].
  - apply split_ws_trim_pieces; [exact Ht|lia].
  - apply Hall. apply nth_In. lia.
  - apply Hall. apply nth_In. lia.
Qed.

Section Listing.
Context `{P : Platform}.

Lemma adb_listDevices_run (h : Host) :
  exists (o : ExecOutcome) (h' : Host),
    ran h h' [(commandLine h [lit "devices"; lit "-l"], o)] /\
    adb_listDevices h =
      (if success (resultOfOutcome o)
       then Return (for_each_line deviceLine
                      (drop 1 (split_char LF (stdout (resultOfOutcome o)))))
       else Throw (lit "Failed to list devices: "
                   ++ stderr (resultOfOutcome o)),
       h').
Proof.
  destruct (exec_ran [lit "devices"; lit "-l"] DEFAULT_TIMEOUT h)
    as (o & h' & He & R & _).
  exists o, h'. split; [exact R|].
  unfold adb_listDevices, bind. rewrite He.
  destruct (success (resultOfOutcome o)); reflexivity.
Qed.

Lemma for_each_line_Forall {A : Type} (f : str -> option A) (Q : A -> Prop)
    (lines : list str) :
  (forall line x, f line = Some x -> Q x) ->
  List.Forall Q (for_each_line f lines).
Proof.
  intros Hf. induction lines as [|l lines IH]; simpl; [constructor|].
  destruct (f l) eqn:E; [constructor; eauto|exact IH].
Qed.

(** X1: every device that [listDevices] of the client returns names a
    serial and a state that are not empty and hold no white space. *)
Theorem listDevices_wellformed (h h' : Host) (devs : list Device) :
  adb_listDevices h = (Return devs, h') ->
  List.Forall wellformedDevice devs.
Proof.
  destruct (adb_listDevices_run h) as (o & h1 & _ & ->).
  destruct (success (resultOfOutcome o)); [|discriminate].
  intros H. injection H as <- _.
  apply for_each_line_Forall. exact deviceLine_wellformed.
Qed.

End Listing.

(** ** The device information *)

Section DeviceInformation.
Context `{P : Platform}.

Lemma readProps_run (ps : list str) : forall h : Host,
  exists (h' : Host) (outcomes : list ExecOutcome),
    readProps ps h = (Return (map propValue outcomes), h') /\
    ran h h' (combine (map (fun prop => sh h (lit "getprop " ++ prop)) ps)
                outcomes) /\
    length outcomes = length ps.
Proof.
  induction ps as [|prop rest IH]; intros h.
  - exists h, []. split; [reflexivity|]. split; [apply ran_refl|reflexivity].
  - cbn [readProps]. unfold bind.
    destruct (shell_ran (lit "getprop " ++ prop) DEFAULT_TIMEOUT h)
      as (o & h1 & -> & R1).
    destruct (IH h1) as (h2 & os & -> & R2 & Hlen).
    exists h2, (o :: os). split; [reflexivity|]. split.
    + cbn [map combine].
      change ((sh h (lit "getprop " ++ prop), o)
              :: combine (map (fun prop0 => sh h (lit "getprop " ++ prop0)) rest) os)
        with ([(sh h (lit "getprop " ++ prop), o)]
              ++ combine (map (fun prop0 => sh h (lit "getprop " ++ prop0)) rest) os).
      apply (ran_trans _ h1); [exact R1|].
      replace (map (fun prop0 => sh h (lit "getprop " ++ prop0)) rest)
        with (map (fun prop0 => sh h1 (lit "getprop " ++ prop0)) rest);
        [exact R2|].
      apply map_ext. intros a. apply (ran_sh _ _ _ _ R1).
    + simpl. rewrite Hlen. reflexivity.
Qed.

(** With a device selected, [getDeviceInfo] goes straight to the six
    property reads and builds its record from what they kept. *)
Lemma getDeviceInfo_run (h : Host) (s : str) :
  selection h = Some s ->
  exists (h' : Host) (o0 o1 o2 o3 o4 o5 : ExecOutcome),
    getDeviceInfo h =
      (Return (mkDeviceInfo s
                 (or_else (propValue o0) (lit "Unknown"))
                 (or_else (propValue o1) (lit "Unknown"))
                 (or_else (propValue o2) (lit "Unknown"))
                 (or_else (propValue o3) (lit "Unknown"))
                 (parseInt (or_else (propValue o4) (lit "0")))
                 (or_else (propValue o5) (lit "Unknown"))),
       h') /\
    ran h h' (combine (getpropCommands h) [o0; o1; o2; o3; o4; o5]).
Proof.
  intros Hsel. apply selection_Some in Hsel as [Hs Hne].
  unfold getDeviceInfo, bind, getSelectedDevice. rewrite Hs.
  cbn [mbind option_bind]. apply truthy_true in Hne. rewrite Hne.
  unfold ret at 1. cbv iota beta.
  destruct (readProps_run props h) as (h' & os & -> & R & Hlen).
  destruct os as [|o0 [|o1 [|o2 [|o3 [|o4 [|o5 [|o6 os]]]]]]]; try discriminate.
  exists h', o0, o1, o2, o3, o4, o5.
  destruct R as (A & B & C & D & E). rewrite C, Hs.
  split; [reflexivity|]. unfold ran, getpropCommands. auto.
Qed.

(** X2: with a device selected, [getDeviceInfo] never throws, whatever
    the six property reads settle with: it spawns exactly these six reads,
    in the order of [props], leaves the selection and the cache alone,
    reports the selected serial, and no text field of its record is empty;
    when the read of the SDK level fails the level is 0. *)
Theorem getDeviceInfo_tolerates_failed_reads (h : Host) (s : str) :
  selection h = Some s ->
  exists (info : DeviceInfo) (h' : Host) (outcomes : list ExecOutcome),
    getDeviceInfo h = (Return info, h') /\
    ran h h' (combine (getpropCommands h) outcomes) /\
    length outcomes = 6%nat /\
    info_serial info = s /\
    info_model info <> [] /\ info_brand info <> [] /\
    info_manufacturer info <> [] /\ info_androidVersion info <> [] /\
    info_buildId info <> [] /\
    (forall o, nth_error outcomes 4 = Some o ->
               success (resultOfOutcome o) = false ->
               info_sdkVersion info = Some 0).
Proof.
  intros Hsel.
  destruct (getDeviceInfo_run h s Hsel)
    as (h' & o0 & o1 & o2 & o3 & o4 & o5 & -> & R).
  eexists _, h', [o0; o1; o2; o3; o4; o5].
  split; [reflexivity|]. split; [exact R|]. split; [reflexivity|].
  cbn [info_serial info_model info_brand info_manufacturer
       info_androidVersion info_buildId info_sdkVersion].
  split; [reflexivity|].
  repeat (split; [apply or_else_truthy; discriminate|]).
  intros o Ho Hfail. injection Ho as <-.
  unfold propValue. rewrite Hfail. reflexivity.
Qed.

(** X3: without a selection, [getDeviceInfo] lists the devices first.
    It throws when the listing fails, when no device is ready and when
    several are; when exactly one is ready it selects that device, reads its
    six properties on it and returns its record, and the device stays
    selected afterwards. *)
Theorem getDeviceInfo_autoselects (h : Host) :
  selection h = None ->
  exists (o : ExecOutcome) (h1 : Host) (r : Res DeviceInfo) (h' : Host),
    getDeviceInfo h = (r, h') /\
    ran h h1 [(commandLine h [lit "devices"; lit "-l"], o)] /\
    if success (resultOfOutcome o) then
      match List.filter isReady
              (for_each_line deviceLine
                 (drop 1 (split_char LF (stdout (resultOfOutcome o))))) with
      | [] => r = Throw (lit "No devices connected") /\ h' = h1
      | [d] =>
          exists (info : DeviceInfo) (outcomes : list ExecOutcome),
            r = Return info /\
            info_serial info = serial d /\
            selection h' = Some (serial d) /\
            length outcomes = 6%nat /\
            spawned h'
            = spawned h1
              ++ combine (map (fun prop => shOn h (serial d)
                                             (lit "getprop " ++ prop)) props)
                   outcomes
      | _ =>
          r = Throw (lit "Multiple devices connected. Please select a device first.")
          /\ h' = h1
      end
    else
      r = Throw (lit "Failed to list devices: " ++ stderr (resultOfOutcome o))
      /\ h' = h1.
Proof.
  intros Hnone.
  assert (Hb : selectedDevice h ≫= (fun d => if truthy d then Some d else None)
               = None).
  { unfold selection in Hnone. destruct (selectedDevice h) as [d|]; [|reflexivity].
    cbn [mbind option_bind]. destruct (truthy d); [discriminate|reflexivity]. }
  destruct (adb_listDevices_run h) as (o & h1 & R1 & Hlist).
  exists o, h1.
  unfold getDeviceInfo. unfold bind at 1, getSelectedDevice at 1.
  cbv iota beta. rewrite Hb. unfold bind at 1 2. rewrite Hlist.
  destruct (success (resultOfOutcome o));
    [|eexists _, _; split; [reflexivity|]; split; [exact R1|]; split; reflexivity].
  set (devs := for_each_line deviceLine
                 (drop 1 (split_char LF (stdout (resultOfOutcome o))))).
  assert (Hall : List.Forall (fun d => serial d <> []) devs).
  { apply for_each_line_Forall. intros line d Hd.
    apply deviceLine_wellformed in Hd. tauto. }
  destruct (List.filter isReady devs) as [|d [|d' ready]] eqn:Hf;
    [eexists _, _; split; [reflexivity|]; split; [exact R1|]; split; reflexivity
    |
    |eexists _, _; split; [reflexivity|]; split; [exact R1|]; split; reflexivity].
  assert (Hne : serial d <> []).
  { rewrite List.Forall_forall in Hall. apply Hall.
    assert (Hin : In d (List.filter isReady devs)) by (rewrite Hf; left; reflexivity).
    apply filter_In in Hin as [Hin _]. exact Hin. }
  unfold adb_selectDevice at 1. cbv iota beta.
  set (h2 := mkHost (world h1) (clock h1) (adbPath h1) (Some (serial d))
               (devices h1) (spawned h1)).
  assert (Hsel : selection h2 = Some (serial d)).
  { apply selection_Some. split; [reflexivity|exact Hne]. }
  unfold bind at 1.
  destruct (readProps_run props h2) as (h3 & os & -> & R3 & Hlen).
  destruct R3 as (Hlog & Hpath & Hs3 & _).
  unfold bind at 1, getSelectedDevice at 1, ret. cbv iota beta.
  eexists _, h3. split; [reflexivity|]. split; [exact R1|].
  eexists _, os. split; [reflexivity|].
  cbn [info_serial]. rewrite Hs3. cbn [selectedDevice default].
  split; [reflexivity|].
  split; [unfold selection; rewrite Hs3; exact Hsel|].
  split; [exact Hlen|].
  rewrite Hlog. cbn [spawned]. f_equal. f_equal.
  apply map_ext. intros prop. rewrite (sh_selected h2 _ _ Hsel).
  unfold shOn, h2. cbn [adbPath]. destruct R1 as (_ & -> & _). reflexivity.
Qed.

End DeviceInformation.

(** ** The refresh of the registry *)

Section Refresh.
Context `{P : Platform}.

Lemma listedReady_cons (d : Device) (rest : list Device) (k : str) :
  listedReady (d :: rest) k
  <-> (isReady d = true /\ serial d = k) \/ listedReady rest k.
Proof.
  unfold listedReady. split.
  - intros (d0 & [<-|Hin] & Hr & Hk); [left; auto|right; eauto].
  - intros [[Hr Hk]|(d0 & Hin & Hr & Hk)].
    + exists d. simpl. auto.
    + exists d0. simpl. auto.
Qed.

(** The first loop of [refreshDevices], on devices whose serial is not
    empty: it never throws, and it caches every ready device that was not
    cached, under its own serial. *)
Lemma cacheNewDevices_run (devs : list Device) : forall h : Host,
  List.Forall (fun d => serial d <> []) devs ->
  exists h' : Host,
    cacheNewDevices devs h = (Return tt, h') /\
    (forall k, is_Some (devices h' !! k)
               <-> is_Some (devices h !! k) \/ listedReady devs k) /\
    (keyed (devices h) -> keyed (devices h')) /\
    selectedDevice h'
    = match last (probedSerials (dom (devices h)) devs) with
      | Some s => Some s
      | None => selectedDevice h
      end.
Proof.
  induction devs as [|d rest IH]; intros h Hall.
  - exists h. split; [reflexivity|]. split; [|auto].
    intros k. split; [auto|]. intros [H|(d & [] & _)]. exact H.
  - inversion Hall as [|? ? Hd Hrest]; subst.
    cbn [cacheNewDevices probedSerials]. unfold bind at 1. unfold cache_has at 1.
    cbv iota beta. unfold bind at 1.
    assert (Hdom : bool_decide (serial d ∈ dom (devices h))
                   = bool_decide (is_Some (devices h !! serial d))).
    { apply bool_decide_ext. apply elem_of_dom. }
    rewrite Hdom.
    destruct (isReady d && negb (bool_decide (is_Some (devices h !! serial d))))
      eqn:Hcond.
    + apply andb_true_iff in Hcond as [Hready Hnew].
      unfold try_catch, bind at 1, adb_selectDevice at 1. cbv iota beta.
      set (h1 := mkHost (world h) (clock h) (adbPath h) (Some (serial d))
                   (devices h) (spawned h)).
      assert (Hsel : selection h1 = Some (serial d)).
      { apply selection_Some. split; [reflexivity|exact Hd]. }
      destruct (getDeviceInfo_run h1 (serial d) Hsel)
        as (h2 & o0 & o1 & o2 & o3 & o4 & o5 & Hinfo & R).
      unfold bind at 1. rewrite Hinfo. cbv iota beta.
      unfold cache_set at 1. cbv iota beta.
      match goal with
      | |- context [cacheNewDevices rest ?h3] =>
          destruct (IH h3 Hrest) as (h' & Hrun & Hkeys & Hkeyed & Hsel')
      end.
      exists h'. split; [exact Hrun|].
      destruct R as (_ & _ & Hs2 & Hdev & _).
      cbn [devices selectedDevice] in Hkeys, Hkeyed, Hsel'.
      rewrite Hdev in Hkeys, Hkeyed, Hsel'. rewrite Hs2 in Hsel'.
      cbn [devices selectedDevice] in Hkeys, Hkeyed, Hsel'.
      rewrite dom_insert_L in Hsel'. unfold h1 in Hsel'.
      cbn [devices selectedDevice] in Hsel'.
      split; [|split;
                [|rewrite last_cons;
                  destruct (last (probedSerials _ rest)); exact Hsel']].
      * intros k. rewrite Hkeys, listedReady_cons, lookup_insert_is_Some.
        split.
        -- intros [[->|[_ H]]|H]; auto.
        -- intros [H|[[_ <-]|H]]; auto.
           destruct (decide (serial d = k)) as [->|Hne']; auto.
      * intros Hk. apply Hkeyed. intros k i.
        destruct (decide (serial d = k)) as [<-|Hne].
        -- rewrite lookup_insert_eq. intros H. injection H as <-. reflexivity.
        -- rewrite lookup_insert_ne by exact Hne. apply Hk.
    + unfold ret at 1. cbv iota beta.
      destruct (IH h Hrest) as (h' & Hrun & Hkeys & Hkeyed & Hsel').
      exists h'. split; [exact Hrun|]. split; [|split; [exact Hkeyed|exact Hsel']].
      intros k. rewrite Hkeys, listedReady_cons.
      split; [intros [H|H]; auto|].
      intros [H|[[Hready <-]|H]]; auto.
      rewrite Hready in Hcond. cbn [andb] in Hcond.
      apply negb_false_iff, bool_decide_eq_true in Hcond. auto.
Qed.

Lemma probedSerials_listed (devs : list Device) : forall (cached : gset str) (s : str),
  In s (probedSerials cached devs) -> In s (map serial devs).
Proof.
  induction devs as [|d rest IH]; intros cached s; cbn [probedSerials map].
  - intros [].
  - destruct (isReady d && negb (bool_decide (serial d ∈ cached))).
    + intros [<-|H]; [left; reflexivity|right; exact (IH _ _ H)].
    + intros H. right. exact (IH _ _ H).
Qed.

(** A refresh that returns: the cache, the keys and the selection
    afterwards. *)
Lemma refreshDevices_run (h h' : Host) (devs : list Device) :
  refreshDevices h = (Return devs, h') ->
  (forall k, is_Some (devices h' !! k)
             <-> In k (map serial devs)
                 /\ (is_Some (devices h !! k) \/ listedReady devs k)) /\
  (keyed (devices h) -> keyed (devices h')) /\
  (forall s, selection h' = Some s -> In s (map serial devs)) /\
  selection h'
  = match last (probedSerials (dom (devices h)) devs) with
    | Some s => Some s
    | None => stillListed (selection h) devs
    end.
Proof.
  unfold refreshDevices. unfold bind at 1.
  destruct (adb_listDevices_run h) as (o & h1 & R1 & ->).
  destruct (success (resultOfOutcome o)); [|discriminate].
  set (listed := for_each_line deviceLine
                   (drop 1 (split_char LF (stdout (resultOfOutcome o))))).
  assert (Hall : List.Forall (fun d => serial d <> []) listed).
  { apply for_each_line_Forall. intros line d Hd.
    apply deviceLine_wellformed in Hd. tauto. }
  unfold bind at 1.
  destruct (cacheNewDevices_run listed h1 Hall)
    as (h2 & -> & Hkeys & Hkeyed & Hsel2).
  unfold bind at 1, cache_retain at 1. cbv iota beta.
  unfold bind at 1, getSelectedDevice at 1. cbv iota beta. cbn [selectedDevice].
  destruct R1 as (_ & _ & Hs1 & Hdev & _).
  rewrite Hdev in Hkeys, Hkeyed, Hsel2. rewrite Hs1 in Hsel2.
  set (cache := filter (fun kv : str * DeviceInfo =>
                          kv.1 ∈ (list_to_set (map serial listed) : gset str))
                  (devices h2)).
  assert (Hcache : forall k, is_Some (cache !! k)
                     <-> In k (map serial listed)
                         /\ (is_Some (devices h !! k) \/ listedReady listed k)).
  { intros k. unfold cache, is_Some.
    setoid_rewrite map_lookup_filter_Some. cbn [fst].
    split.
    - intros (i & Hi & Hin).
      apply elem_of_list_to_set, list_elem_of_In in Hin.
      split; [exact Hin|]. apply Hkeys. eauto.
    - intros (Hin & Hc). apply Hkeys in Hc as [i Hi]. exists i.
      split; [exact Hi|]. apply elem_of_list_to_set, list_elem_of_In.
      exact Hin. }
  assert (Hk : keyed (devices h) -> keyed cache).
  { intros Hkd k i Hi. unfold cache in Hi.
    apply map_lookup_filter_Some in Hi as [Hi _].
    exact (Hkeyed Hkd k i Hi). }
  assert (Hin : forall s, s ∈ (list_to_set (map serial listed) : gset str)
                          <-> In s (map serial listed)).
  { intros s. rewrite elem_of_list_to_set. apply list_elem_of_In. }
  assert (Hfinal :
    forall sel : option str,
      selectedDevice h2 = sel ->
      h' = mkHost (world h2) (clock h2) (adbPath h2)
             (match sel with
              | Some s =>
                  if truthy s
                     && negb (bool_decide
                                (s ∈ (list_to_set (map serial listed) : gset str)))
                  then None else Some s
              | None => None
              end) cache (spawned h2) ->
      (forall s, selection h' = Some s -> In s (map serial listed)) /\
      selection h'
      = match last (probedSerials (dom (devices h)) listed) with
        | Some s => Some s
        | None => stillListed (selection h) listed
        end).
  { intros sel Hsel ->. unfold selection at 1 2. cbn [selectedDevice].
    rewrite Hsel2 in Hsel.
    destruct (last (probedSerials (dom (devices h)) listed)) as [p|] eqn:Hp.
    - subst sel.
      assert (Hpl : In p (map serial listed)).
      { apply last_Some in Hp as [l' Hp].
        apply (probedSerials_listed listed (dom (devices h))).
        rewrite Hp. apply in_or_app. right. left. reflexivity. }
      assert (Hpne : truthy p = true).
      { apply truthy_true. rewrite List.Forall_forall in Hall.
        apply in_map_iff in Hpl as (d & <- & Hd). exact (Hall d Hd). }
      rewrite Hpne. cbn [andb].
      rewrite (bool_decide_eq_true_2 _ (proj2 (Hin p) Hpl)). cbn [negb].
      rewrite Hpne. split; [|reflexivity].
      intros s H. injection H as <-. exact Hpl.
    - subst sel. unfold stillListed, selection.
      destruct (selectedDevice h) as [s0|]; [|split; [discriminate|reflexivity]].
      destruct (truthy s0) eqn:Ht; cbn [andb].
      + destruct (bool_decide (s0 ∈ (list_to_set (map serial listed) : gset str)))
          eqn:Hb; cbn [negb].
        * apply bool_decide_eq_true in Hb. apply Hin in Hb.
          rewrite Ht. split; [intros s H; injection H as <-; exact Hb|].
          rewrite bool_decide_eq_true_2; [reflexivity|].
          apply list_elem_of_In. exact Hb.
        * apply bool_decide_eq_false in Hb.
          split; [discriminate|].
          rewrite bool_decide_eq_false_2; [reflexivity|].
          intros Hl. apply Hb, Hin, list_elem_of_In. exact Hl.
      + rewrite Ht. split; [discriminate|reflexivity]. }
  unfold bind at 1.
  destruct (selectedDevice h2) as [s|] eqn:Hs.
  - destruct (truthy s
              && negb (bool_decide
                         (s ∈ (list_to_set (map serial listed) : gset str))))
      eqn:Hcond.
    + unfold adb_selectDevice, ret. cbv iota beta.
      intros H. injection H as <- <-. cbn [devices].
      split; [exact Hcache|]. split; [exact Hk|].
      apply (Hfinal (Some s) eq_refl). rewrite Hcond. reflexivity.
    + unfold ret. cbv iota beta.
      intros H. injection H as <- <-. cbn [devices].
      split; [exact Hcache|]. split; [exact Hk|].
      apply (Hfinal (Some s) eq_refl). rewrite Hcond.
      fold cache. rewrite <- Hs. destruct h2; reflexivity.
  - unfold ret. cbv iota beta.
    intros H. injection H as <- <-. cbn [devices].
    split; [exact Hcache|]. split; [exact Hk|].
    apply (Hfinal None eq_refl). fold cache. rewrite <- Hs.
    destruct h2; reflexivity.
Qed.

(** X4: a refresh that returns leaves the cache reconciled with the
    listing: a serial is cached afterwards exactly when it is listed and
    either was cached before or is listed as ready; every cached record is
    still stored under its own serial; and a selection that is left names
    a listed device. *)
Theorem refreshDevices_reconciles (h h' : Host) (devs : list Device) :
  refreshDevices h = (Return devs, h') ->
  (forall k, is_Some (devices h' !! k)
             <-> In k (map serial devs)
                 /\ (is_Some (devices h !! k) \/ listedReady devs k)) /\
  (keyed (devices h) -> keyed (devices h')) /\
  (forall s, selection h' = Some s -> In s (map serial devs)).
Proof.
  intros Hrun.
  destruct (refreshDevices_run h h' devs Hrun) as (A & B & C & _). auto.
Qed.

(** X5: a refresh does not keep the selection it found.  It leaves the
    client selected on the last device that it probed, that is on the last
    ready device of the listing that was not cached; only when it probed
    none is the old selection kept, and then only if it names a listed
    device. *)
Theorem refreshDevices_moves_selection (h h' : Host) (devs : list Device) :
  refreshDevices h = (Return devs, h') ->
  selection h'
  = match last (probedSerials (dom (devices h)) devs) with
    | Some s => Some s
    | None => stillListed (selection h) devs
    end.
Proof.
  intros Hrun.
  destruct (refreshDevices_run h h' devs Hrun) as (_ & _ & _ & D). exact D.
Qed.

(** X6: the ambiguity error is reported once.  When no device is
    selected and [ensureDeviceSelected] finds several ready devices, of
    which it probed at least one, it throws the error that names them; the
    refresh has left the last probed device selected, so that the next call
    returns that device without looking at the listing again. *)
Theorem ambiguity_is_reported_once (h h1 : Host) (devs : list Device)
    (s : str) :
  selection h = None ->
  refreshDevices h = (Return devs, h1) ->
  (2 <= length (List.filter isReady devs))%nat ->
  last (probedSerials (dom (devices h)) devs) = Some s ->
  ensureDeviceSelected h
  = (Throw (ambiguityMessage (map serial (List.filter isReady devs))), h1)
  /\ ensureDeviceSelected h1 = (Return s, h1).
Proof.
  intros Hnone Hrun Hlen Hlast.
  destruct (refreshDevices_run h h1 devs Hrun) as (_ & _ & _ & Hsel).
  rewrite Hlast in Hsel. split.
  - unfold ensureDeviceSelected, bind, getSelectedDevice.
    assert (Hb : selectedDevice h ≫= (fun d => if truthy d then Some d else None)
                 = None).
    { unfold selection in Hnone. destruct (selectedDevice h) as [d|]; [|reflexivity].
      cbn [mbind option_bind]. destruct (truthy d); [discriminate|reflexivity]. }
    rewrite Hb, Hrun.
    destruct (List.filter isReady devs) as [|d [|d' ready]];
      cbn [length] in Hlen; try lia.
    reflexivity.
  - apply selection_Some in Hsel as [Hs Hne]. apply truthy_true in Hne.
    unfold ensureDeviceSelected, bind, getSelectedDevice.
    rewrite Hs. cbn [mbind option_bind]. rewrite Hne. reflexivity.
Qed.

(** A listed device and its entry. *)
Lemma spread_names (d : Device) (cache : gmap str DeviceInfo) :
  keyed cache ->
  entry_serial (spread d (cache !! serial d)) = serial d
  /\ entry_state (spread d (cache !! serial d)) = state d.
Proof.
  intros Hk. destruct (cache !! serial d) as [i|] eqn:E; simpl.
  - split; [exact (Hk _ _ E)|reflexivity].
  - split; reflexivity.
Qed.

(** X7: [listDevices] of the manager, on a cache that stores every record
    under its own serial, returns one entry for each device of the
    refreshed listing, in the same order and with the same serial and
    state; the entry of a ready device carries the device information: its
    model, brand, manufacturer, Android version, SDK level and build id are
    all set. *)
Theorem listDevices_entries (h h' : Host) (entries : list DeviceEntry) :
  keyed (devices h) ->
  listDevices h = (Return entries, h') ->
  exists devs : list Device,
    refreshDevices h = (Return devs, h') /\
    map entry_serial entries = map serial devs /\
    map entry_state entries = map state devs /\
    List.Forall
      (fun e => entry_state e = lit "device" ->
                is_Some (entry_model e) /\ is_Some (entry_brand e)
                /\ is_Some (entry_manufacturer e)
                /\ is_Some (entry_androidVersion e)
                /\ is_Some (entry_sdkVersion e)
                /\ is_Some (entry_buildId e))
      entries.
Proof.
  intros Hkeyed. unfold listDevices, bind.
  destruct (refreshDevices h) as [[devs|e] h1] eqn:Hrun; [|discriminate].
  intros H. injection H as <- <-. exists devs. split; [reflexivity|].
  destruct (refreshDevices_run h h1 devs Hrun) as (Hcache & Hk & _).
  specialize (Hk Hkeyed).
  assert (Hnames : forall d,
            entry_serial (spread d (devices h1 !! serial d)) = serial d
            /\ entry_state (spread d (devices h1 !! serial d)) = state d).
  { intros d. apply spread_names. exact Hk. }
  split; [|split].
  - rewrite map_map. apply map_ext. intros d. apply Hnames.
  - rewrite map_map. apply map_ext. intros d. apply Hnames.
  - apply List.Forall_forall. intros e He. apply in_map_iff in He as (d & <- & Hd).
    intros Hstate. rewrite (proj2 (Hnames d)) in Hstate.
    assert (Hc : is_Some (devices h1 !! serial d)).
    { apply Hcache. split; [apply in_map; exact Hd|]. right.
      exists d. split; [exact Hd|]. split; [|reflexivity].
      unfold isReady. apply str_eqb_eq. exact Hstate. }
    destruct Hc as [i ->]. simpl. repeat split; eauto.
Qed.

End Refresh.

(** ** The check of the Android version *)

Section Version.
Context `{P : Platform}.

(** X8: with a device selected, [checkAndroidVersion] never throws; the
    version it reports is what [parseInt] makes of the reading of
    ro.build.version.sdk (of "0" when the read failed or printed nothing);
    it reports the device as unsupported exactly when that version is a
    number below 30, so that a failed read counts as unsupported (version 0)
    and a reading that is not a number (NaN) counts as supported. *)
Theorem checkAndroidVersion_threshold (h : Host) (s : str) :
  selection h = Some s ->
  exists (r : VersionCheck) (h' : Host) (outcomes : list ExecOutcome)
         (sdk : ExecOutcome),
    checkAndroidVersion h = (Return r, h') /\
    ran h h' (combine (getpropCommands h) outcomes) /\
    nth_error outcomes 4 = Some sdk /\
    version r = parseInt (or_else (propValue sdk) (lit "0")) /\
    (supported r = false <-> exists v, version r = Some v /\ v < 30) /\
    (success (resultOfOutcome sdk) = false ->
     version r = Some 0 /\ supported r = false) /\
    (version r = None -> supported r = true) /\
    includes (lit "Android SDK " ++ numberOrNaN (version r))
      (version_message r) = true.
Proof.
  intros Hsel. unfold checkAndroidVersion, bind.
  destruct (getDeviceInfo_run h s Hsel)
    as (h' & o0 & o1 & o2 & o3 & o4 & o5 & -> & R).
  cbn [info_sdkVersion].
  set (level := parseInt (or_else (propValue o4) (lit "0"))).
  assert (Hmsg : forall rest : str,
            includes (lit "Android SDK " ++ numberOrNaN level)
              (lit "Android SDK " ++ numberOrNaN level ++ rest) = true).
  { intros rest. rewrite app_assoc. apply includes_startsWith.
    apply startsWith_app. }
  assert (Hfail : success (resultOfOutcome o4) = false -> level = Some 0).
  { intros Hf. unfold level, propValue. rewrite Hf. reflexivity. }
  destruct (below level 30) eqn:Hb; unfold ret;
    eexists _, h', [o0; o1; o2; o3; o4; o5], o4;
    (split; [reflexivity|]); (split; [exact R|]); (split; [reflexivity|]);
    cbn [supported version_message version];
    (split; [reflexivity|]).
  - unfold below in Hb. destruct level as [v|] eqn:Hv; [|discriminate].
    apply Z.ltb_lt in Hb.
    split; [split; [eauto|reflexivity]|].
    split; [intros Hf; split; [exact (Hfail Hf)|reflexivity]|].
    split; [discriminate|apply Hmsg].
  - split.
    { split; [discriminate|]. intros (v & Hv & Hlt). exfalso.
      unfold below in Hb. rewrite Hv in Hb. apply Z.ltb_ge in Hb. lia. }
    split.
    { intros Hf. exfalso. rewrite (Hfail Hf) in Hb. discriminate. }
    split; [reflexivity|apply Hmsg].
Qed.

End Version.

(** ** The WiFi operations *)

Section Wifi.
Context `{P : Platform}.

Ltac step_shell o h1 R :=
  unfold bind at 1;
  match goal with
  | |- context [shell ?c ?t ?h] =>
      destruct (shell_ran c t h) as (o & h1 & -> & R)
  end; cbv iota beta.

Lemma getStatus_run (h : Host) :
  exists (o1 o2 : ExecOutcome) (h' : Host),
    getStatus h =
      (Return (statusOfOutputs (stdout (resultOfOutcome o1))
                 (stdout (resultOfOutcome o2))), h') /\
    ran h h' [(sh h statusCommand, o1); (sh h dumpsysCommand, o2)].
Proof.
  unfold getStatus.
  step_shell o1 h1 R1. step_shell o2 h2 R2.
  exists o1, o2, h2. split; [reflexivity|].
  rewrite (ran_sh _ _ _ _ R1) in R2.
  exact (ran_trans _ _ _ _ _ R1 R2).
Qed.

Lemma setEnabled_run (enabled : bool) (h : Host) :
  exists (o : ExecOutcome) (h' : Host),
    ran h h' [(sh h (setEnabledCommand enabled), o)] /\
    setEnabled enabled h =
      (if success (resultOfOutcome o) then Return tt
       else Throw (lit "Failed to "
                   ++ (if enabled then lit "enable" else lit "disable")
                   ++ lit " WiFi: " ++ stderr (resultOfOutcome o)),
       h').
Proof.
  unfold setEnabled. cbv zeta. step_shell o h1 R.
  exists o, h1. split; [exact R|].
  destruct (success (resultOfOutcome o)); reflexivity.
Qed.

Lemma listSavedNetworks_run (h : Host) :
  exists (o : ExecOutcome) (h' : Host),
    ran h h' [(sh h listNetworksCommand, o)] /\
    listSavedNetworks h =
      (if success (resultOfOutcome o)
       then Return (parseSavedNetworks (stdout (resultOfOutcome o)))
       else Throw (lit "Failed to list networks: "
                   ++ stderr (resultOfOutcome o)),
       h').
Proof.
  unfold listSavedNetworks. step_shell o h1 R.
  exists o, h1. split; [exact R|].
  destruct (success (resultOfOutcome o)); reflexivity.
Qed.

Lemma forgetNetwork_run (id : Z) (h : Host) :
  exists (o : ExecOutcome) (h' : Host),
    ran h h' [(sh h (forgetCommand id), o)] /\
    forgetNetwork id h =
      (if success (resultOfOutcome o) then Return tt
       else Throw (lit "Failed to forget network: "
                   ++ stderr (resultOfOutcome o)),
       h').
Proof.
  unfold forgetNetwork. step_shell o h1 R.
  exists o, h1. split; [exact R|].
  destruct (success (resultOfOutcome o)); reflexivity.
Qed.

Lemma find_first {A : Type} (f : A -> bool) (l : list A) (x : A) :
  List.find f l = Some x ->
  exists before after,
    l = before ++ x :: after /\ f x = true
    /\ List.Forall (fun n => f n = false) before.
Proof.
  induction l as [|a l IH]; simpl; [discriminate|].
  destruct (f a) eqn:Ha.
  - intros H. injection H as <-. exists [], l. auto.
  - intros H. destruct (IH H) as (before & after & -> & Hx & Hb).
    exists (a :: before), after. auto.
Qed.

(** X9: [disconnect('forget')] reads the status, and stops with an error
    when the device is not connected or names no ssid; else it lists the
    saved networks and stops with an error when the listing fails or no
    saved network has the connected ssid; else it spawns one
    forget-network command and returns exactly when that command
    succeeds.  The command names the [networkId] of the first saved record
    whose ssid is the connected one, as JavaScript prints that number: the
    id as parsed, which is the id listed when that is below 2^53, is
    rounded to a double beyond, and is printed in exponent notation from
    1e21 on. *)
Theorem disconnect_forget_target (h : Host) :
  exists (o1 o2 : ExecOutcome) (tail : list (str * ExecOutcome)) (h' : Host)
         (r : Res unit),
    disconnect forget h = (r, h') /\
    ran h h' ((sh h statusCommand, o1) :: (sh h dumpsysCommand, o2) :: tail) /\
    let status := statusOfOutputs (stdout (resultOfOutcome o1))
                    (stdout (resultOfOutcome o2)) in
    match tail with
    | [] =>
        r = Throw (lit "Not connected to any network")
        /\ (st_connected status = false \/ absent (st_ssid status) = true)
    | [(c3, o3)] =>
        c3 = sh h listNetworksCommand
        /\ st_connected status = true
        /\ exists ssid, st_ssid status = Some ssid /\ ssid <> []
        /\ ((success (resultOfOutcome o3) = false
             /\ r = Throw (lit "Failed to list networks: "
                           ++ stderr (resultOfOutcome o3)))
            \/ (success (resultOfOutcome o3) = true
                /\ List.Forall (fun n => saved_ssid n <> ssid)
                     (parseSavedNetworks (stdout (resultOfOutcome o3)))
                /\ r = Throw (lit "Could not find saved network for "
                              ++ quoted ssid)))
    | [(c3, o3); (c4, o4)] =>
        c3 = sh h listNetworksCommand
        /\ success (resultOfOutcome o3) = true
        /\ st_connected status = true
        /\ exists ssid current,
             st_ssid status = Some ssid /\ ssid <> []
             /\ firstSaved (parseSavedNetworks (stdout (resultOfOutcome o3)))
                  ssid current
             /\ c4 = sh h (forgetCommand (networkId current))
             /\ r = (if success (resultOfOutcome o4) then Return tt
                     else Throw (lit "Failed to forget network: "
                                 ++ stderr (resultOfOutcome o4)))
    | _ => False
    end.
Proof.
  cbn [disconnect]. unfold bind at 1.
  destruct (getStatus_run h) as (o1 & o2 & h1 & -> & R1).
  exists o1, o2.
  set (status := statusOfOutputs (stdout (resultOfOutcome o1))
                   (stdout (resultOfOutcome o2))).
  destruct (st_connected status) eqn:Hc; cbn [negb orb].
  2:{ exists [], h1, (Throw (lit "Not connected to any network")).
      split; [reflexivity|]. split; [exact R1|]. cbv zeta. fold status. auto. }
  destruct (absent (st_ssid status)) eqn:Ha.
  { exists [], h1, (Throw (lit "Not connected to any network")).
    split; [reflexivity|]. split; [exact R1|]. cbv zeta. fold status. auto. }
  assert (Hssid : exists ssid, st_ssid status = Some ssid /\ ssid <> []).
  { unfold absent in Ha. destruct (st_ssid status) as [s|]; [|discriminate].
    exists s. split; [reflexivity|]. apply truthy_true.
    apply negb_false_iff in Ha. exact Ha. }
  destruct Hssid as (ssid & Hssid & Hne).
  unfold bind at 1.
  destruct (listSavedNetworks_run h1) as (o3 & h2 & R2 & ->).
  rewrite (ran_sh _ _ _ _ R1) in R2.
  pose proof (ran_trans _ _ _ _ _ R1 R2) as R12. cbn [app] in R12.
  destruct (success (resultOfOutcome o3)) eqn:Hs3.
  2:{ eexists [(_, o3)], h2, _. split; [reflexivity|]. split; [exact R12|].
      cbv zeta. fold status. split; [reflexivity|]. split; [first [exact Hc|reflexivity]|].
      exists ssid. split; [exact Hssid|]. split; [exact Hne|]. left. auto. }
  set (networks := parseSavedNetworks (stdout (resultOfOutcome o3))).
  destruct (List.find (fun n => ssid_is (st_ssid status) (saved_ssid n))
              networks) as [current|] eqn:Hfind.
  - destruct (forgetNetwork_run (networkId current) h2) as (o4 & h3 & R3 & ->).
    rewrite (ran_sh _ _ _ _ R12) in R3.
    pose proof (ran_trans _ _ _ _ _ R12 R3) as R123. cbn [app] in R123.
    eexists [(_, o3); (_, o4)], h3, _. split; [reflexivity|].
    split; [exact R123|]. cbv zeta. fold status.
    split; [reflexivity|]. split; [exact Hs3|]. split; [first [exact Hc|reflexivity]|].
    exists ssid, current. split; [exact Hssid|]. split; [exact Hne|].
    split; [|split; reflexivity].
    apply find_first in Hfind as (before & after & Hn & Hx & Hb).
    exists before, after. split; [exact Hn|].
    rewrite Hssid in Hx, Hb. cbn [ssid_is] in Hx, Hb.
    split; [symmetry; apply str_eqb_eq; exact Hx|].
    eapply List.Forall_impl; [|exact Hb]. cbv beta. intros n Hn' Heq.
    rewrite <- Heq in Hn'.
    assert (str_eqb (saved_ssid n) (saved_ssid n) = true)
      by (apply str_eqb_eq; reflexivity).
    congruence.
  - eexists [(_, o3)], h2, _. split; [reflexivity|]. split; [exact R12|].
    cbv zeta. fold status. split; [reflexivity|]. split; [first [exact Hc|reflexivity]|].
    exists ssid. split; [exact Hssid|]. split; [exact Hne|]. right.
    split; [exact Hs3|]. split; [|rewrite Hssid; reflexivity].
    apply List.Forall_forall. intros n Hin Heq.
    pose proof (find_none _ _ Hfind n Hin) as Hn. cbv beta in Hn.
    rewrite Hssid in Hn. cbn [ssid_is] in Hn. rewrite <- Heq in Hn.
    assert (str_eqb (saved_ssid n) (saved_ssid n) = true)
      by (apply str_eqb_eq; reflexivity).
    congruence.
Qed.

(** X10: [disconnect('toggle')] disables WiFi first.  When that command
    fails it throws and never spawns the enable command; when it succeeds
    it always spawns the enable command, and throws when that one fails
    (WiFi is then left disabled); the two commands and the pause of the
    call take one second at the least on the clock. *)
Theorem disconnect_toggle_reenables (h : Host) :
  exists (o1 : ExecOutcome) (h' : Host) (r : Res unit),
    disconnect toggle h = (r, h') /\
    if success (resultOfOutcome o1) then
      exists o2,
        ran h h' [(sh h (setEnabledCommand false), o1);
                  (sh h (setEnabledCommand true), o2)]
        /\ (clock h + 1000 <= clock h')%N
        /\ r = (if success (resultOfOutcome o2) then Return tt
                else Throw (lit "Failed to enable WiFi: "
                            ++ stderr (resultOfOutcome o2)))
    else
      ran h h' [(sh h (setEnabledCommand false), o1)]
      /\ r = Throw (lit "Failed to disable WiFi: "
                    ++ stderr (resultOfOutcome o1)).
Proof.
  cbn [disconnect]. unfold bind at 1.
  destruct (setEnabled_run false h) as (o1 & h1 & R1 & ->).
  exists o1. destruct (success (resultOfOutcome o1)).
  - unfold bind at 1.
    destruct (sleep_ran 1000 h1) as [Rs Hclock].
    change (sleep 1000 h1) with (Return tt, (sleep 1000 h1).2). cbv iota beta.
    destruct (setEnabled_run true (sleep 1000 h1).2) as (o2 & h2 & R2 & ->).
    pose proof (ran_trans _ _ _ _ _ R1 Rs) as R1s. cbn [app] in R1s.
    rewrite (ran_sh _ _ _ _ R1s) in R2.
    pose proof (ran_trans _ _ _ _ _ R1s R2) as R12. cbn [app] in R12.
    eexists h2, _. split; [reflexivity|]. exists o2.
    split; [exact R12|]. split; [|reflexivity].
    destruct R1 as (_ & _ & _ & _ & L1). destruct R2 as (_ & _ & _ & _ & L2).
    lia.
  - eexists h1, _. split; [reflexivity|]. split; [exact R1|reflexivity].
Qed.

End Wifi.

(** ** The network checks *)

Lemma startsWith_prefix (p s : str) :
  startsWith p s = true -> exists post, s = p ++ post.
Proof.
  revert s. induction p as [|a p IH]; intros s; simpl.
  - exists s. reflexivity.
  - destruct s as [|b s]; [discriminate|].
    intros H. apply andb_true_iff in H as [Hab Hp].
    apply ascii_eqb_eq in Hab. subst b.
    destruct (IH s Hp) as [post ->]. exists post. reflexivity.
Qed.

Lemma includes_split (p s : str) :
  includes p s = true -> exists pre post, s = pre ++ p ++ post.
Proof.
  induction s as [|a s IH]; simpl.
  - rewrite orb_false_r. intros H. apply startsWith_prefix in H as [post H].
    exists [], post. exact H.
  - intros H. apply orb_true_iff in H as [H|H].
    + apply startsWith_prefix in H as [post H]. exists [], post. exact H.
    + destruct (IH H) as (pre & post & ->). exists (a :: pre), post.
      reflexivity.
Qed.

(** A match at some position makes the search succeed (at that position
    or further left). *)
Lemma search_app (r : regex) (s1 s2 : str) :
  exec_here r s2 <> None -> search r (s1 ++ s2) <> None.
Proof.
  intros H. induction s1 as [|a s1 IH]; simpl.
  - destruct s2; simpl; destruct (exec_here r _); congruence.
  - destruct (exec_here r (a :: s1 ++ s2)); [discriminate|exact IH].
Qed.

(** A pattern without capture group hands the capture on as it got it. *)
Lemma rmatch_capless {R : Type} (r : regex) :
  capless r = true ->
  forall (s : str) (cap : option str) (k : str -> option str -> option R)
         (x : R),
    rmatch r s cap k = Some x -> exists s', k s' cap = Some x.
Proof.
  induction r as [|c|r1 IH1 r2 IH2|r1 IH1 r2 IH2|c|r1 IH1|];
    intros Hc s cap k x H; simpl in H, Hc.
  - eauto.
  - destruct s as [|a s]; [discriminate|].
    destruct (c a); [eauto|discriminate].
  - apply andb_true_iff in Hc as [H1 H2].
    apply (IH1 H1) in H as (s1 & H). apply (IH2 H2) in H. exact H.
  - apply andb_true_iff in Hc as [H1 H2].
    destruct (rmatch r1 s cap k) as [y|] eqn:E.
    + injection H as ->. apply (IH1 H1) in E. exact E.
    + apply (IH2 H2) in H. exact H.
  - apply star_k_continues in H as (g & s' & _ & _ & H). eauto.
  - discriminate.
  - destruct s; [eauto|discriminate].
Qed.

(** The capture of [(c+)] followed by a pattern without group. *)
Lemma rmatch_cap_plus_then (c : ascii -> bool) (rest : regex) (s : str)
    (x : option str) :
  capless rest = true ->
  rmatch (Cat (Cap (Plus c)) rest) s None (fun _ cap => Some cap) = Some x ->
  exists g, x = Some g /\ g <> [] /\ forallb c g = true.
Proof.
  intros Hc H.
  change (rmatch (Cat (Cap (Plus c)) rest) s None (fun _ cap => Some cap))
    with (rmatch (Cap (Plus c)) s None
            (fun s1 cap1 => rmatch rest s1 cap1 (fun _ cap => Some cap))) in H.
  apply rmatch_cap_plus in H as (g & s' & _ & Hne & Hg & H).
  apply (rmatch_capless rest Hc) in H as (s'' & H).
  injection H as <-. eauto.
Qed.

Lemma packetLoss_digits (s g : str) :
  re_match packetLossPattern s = Some g -> g <> [] /\ allDigits g = true.
Proof.
  intros H. found H. unfold packetLossPattern in Hs. cbn [body] in Hs.
  apply rmatch_cap_plus_then in Hs as (g' & -> & Hne & Hd); [|reflexivity].
  injection H as <-. auto.
Qed.

(** The marker of a total loss is a match of the loss pattern. *)
Lemma packetLoss_marker (s : str) :
  includes (lit "100% packet loss") s = true ->
  exists g, re_match packetLossPattern s = Some g.
Proof.
  intros H. apply includes_split in H as (pre & post & ->).
  unfold re_match, re_exec. cbn [anchored packetLossPattern body].
  assert (Hs : search (body packetLossPattern)
                 (pre ++ lit "100% packet loss" ++ post) <> None).
  { apply search_app. vm_compute. discriminate. }
  cbn [packetLossPattern body] in Hs.
  destruct (search _ _) as [[g|]|]; [eauto|eauto|contradiction].
Qed.

(** The capture of [(c+)] at the end of a pattern. *)
Lemma class_capture (c : ascii -> bool) (s : str) (cap x : option str) :
  rmatch (Cap (Plus c)) s cap (fun _ cap' => Some cap') = Some x ->
  exists g, x = Some g /\ g <> [] /\ forallb c g = true.
Proof.
  intros H. apply rmatch_cap_plus in H as (g & s' & _ & Hne & Hd & Hk).
  injection Hk as <-. eauto.
Qed.

Lemma inet_dotted (s a : str) : re_match inetPattern s = Some a -> dotted a.
Proof.
  intros H. found H. unfold inetPattern in Hs. cbn [body] in Hs.
  peel Hs. apply class_capture in Hs as (g & -> & Hne & Hd).
  injection H as <-. split; assumption.
Qed.

Lemma via_dotted (s a : str) : re_match viaPattern s = Some a -> dotted a.
Proof.
  intros H. found H. unfold viaPattern in Hs. cbn [body] in Hs.
  peel Hs. apply class_capture in Hs as (g & -> & Hne & Hd).
  injection H as <-. split; assumption.
Qed.

Lemma getent_dotted (s a : str) : re_match getentPattern s = Some a -> dotted a.
Proof.
  unfold re_match, re_exec. cbn [anchored getentPattern body].
  destruct (exec_here _ s) as [c|] eqn:Hs; [|discriminate].
  unfold exec_here in Hs. apply class_capture in Hs as (g & -> & Hne & Hd).
  intros H. injection H as <-. split; assumption.
Qed.

Lemma pingAddress_dotted (s a : str) :
  re_match pingAddressPattern s = Some a -> dotted a.
Proof.
  intros H. found H. unfold pingAddressPattern in Hs. cbn [body] in Hs.
  change (rmatch (Cat (Chr (is_char "(")) (Cat (Cap (Plus cls_digit_dot))
                                              (Chr (is_char ")")))) x None
            (fun _ cap => Some cap))
    with (rmatch (Chr (is_char "(")) x None
            (fun s1 cap1 =>
               rmatch (Cat (Cap (Plus cls_digit_dot)) (Chr (is_char ")")))
                 s1 cap1 (fun _ cap => Some cap))) in Hs.
  apply rmatch_continues in Hs as (s1 & cap1 & Hs).
  destruct cap1 as [g0|].
  - (* the capture slot is empty before the group is entered *)
    change (rmatch (Cat (Cap (Plus cls_digit_dot)) (Chr (is_char ")"))) s1
              (Some g0) (fun _ cap => Some cap))
      with (rmatch (Cap (Plus cls_digit_dot)) s1 (Some g0)
              (fun s2 cap2 => rmatch (Chr (is_char ")")) s2 cap2
                                (fun _ cap => Some cap))) in Hs.
    apply rmatch_cap_plus in Hs as (g & s' & _ & Hne & Hd & Hk).
    apply (rmatch_capless (Chr (is_char ")")) eq_refl) in Hk as (s'' & Hk).
    injection Hk as <-. injection H as <-. split; assumption.
  - apply rmatch_cap_plus_then in Hs as (g & -> & Hne & Hd); [|reflexivity].
    injection H as <-. split; assumption.
Qed.

Section Network.
Context `{P : Platform} `{FL : Numbers}.

Ltac next_shell o h1 R :=
  match goal with
  | |- context [shell ?c ?t ?h] =>
      destruct (shell_ran c t h) as (o & h1 & -> & R)
  end; cbv iota beta.

Ltac step_shell o h1 R := unfold bind at 1; next_shell o h1 R.

Lemma ping_run (host : str) (count : Z) (h : Host) :
  exists (o : ExecOutcome) (h' : Host),
    ran h h' [(sh h (pingCommand host count), o)] /\
    ping host count h =
      (Return
         (let result := resultOfOutcome o in
          if success result then
            mkPingResult host
              (negb (includes (lit "100% packet loss") (stdout result)))
              (parseFloat <$> re_match pingTimePattern (stdout result))
              (re_match packetLossPattern (stdout result) ≫= parseInt)
              (or_else (stdout result) (stderr result))
          else mkPingResult host false None None
                 (or_else (stdout result) (stderr result))),
       h').
Proof.
  unfold ping. step_shell o h1 R. exists o, h1. split; [exact R|].
  cbv zeta. destruct (success (resultOfOutcome o)); reflexivity.
Qed.

(** X11: [ping] never throws and spawns one command.  When the command
    fails the host is reported as not alive, without time or loss, and
    with an output that is not empty.  When it succeeds, the host is
    alive exactly when the output lacks the text "100% packet loss"; a
    host reported as not alive then always comes with a packet loss, and
    a packet loss that is reported is never negative. *)
Theorem ping_verdict (host : str) (count : Z) (h : Host) :
  exists (o : ExecOutcome) (h' : Host) (r : PingResult),
    ping host count h = (Return r, h') /\
    ran h h' [(sh h (pingCommand host count), o)] /\
    ping_host r = host /\
    (success (resultOfOutcome o) = false ->
     alive r = false /\ ping_time r = None /\ packetLoss r = None
     /\ ping_output r <> []) /\
    (success (resultOfOutcome o) = true ->
     alive r = negb (includes (lit "100% packet loss")
                       (stdout (resultOfOutcome o)))
     /\ (alive r = false -> exists n, packetLoss r = Some n)) /\
    (forall n, packetLoss r = Some n -> 0 <= n).
Proof.
  destruct (ping_run host count h) as (o & h1 & R & ->). exists o, h1.
  cbv zeta.
  destruct (success (resultOfOutcome o)) eqn:Hs;
    eexists; (split; [reflexivity|]); (split; [exact R|]);
    cbn [ping_host alive ping_time packetLoss ping_output];
    (split; [reflexivity|]).
  - split; [discriminate|]. split.
    + intros _. split; [reflexivity|]. intros Ha.
      apply negb_false_iff in Ha.
      destruct (packetLoss_marker _ Ha) as [g Hg]. rewrite Hg.
      destruct (packetLoss_digits _ _ Hg) as [Hne Hd].
      cbn [mbind option_bind]. rewrite (parseInt_digits g Hne Hd). eauto.
    + intros n Hn.
      destruct (re_match packetLossPattern _) as [g|] eqn:Hg; [|discriminate].
      destruct (packetLoss_digits _ _ Hg) as [Hne Hd].
      cbn [mbind option_bind] in Hn. rewrite (parseInt_digits g Hne Hd) in Hn.
      injection Hn as <-. apply toDouble_nonneg, digits_value_nonneg. lia.
  - split.
    + intros _. repeat (split; [reflexivity|]).
      destruct o as [out err|e]; [discriminate|]. cbn [resultOfOutcome].
      unfold or_else.
      destruct (truthy (stdout (resultOfError e))) eqn:Ht.
      * apply truthy_true. exact Ht.
      * apply resultOfError_stderr_nonempty.
    + split; [discriminate|]. discriminate.
Qed.

(** The expected status of a test URL plays no part when it lies between
    200 and 399, as 204 and 200 do. *)
Lemma codeAccepted_httpOk (httpCode : option Z) (expected : Z) :
  200 <= expected < 400 -> codeAccepted httpCode expected = httpOk httpCode.
Proof.
  intros He. unfold codeAccepted, httpOk. destruct httpCode as [c|]; [|reflexivity].
  destruct (Z.eqb_spec c expected) as [->|_]; [|reflexivity].
  cbn [orb]. symmetry. apply andb_true_iff. split; [apply Z.leb_le|apply Z.ltb_lt]; lia.
Qed.

Lemma probeUrls_run (tests : list (str * Z)) : forall h : Host,
  List.Forall (fun test : str * Z => 200 <= test.2 < 400) tests ->
  exists (found : option ConnectivityResult) (h' : Host)
         (failed : list ExecOutcome),
    probeUrls tests h = (Return found, h') /\
    List.Forall (fun o => reachable o = false) failed /\
    match found with
    | None =>
        length failed = length tests
        /\ ran h h'
             (combine (map (fun test : str * Z => sh h (probeCommand test.1))
                         tests) failed)
    | Some r =>
        exists (o : ExecOutcome) (url : str) (ms : N),
          r = mkConnectivityResult true (Some (Elapsed ms)) (Some url) None
          /\ reachable o = true
          /\ nth_error (map fst tests) (length failed) = Some url
          /\ ran h h'
               (combine (map (fun test : str * Z => sh h (probeCommand test.1))
                           tests) (failed ++ [o]))
          /\ (ms <= clock h' - clock h)%N
    end.
Proof.
  induction tests as [|[url expected] rest IH]; intros h Hall.
  - exists None, h, []. split; [reflexivity|]. split; [constructor|].
    split; [reflexivity|apply ran_refl].
  - inversion Hall as [|? ? He Hrest]; subst. cbn [snd] in He.
    cbn [probeUrls]. unfold bind at 1, Date_now at 1. cbv iota beta.
    step_shell o h1 R1. unfold bind at 1, Date_now at 1. cbv iota beta.
    rewrite (codeAccepted_httpOk _ _ He).
    fold (reachable o).
    destruct (reachable o) eqn:Hr.
    + eexists (Some _), h1, []. unfold ret. split; [reflexivity|].
      split; [constructor|].
      exists o, url, (clock h1 - clock h)%N.
      split; [reflexivity|]. split; [exact Hr|]. split; [reflexivity|].
      split; [|lia].
      cbn [map combine app fst]. rewrite combine_nil. exact R1.
    + destruct (IH h1 Hrest) as (found & h2 & failed & Hrun & Hf & Hcase).
      exists found, h2, (o :: failed). split; [exact Hrun|].
      split; [constructor; assumption|].
      assert (Hcmd : map (fun test : str * Z => sh h1 (probeCommand test.1)) rest
                     = map (fun test : str * Z => sh h (probeCommand test.1)) rest).
      { apply map_ext. intros t. apply (ran_sh _ _ _ _ R1). }
      rewrite Hcmd in Hcase.
      destruct found as [r|].
      * destruct Hcase as (o' & url' & ms & Hr0 & Hr' & Hn & R2 & Hms).
        exists o', url', ms. split; [exact Hr0|]. split; [exact Hr'|].
        split; [exact Hn|]. split; [exact (ran_trans _ _ _ _ _ R1 R2)|].
        destruct R1 as (_ & _ & _ & _ & L1). lia.
      * destruct Hcase as (Hlen & R2).
        split; [simpl; rewrite Hlen; reflexivity|].
        exact (ran_trans _ _ _ _ _ R1 R2).
Qed.

(** X12: [checkInternet] never throws.  It probes the three test URLs in
    order and stops at the first probe that succeeds with a status from
    200 to 399 on its output, whatever status the URL is expected to give;
    it then reports that URL, with a latency that is no longer than the
    whole check took.  When no probe does, it pings 8.8.8.8 once, and
    reports internet access exactly when that ping succeeds without the
    text "100% packet loss"; otherwise it reports the failure. *)
Theorem checkInternet_verdict (h : Host) :
  exists (r : ConnectivityResult) (h' : Host) (failed : list ExecOutcome),
    checkInternet h = (Return r, h') /\
    List.Forall (fun o => reachable o = false) failed /\
    ((exists (o : ExecOutcome) (url : str) (ms : N),
        ran h h' (combine (probeCommands h) (failed ++ [o]))
        /\ reachable o = true
        /\ nth_error (map fst testUrls) (length failed) = Some url
        /\ r = mkConnectivityResult true (Some (Elapsed ms)) (Some url) None
        /\ (ms <= clock h' - clock h)%N)
     \/
     (exists o : ExecOutcome,
        length failed = 3%nat
        /\ ran h h' (combine (probeCommands h) failed
                     ++ [(sh h (pingCommand (lit "8.8.8.8") 1), o)])
        /\ hasInternet r
           = success (resultOfOutcome o)
             && negb (includes (lit "100% packet loss")
                        (stdout (resultOfOutcome o)))
        /\ (if hasInternet r
            then endpoint r = Some (lit "8.8.8.8 (ping)")
                 /\ net_error r = None
            else r = mkConnectivityResult false None None
                       (Some (lit "Failed to reach any internet endpoints"))))).
Proof.
  unfold checkInternet. unfold bind at 1.
  assert (Hall : List.Forall (fun test : str * Z => 200 <= test.2 < 400)
                   testUrls).
  { unfold testUrls. repeat constructor; cbn [snd]; lia. }
  destruct (probeUrls_run testUrls h Hall)
    as (found & h1 & failed & -> & Hf & Hcase).
  destruct found as [r0|];
    [destruct Hcase as (o & url & ms & -> & Hr & Hn & R1 & Hms)
    |destruct Hcase as (Hlen & R1)].
  2:{ unfold bind at 1.
    destruct (ping_run (lit "8.8.8.8") 1 h1) as (o & h2 & R2 & ->).
    rewrite (ran_sh _ _ _ _ R1) in R2.
    pose proof (ran_trans _ _ _ _ _ R1 R2) as R12.
    cbv zeta.
    destruct (success (resultOfOutcome o)) eqn:Hs; cbn [alive];
      [destruct (includes (lit "100% packet loss") (stdout (resultOfOutcome o)))
         eqn:Hi; cbn [negb]|]; unfold ret;
      eexists _, h2, failed; (split; [reflexivity|]); (split; [exact Hf|]);
      right; exists o; (split; [exact Hlen|]); (split; [exact R12|]);
      cbn [hasInternet endpoint net_error]; rewrite Hs, ?Hi; cbn [andb negb];
      split; try reflexivity; split; reflexivity. }
  unfold ret. eexists _, h1, failed. split; [reflexivity|].
  split; [exact Hf|]. left. exists o, url, ms.
  split; [exact R1|]. split; [exact Hr|]. split; [exact Hn|].
  split; [reflexivity|exact Hms].
Qed.

Lemma code_is_eq (httpCode : option Z) (n : Z) :
  code_is httpCode n = true <-> httpCode = Some n.
Proof.
  unfold code_is. destruct httpCode as [c|]; [|split; discriminate].
  rewrite Z.eqb_eq. split; [intros ->; reflexivity|intros H; injection H; auto].
Qed.

(** X13: [checkCaptivePortal] never throws and spawns the probe, and the
    fetch of the content only after a probe that printed status 200.  An
    error is reported exactly when the probe fails.  A verdict "captive"
    always names a portal URL that is not empty; a verdict "not captive"
    names none.  A probe that printed status 204 gives "not captive"
    whatever its second line holds; after status 200 the verdict is
    "captive" exactly when the fetch succeeds with some content. *)
Theorem checkCaptivePortal_verdict (h : Host) :
  exists (o1 : ExecOutcome) (tail : list (str * ExecOutcome)) (h' : Host)
         (r : CaptivePortalResult),
    checkCaptivePortal h = (Return r, h') /\
    ran h h' ((sh h captiveProbeCommand, o1) :: tail) /\
    (captive_error r <> None <-> success (resultOfOutcome o1) = false) /\
    (isCaptive r = true ->
     success (resultOfOutcome o1) = true
     /\ exists url, portalUrl r = Some url /\ url <> []) /\
    (isCaptive r = false -> portalUrl r = None) /\
    (success (resultOfOutcome o1) = true -> probedStatus o1 = Some 204 ->
     r = mkCaptivePortalResult false None None /\ tail = []) /\
    match tail with
    | [] => True
    | [(c2, o2)] =>
        c2 = sh h captiveContentCommand
        /\ success (resultOfOutcome o1) = true
        /\ probedStatus o1 = Some 200
        /\ isCaptive r
           = success (resultOfOutcome o2)
             && (0 <? length (stdout (resultOfOutcome o2)))%nat
    | _ => False
    end.
Proof.
  unfold checkCaptivePortal. step_shell o1 h1 R1. exists o1.
  destruct (success (resultOfOutcome o1)) eqn:Hs; cbn [negb].
  2:{ unfold ret. eexists [], h1, _. split; [reflexivity|].
      split; [exact R1|]. cbn [captive_error isCaptive portalUrl].
      split; [split; [reflexivity|discriminate]|].
      split; [discriminate|]. split; [reflexivity|].
      split; [discriminate|exact I]. }
  cbv zeta. fold (probedStatus o1).
  set (redirectUrl := or_else (nth 1 (split_char LF (trim (stdout (resultOfOutcome o1)))) []) []).
  destruct (code_is (probedStatus o1) 204) eqn:H204.
  { unfold ret. eexists [], h1, _. split; [reflexivity|].
    split; [exact R1|]. cbn [captive_error isCaptive portalUrl].
    split; [split; [intros H; contradiction|discriminate]|].
    split; [discriminate|]. split; [reflexivity|].
    split; [auto|exact I]. }
  assert (Hnot : probedStatus o1 <> Some 204).
  { intros E. apply code_is_eq in E. congruence. }
  destruct ((code_is (probedStatus o1) 301 || code_is (probedStatus o1) 302)
            && truthy redirectUrl) eqn:Hredirect.
  { apply andb_true_iff in Hredirect as [_ Ht]. apply truthy_true in Ht.
    unfold ret. eexists [], h1, _. split; [reflexivity|].
    split; [exact R1|]. cbn [captive_error isCaptive portalUrl].
    split; [split; [intros H; contradiction|discriminate]|].
    split; [intros _; split; [reflexivity|eauto]|].
    split; [discriminate|]. split; [intros _ E; contradiction|exact I]. }
  destruct (code_is (probedStatus o1) 200) eqn:H200.
  - step_shell o2 h2 R2. rewrite (ran_sh _ _ _ _ R1) in R2.
    pose proof (ran_trans _ _ _ _ _ R1 R2) as R12. cbn [app] in R12.
    apply code_is_eq in H200.
    destruct (success (resultOfOutcome o2)
              && (0 <? length (stdout (resultOfOutcome o2)))%nat) eqn:Hc;
      unfold ret; eexists [(_, o2)], h2, _; (split; [reflexivity|]);
      (split; [exact R12|]); cbn [captive_error isCaptive portalUrl];
      (split; [split; [intros H; contradiction|discriminate]|]).
    + split; [intros _; split; [reflexivity|]|].
      { exists captiveCheckUrl. split; [reflexivity|discriminate]. }
      split; [discriminate|]. split; [intros _ E; contradiction|].
      repeat split; auto.
    + split; [discriminate|]. split; [reflexivity|].
      split; [intros _ E; contradiction|]. repeat split; auto.
  - unfold ret. eexists [], h1, _. split; [reflexivity|].
    split; [exact R1|]. cbn [captive_error isCaptive portalUrl].
    split; [split; [intros H; contradiction|discriminate]|].
    split; [discriminate|]. split; [reflexivity|].
    split; [intros _ E; contradiction|exact I].
Qed.

(** X14: [getInterfaceInfo] never throws and spawns its three reads in
    order.  An address or a gateway that it reports comes from a read that
    succeeded and is a non-empty text of digits and dots; a list of DNS
    servers that it reports comes from a read that succeeded, is not empty
    and holds no blank entry. *)
Theorem getInterfaceInfo_fields (h : Host) :
  exists (o1 o2 o3 : ExecOutcome) (h' : Host) (r : InterfaceInfo),
    getInterfaceInfo h = (Return r, h') /\
    ran h h' (combine (interfaceCommands h) [o1; o2; o3]) /\
    interface r = lit "wlan0" /\
    (forall a, if_ipAddress r = Some a ->
               dotted a /\ success (resultOfOutcome o1) = true) /\
    (forall a, gateway r = Some a ->
               dotted a /\ success (resultOfOutcome o2) = true) /\
    (forall servers, dns r = Some servers ->
       servers <> []
       /\ List.Forall (fun line => trim line <> []) servers
       /\ success (resultOfOutcome o3) = true).
Proof.
  unfold getInterfaceInfo.
  step_shell o1 h1 R1. cbv zeta. step_shell o2 h2 R2. step_shell o3 h3 R3.
  rewrite (ran_sh _ _ _ _ R1) in R2.
  pose proof (ran_trans _ _ _ _ _ R1 R2) as R12. cbn [app] in R12.
  rewrite (ran_sh _ _ _ _ R12) in R3.
  pose proof (ran_trans _ _ _ _ _ R12 R3) as R123. cbn [app] in R123.
  unfold ret. eexists o1, o2, o3, h3, _. split; [reflexivity|].
  split; [exact R123|]. cbn [interface if_ipAddress gateway dns].
  split; [reflexivity|]. split; [|split].
  - intros a Ha. destruct (success (resultOfOutcome o1)); [|discriminate].
    split; [exact (inet_dotted _ _ Ha)|reflexivity].
  - intros a Ha. destruct (success (resultOfOutcome o2)); [|discriminate].
    split; [exact (via_dotted _ _ Ha)|reflexivity].
  - intros servers Hd. destruct (success (resultOfOutcome o3)); [|discriminate].
    set (l := List.filter (fun line => truthy (trim line))
                (split_char LF (stdout (resultOfOutcome o3)))) in *.
    destruct (Nat.ltb_spec 0 (length l)) as [Hl|]; [|discriminate].
    injection Hd as <-. split; [|split; [|reflexivity]].
    + intros E. rewrite E in Hl. simpl in Hl. lia.
    + apply List.Forall_forall. intros line Hin. unfold l in Hin.
      apply filter_In in Hin as [_ Ht]. apply truthy_true. exact Ht.
Qed.

Lemma dotted_no_colon (a : str) : dotted a -> includes (lit ":") a = false.
Proof.
  intros [_ Hd]. induction a as [|c a IH]; [reflexivity|].
  simpl in Hd. apply andb_true_iff in Hd as [Hc Ha].
  cbn [includes]. rewrite (IH Ha), orb_false_r.
  cbn [lit list_ascii_of_string startsWith]. rewrite andb_true_r.
  destruct (ascii_eqb ":" c) eqn:E; [|reflexivity].
  apply ascii_eqb_eq in E. subst c. discriminate Hc.
Qed.

(** X15: [dnsLookup] never throws.  It tries nslookup, getent and ping in
    this order and stops at the first tier that yields an address: getent
    is spawned exactly when nslookup yielded nothing, ping exactly when
    getent yielded nothing either, and the addresses reported are those
    of the tier at which it stopped.  So it spawns one to three commands;
    no address that it reports holds a colon; an address of the second or
    third tier is the only one reported and is a non-empty text of digits
    and dots; and the error text is set exactly when no address is
    reported. *)
Theorem dnsLookup_tiers (hostname : str) (h : Host) :
  exists (r : DnsResult) (h' : Host) (outcomes : list ExecOutcome),
    dnsLookup hostname h = (Return r, h') /\
    ran h h' (combine (dnsCommands h hostname) outcomes) /\
    (1 <= length outcomes <= 3)%nat /\
    dns_hostname r = hostname /\
    (dns_addresses r = [] <-> dns_error r = Some (lit "DNS lookup failed")) /\
    (dns_addresses r <> [] <-> dns_error r = None) /\
    List.Forall (fun a => includes (lit ":") a = false) (dns_addresses r) /\
    (length outcomes = 1%nat -> dns_addresses r <> []) /\
    ((2 <= length outcomes)%nat ->
     dns_addresses r = []
     \/ exists a, dns_addresses r = [a] /\ dotted a) /\
    (length outcomes = 3%nat \/ dns_addresses r <> []) /\
    match outcomes with
    | [o1] =>
        nslookupYield o1 <> [] /\ dns_addresses r = nslookupYield o1
    | [o1; o2] =>
        nslookupYield o1 = []
        /\ exists a, getentYield o2 = Some a /\ dns_addresses r = [a]
    | [o1; o2; o3] =>
        nslookupYield o1 = [] /\ getentYield o2 = None
        /\ dns_addresses r = match pingYield o3 with
                             | Some a => [a]
                             | None => []
                             end
    | _ => False
    end.
Proof.
  unfold dnsLookup. unfold bind. next_shell o1 h1 R1. cbv zeta.
  set (a1 := if success (resultOfOutcome o1)
             then nslookupAddresses false
                    (split_char LF (stdout (resultOfOutcome o1)))
             else []).
  assert (Hy1 : nslookupYield o1 = a1) by reflexivity.
  assert (Hno : List.Forall (fun a => includes (lit ":") a = false) a1).
  { apply List.Forall_forall. intros a Hin. unfold a1 in Hin.
    destruct (success (resultOfOutcome o1)); [|destruct Hin].
    exact (nslookupAddresses_no_colon _ _ _ Hin). }
  clearbody a1.
  destruct a1 as [|x more]; cbn [is_empty].
  2:{ unfold ret. cbn [is_empty].
      eexists _, h1, [o1]. split; [reflexivity|]. split; [exact R1|].
      cbn [length dns_hostname dns_addresses dns_error].
      split; [lia|]. split; [reflexivity|].
      split; [split; discriminate|]. split; [split; [reflexivity|discriminate]|].
      split; [exact Hno|]. split; [discriminate|]. split; [lia|].
      split; [right; discriminate|].
      rewrite Hy1. split; [discriminate|reflexivity]. }
  clear Hno.
  next_shell o2 h2 R2. rewrite (ran_sh _ _ _ _ R1) in R2.
  pose proof (ran_trans _ _ _ _ _ R1 R2) as R12. cbn [app] in R12.
  unfold ret at 1. cbv iota beta.
  set (a2 := if success (resultOfOutcome o2)
             then match re_match getentPattern (stdout (resultOfOutcome o2)) with
                  | Some a => [] ++ [a]
                  | None => []
                  end
             else []).
  assert (H2 : (a2 = [] /\ getentYield o2 = None)
               \/ exists a, a2 = [a] /\ dotted a /\ getentYield o2 = Some a).
  { unfold a2, getentYield. destruct (success (resultOfOutcome o2)); [|auto].
    destruct (re_match getentPattern _) as [a|] eqn:E; [|auto].
    right. exists a. split; [reflexivity|].
    split; [exact (getent_dotted _ _ E)|reflexivity]. }
  clearbody a2.
  destruct H2 as [[E2 Hy2]|(a & E2 & Hd & Hy2)]; rewrite E2; cbn [is_empty].
  2:{ unfold ret. cbn [is_empty].
      eexists _, h2, [o1; o2]. split; [reflexivity|]. split; [exact R12|].
      cbn [length dns_hostname dns_addresses dns_error].
      split; [lia|]. split; [reflexivity|].
      split; [split; discriminate|]. split; [split; [reflexivity|discriminate]|].
      split; [repeat constructor; exact (dotted_no_colon _ Hd)|].
      split; [discriminate|]. split; [eauto|].
      split; [right; discriminate|].
      split; [exact Hy1|]. exists a. split; [exact Hy2|reflexivity]. }
  next_shell o3 h3 R3. rewrite (ran_sh _ _ _ _ R12) in R3.
  pose proof (ran_trans _ _ _ _ _ R12 R3) as R123. cbn [app] in R123.
  unfold ret at 1. cbv iota beta.
  set (a3 := if success (resultOfOutcome o3)
             then match re_match pingAddressPattern (stdout (resultOfOutcome o3)) with
                  | Some a => [] ++ [a]
                  | None => []
                  end
             else []).
  assert (H3 : (a3 = [] /\ pingYield o3 = None)
               \/ exists a, a3 = [a] /\ dotted a /\ pingYield o3 = Some a).
  { unfold a3, pingYield. destruct (success (resultOfOutcome o3)); [|auto].
    destruct (re_match pingAddressPattern _) as [a|] eqn:E; [|auto].
    right. exists a. split; [reflexivity|].
    split; [exact (pingAddress_dotted _ _ E)|reflexivity]. }
  clearbody a3.
  unfold ret. eexists _, h3, [o1; o2; o3]. split; [reflexivity|].
  split; [exact R123|].
  cbn [length dns_hostname dns_addresses dns_error].
  split; [lia|]. split; [reflexivity|].
  destruct H3 as [[E3 Hy3]|(a & E3 & Hd & Hy3)]; rewrite E3, Hy3;
    cbn [is_empty].
  - split; [split; reflexivity|]. split; [split; [contradiction|discriminate]|].
    split; [constructor|]. split; [discriminate|]. split; [auto|].
    split; [left; reflexivity|]. auto.
  - split; [split; discriminate|]. split; [split; [reflexivity|discriminate]|].
    split; [repeat constructor; exact (dotted_no_colon _ Hd)|].
    split; [discriminate|]. split; [eauto|].
    split; [left; reflexivity|]. auto.
Qed.

End Network.

(** ** The enterprise bridge: the command file and the poll *)

Section Polling.
Context `{P : Platform} `{CJ : CertificateJson Json}.

Lemma ran_sameClient (h h' : Host) (log : list (str * ExecOutcome)) :
  ran h h' log -> sameClient h h' /\ (clock h <= clock h')%N.
Proof. intros (_ & A & B & _ & C). repeat split; assumption. Qed.

Lemma pollOnce_ran (h : Host) :
  exists (r : option (option Json)) (h' : Host)
         (log : list (str * ExecOutcome)),
    pollOnce h = (Return r, h') /\ ran h h' log /\
    (clock h + pollInterval <= clock h')%N /\
    match r with
    | None => length log = 1%nat
    | Some _ => length log = 2%nat
    end.
Proof.
  unfold pollOnce, bind.
  destruct (sleep_ran pollInterval h) as [Rs Hclock].
  change (sleep pollInterval h) with (Return tt, (sleep pollInterval h).2).
  cbv iota beta.
  destruct (shell_ran catResultCommand DEFAULT_TIMEOUT (sleep pollInterval h).2)
    as (o & h1 & -> & R1).
  pose proof (ran_trans _ _ _ _ _ Rs R1) as R01. cbn [app] in R01.
  assert (L1 : (clock h + pollInterval <= clock h1)%N).
  { destruct R1 as (_ & _ & _ & _ & L). lia. }
  destruct (success (resultOfOutcome o) && truthy (trim (stdout (resultOfOutcome o))));
    [destruct (JSON_parse (stdout (resultOfOutcome o))) as [j|]|].
  - destruct (shell_ran rmResultCommand DEFAULT_TIMEOUT h1) as (o2 & h2 & -> & R2).
    pose proof (ran_trans _ _ _ _ _ R01 R2) as R012. cbn [app] in R012.
    unfold ret. eexists (Some j), h2, _. split; [reflexivity|].
    split; [exact R012|]. split; [|reflexivity].
    destruct R2 as (_ & _ & _ & _ & L). lia.
  - unfold ret. eexists None, h1, _. split; [reflexivity|].
    split; [exact R01|]. split; [exact L1|reflexivity].
  - unfold ret. eexists None, h1, _. split; [reflexivity|].
    split; [exact R01|]. split; [exact L1|reflexivity].
Qed.

(** The loop of [waitForResult] with time for at most [n] turns. *)
Lemma pollLoop_bounded (startTime : N) (h : Host) :
  forall n : nat,
    (startTime + RESULT_TIMEOUT - clock h <= pollInterval * N.of_nat n)%N ->
    exists (result : option Json) (h' : Host) (polls : list (str * ExecOutcome)),
      pollLoop startTime h = (Return result, h') /\ ran h h' polls /\
      (length polls <= n + 1)%nat.
Proof.
  funelim (pollLoop startTime h);
    repeat match goal with
           | H : sigmaI _ _ _ = _ |- _ => clear H
           end; intros n Hn.
  - exists None, h, []. split; [reflexivity|]. split; [apply ran_refl|].
    simpl; lia.
  - destruct (pollOnce_ran h) as (r & h1 & log & Hp & R & Hclock & Hlen).
    rewrite Hp in e0. injection e0 as -> ->.
    apply N.ltb_lt in e. unfold RESULT_TIMEOUT, pollInterval in *.
    eexists _, _, _. split; [reflexivity|]. split; [exact R|]. lia.
  - destruct (pollOnce_ran h) as (r & h1 & log & Hp & R & Hclock & Hlen).
    rewrite Hp in e0. injection e0 as -> ->.
    apply N.ltb_lt in e.
    match goal with
    | IH : forall n : nat, _ -> exists _ _ _, pollLoop _ _ = _ /\ _ |- _ =>
        destruct (IH (n - 1)%nat) as (result & h2 & polls & Hloop & R2 & Hres)
    end.
    { unfold RESULT_TIMEOUT, pollInterval in *. lia. }
    rewrite Hloop. exists result, h2, (log ++ polls).
    split; [reflexivity|]. split; [exact (ran_trans _ _ _ _ _ R R2)|].
    rewrite length_app, Hlen.
    assert (1 <= n)%nat by (unfold RESULT_TIMEOUT, pollInterval in *; lia).
    lia.
  - destruct (pollOnce_ran h) as (r & h1 & log & Hp & _).
    rewrite Hp in e0. discriminate.
Qed.

Lemma waitForResult_ran (identifier : str) (h : Host) :
  exists (result : option Json) (h' : Host) (o_rm : ExecOutcome)
         (polls : list (str * ExecOutcome)),
    waitForResult identifier h = (Return result, h') /\
    ran h h' ((sh h rmResultCommand, o_rm) :: polls) /\
    (length polls <= 61)%nat /\
    pollTrace h h' result polls.
Proof.
  destruct (waitForResult_trace identifier h)
    as (result & h' & o_rm & polls & Hw & Hlog & _ & Htr).
  exists result, h', o_rm, polls. split; [exact Hw|].
  revert Hw. unfold waitForResult, bind, Date_now.
  destruct (shell_ran rmResultCommand DEFAULT_TIMEOUT h) as (o & h1 & -> & R1).
  destruct (pollLoop_bounded (clock h) h1 60)
    as (result2 & h2 & polls2 & -> & R2 & Hlen).
  { destruct R1 as (_ & _ & _ & _ & L).
    unfold RESULT_TIMEOUT, pollInterval. lia. }
  intros Hw. injection Hw as <- <-.
  pose proof (ran_trans _ _ _ _ _ R1 R2) as R. cbn [app] in R.
  assert (He : (sh h rmResultCommand, o) :: polls2
               = (sh h rmResultCommand, o_rm) :: polls).
  { destruct R as (A & _). rewrite Hlog in A.
    apply app_inv_head in A. symmetry. exact A. }
  rewrite <- He. split; [exact R|].
  injection He as _ <-. split; [lia|exact Htr].
Qed.

(** X17: [waitForResult] never throws and never polls without end.  It
    begins with the deletion of the result file, whose outcome it does not
    look at, and then spawns at most 61 commands: reads that delivered
    nothing, and then either nothing more, in which case it resolves with
    null and thirty seconds at the least have passed on the clock, or one
    read that delivered and the deletion of the file, in which case it
    resolves with what that read delivered, be it a value or the JSON
    null. *)
Theorem waitForResult_bounded (identifier : str) (h : Host) :
  exists (result : option Json) (h' : Host) (o_rm : ExecOutcome)
         (polls : list (str * ExecOutcome)),
    waitForResult identifier h = (Return result, h') /\
    ran h h' ((sh h rmResultCommand, o_rm) :: polls) /\
    (length polls <= 61)%nat /\
    exists reads : list ExecOutcome,
      Forall (fun o => delivered o = None) reads /\
      ((polls = readEntries h reads /\ result = None
        /\ (clock h + RESULT_TIMEOUT <= clock h')%N)
       \/
       (exists o_read o_rm2,
          polls = readEntries h reads
                  ++ [(sh h catResultCommand, o_read);
                      (sh h rmResultCommand, o_rm2)]
          /\ delivered o_read = Some result)).
Proof. exact (waitForResult_ran identifier h). Qed.

Lemma isCompanionAppInstalled_run (h : Host) :
  exists (o : ExecOutcome) (h' : Host),
    ran h h' [(sh h pmCommand, o)] /\
    isCompanionAppInstalled h
      = (Return (includes COMPANION_PACKAGE (stdout (resultOfOutcome o))), h').
Proof.
  unfold isCompanionAppInstalled, bind.
  destruct (shell_ran (lit "pm list packages | grep " ++ COMPANION_PACKAGE)
              DEFAULT_TIMEOUT h) as (o & h1 & -> & R).
  exists o, h1. split; [exact R|reflexivity].
Qed.

Lemma writeCommandJson_run (json : str) (h : Host) :
  exists (o : ExecOutcome) (h' : Host),
    ran h h' [(sh h (echoJsonCommand json), o)] /\
    writeCommandJson json h = (Return tt, h').
Proof.
  unfold writeCommandJson, bind. cbv zeta.
  destruct (shell_ran (lit "echo '" ++ escapeQuotes json ++ lit "' > " ++ COMMAND_FILE)
              DEFAULT_TIMEOUT h) as (o & h1 & -> & R).
  exists o, h1. split; [|reflexivity].
  replace (echoJsonCommand json)
    with (lit "echo '" ++ escapeQuotes json ++ lit "' > " ++ COMMAND_FILE);
    [exact R|].
  unfold echoJsonCommand, echoArgument. cbn [lit list_ascii_of_string app].
  rewrite <- app_assoc. reflexivity.
Qed.

(** What the two certificate operations do after the package query found
    the companion app: the command file is written, the broadcast is
    sent, and [k] goes on from there. *)
Lemma write_then_broadcast {A : Type} (json broadcast : str)
    (k : AdbResult -> M A) (h0 h1 : Host) (pre : list (str * ExecOutcome)) :
  ran h0 h1 pre ->
  exists (o2 o3 : ExecOutcome) (h3 : Host),
    ran h0 h3 (pre ++ [(sh h0 (echoJsonCommand json), o2);
                       (sh h0 broadcast, o3)]) /\
    (let* _ := writeCommandJson json in
     let* broadcastResult := shell broadcast DEFAULT_TIMEOUT in
     k broadcastResult) h1
    = k (resultOfOutcome o3) h3.
Proof.
  intros R1. unfold bind at 1.
  destruct (writeCommandJson_run json h1) as (o2 & h2 & R2 & ->).
  rewrite (ran_sh _ _ _ _ R1) in R2.
  pose proof (ran_trans _ _ _ _ _ R1 R2) as R12.
  unfold bind at 1.
  destruct (shell_ran broadcast DEFAULT_TIMEOUT h2) as (o3 & h3 & -> & R3).
  rewrite (ran_sh _ _ _ _ R12) in R3.
  pose proof (ran_trans _ _ _ _ _ R12 R3) as R123.
  rewrite <- app_assoc in R123. cbn [app] in R123.
  exists o2, o3, h3. split; [exact R123|reflexivity].
Qed.

(** The poll that follows, seen from the host at which the operation
    began. *)
Lemma then_waitForResult (identifier : str) (h0 h3 : Host)
    (pre : list (str * ExecOutcome)) :
  ran h0 h3 pre ->
  exists (result : option Json) (h' : Host) (o4 : ExecOutcome)
         (polls : list (str * ExecOutcome)),
    waitForResult identifier h3 = (Return result, h') /\
    ran h0 h' (pre ++ (sh h0 rmResultCommand, o4) :: polls) /\
    (length polls <= 61)%nat /\
    pollTrace h0 h' result polls.
Proof.
  intros R.
  destruct (waitForResult_ran identifier h3)
    as (result & h4 & o4 & polls & Hw & R4 & Hlen & Htr).
  rewrite (ran_sh _ _ _ _ R) in R4.
  exists result, h4, o4, polls. split; [exact Hw|].
  split; [exact (ran_trans _ _ _ _ _ R R4)|]. split; [exact Hlen|].
  destruct (ran_sameClient _ _ _ R) as [Hc Hk].
  exact (pollTrace_later _ _ _ _ _ Hc Hk Htr).
Qed.

(** X18: [installCertificate] never throws, and its log is pinned stage
    by stage.  On a device without the companion app it spawns the package
    query and nothing else, and reports the missing app.  Else it spawns
    the write of the command file (for the certificate, the alias and the
    type it was called with) and the broadcast; when the broadcast fails it
    reports that, with the text of the failure, and spawns nothing more.
    Else it spawns the deletion of the result file and polls.  The
    outcomes of the write and of the deletion are not looked at.  A result
    taken from the agent is truthy and is what the last read of the poll
    delivered; when the poll ends with null, or with a value that is not
    truthy, the result is the timeout failure.  A failure is reported for
    the alias and the type of the call. *)
Theorem installCertificate_needs_agent (certificate alias : str)
    (type : CertificateType) (h : Host) :
  let failure error :=
    LocalInstall (mkCertificateInstallResult false alias type (Some error)) in
  exists (o1 : ExecOutcome) (h' : Host) (r : InstallReturnOf Json),
    installCertificate certificate alias type h = (Return r, h') /\
    if includes COMPANION_PACKAGE (stdout (resultOfOutcome o1)) then
      exists (now : N) (o2 o3 : ExecOutcome),
        let payload :=
          mkInstallPayload (lit "install_certificate") now certificate alias
            type in
        let written :=
          [(sh h pmCommand, o1);
           (sh h (echoJsonCommand (stringifyInstall payload)), o2);
           (sh h installBroadcast, o3)] in
        if success (resultOfOutcome o3) then
          exists (o4 : ExecOutcome) (polls : list (str * ExecOutcome))
                 (result : option Json),
            ran h h' (written ++ (sh h rmResultCommand, o4) :: polls)
            /\ (length polls <= 61)%nat
            /\ pollTrace h h' result polls
            /\ r = match result with
                   | Some j =>
                       if json_truthy j then AgentInstall j
                       else failure (lit "Timeout waiting for certificate installation result")
                   | None =>
                       failure (lit "Timeout waiting for certificate installation result")
                   end
        else
          ran h h' written
          /\ r = failure (lit "Failed to send broadcast: "
                          ++ stderr (resultOfOutcome o3))
    else
      ran h h' [(sh h pmCommand, o1)] /\ r = failure agentMissing.
Proof.
  cbv zeta. unfold installCertificate. cbv zeta. unfold bind at 1.
  destruct (isCompanionAppInstalled_run h) as (o1 & h1 & R1 & ->).
  exists o1.
  destruct (includes COMPANION_PACKAGE (stdout (resultOfOutcome o1))) eqn:Hi;
    cbn [negb].
  2:{ unfold ret. eexists h1, _. split; [reflexivity|].
      split; [exact R1|reflexivity]. }
  unfold bind at 1, Date_now at 1. cbv iota beta.
  match goal with
  | |- context [bind (writeCommandJson ?json) (fun _ => bind (shell ?b _) ?k)] =>
      destruct (write_then_broadcast json b k h h1 _ R1)
        as (o2 & o3 & h3 & R3 & ->)
  end.
  cbn [app] in R3. cbv beta.
  destruct (success (resultOfOutcome o3)) eqn:Hs3; cbn [negb].
  2:{ unfold ret. eexists h3, _. split; [reflexivity|].
      exists (clock h1), o2, o3. rewrite Hs3.
      split; [exact R3|reflexivity]. }
  unfold bind at 1.
  destruct (then_waitForResult alias h h3 _ R3)
    as (result & h4 & o4 & polls & -> & R4 & Hlen & Htr).
  cbn [app] in R4.
  unfold ret. eexists h4, _. split; [reflexivity|].
  exists (clock h1), o2, o3. rewrite Hs3.
  exists o4, polls, result. cbn [app].
  split; [exact R4|]. split; [exact Hlen|]. split; [exact Htr|].
  destruct result as [j|]; reflexivity.
Qed.

End Polling.

(** ** The status, the scan and the certificate list *)

(** X19: the status counts a device as connected as soon as the dump
    holds the letters CONNECTED, and so also when the dump says
    DISCONNECTED. *)
Theorem status_disconnected_counts_as_connected (statusStdout dumpsys : str) :
  includes (lit "DISCONNECTED") dumpsys = true ->
  st_connected (statusOfOutputs statusStdout dumpsys) = true.
Proof.
  intros H. apply includes_split in H as (pre & post & ->).
  cbn [statusOfOutputs st_connected]. apply orb_true_iff. right.
  apply includes_app_l.
  change (lit "DISCONNECTED" ++ post)
    with (lit "DIS" ++ lit "CONNECTED" ++ post).
  apply includes_app_l, includes_startsWith, startsWith_app.
Qed.

Section Scan.
Context `{P : Platform} `{CJ : CertificateJson Json}.

Lemma parseScanResults_records (output : str) :
  List.Forall (fun x => isMac (scan_bssid x) = true /\ scan_ssid x <> [])
    (parseScanResults output).
Proof.
  apply List.Forall_forall. intros x Hin. unfold parseScanResults in Hin.
  cbv zeta in Hin. apply for_each_line_In in Hin as (line & _ & Hline).
  split.
  - destruct (scanLine_mac _ _ Hline) as [-> Hm]. exact Hm.
  - apply scanLine_Some in Hline. cbv zeta in Hline.
    destruct Hline as (_ & _ & _ & ->). cbn [scan_ssid].
    apply or_else_truthy. discriminate.
Qed.

(** X20: [scan] starts a scan and throws, without asking for the results,
    when the start fails; else it asks for the results, and throws when
    that command fails; the two commands and the pause of the call take
    two seconds at the least on the clock; every record it returns has a
    MAC address as bssid and an ssid that is not empty. *)
Theorem scan_waits_then_lists (h : Host) :
  exists (o1 : ExecOutcome) (h' : Host) (r : Res (list ScanResult)),
    scan h = (r, h') /\
    if success (resultOfOutcome o1) then
      exists o2,
        ran h h' [(sh h startScanCommand, o1); (sh h listScanCommand, o2)]
        /\ (clock h + 2000 <= clock h')%N
        /\ r = (if success (resultOfOutcome o2)
                then Return (parseScanResults (stdout (resultOfOutcome o2)))
                else Throw (lit "Failed to get scan results: "
                            ++ stderr (resultOfOutcome o2)))
        /\ (forall records, r = Return records ->
              List.Forall
                (fun x => isMac (scan_bssid x) = true /\ scan_ssid x <> [])
                records)
    else
      ran h h' [(sh h startScanCommand, o1)]
      /\ r = Throw (lit "Failed to start scan: "
                    ++ stderr (resultOfOutcome o1)).
Proof.
  unfold scan, startScan, getScanResults. unfold bind at 1 2.
  destruct (shell_ran (lit "cmd wifi start-scan") DEFAULT_TIMEOUT h)
    as (o1 & h1 & -> & R1).
  exists o1. destruct (success (resultOfOutcome o1)); cbn [negb].
  - unfold ret at 1. cbv iota beta. unfold bind at 1.
    destruct (sleep_ran 2000 h1) as [Rs Hclock].
    change (sleep 2000 h1) with (Return tt, (sleep 2000 h1).2). cbv iota beta.
    unfold bind at 1.
    destruct (shell_ran (lit "cmd wifi list-scan-results") DEFAULT_TIMEOUT
                (sleep 2000 h1).2) as (o2 & h2 & -> & R2).
    pose proof (ran_trans _ _ _ _ _ R1 Rs) as R1s. cbn [app] in R1s.
    rewrite (ran_sh _ _ _ _ R1s) in R2.
    pose proof (ran_trans _ _ _ _ _ R1s R2) as R12. cbn [app] in R12.
    assert (Hc : (clock h + 2000 <= clock h2)%N).
    { destruct R1 as (_ & _ & _ & _ & L1).
      destruct R2 as (_ & _ & _ & _ & L2). lia. }
    destruct (success (resultOfOutcome o2)) eqn:Hs2; cbn [negb]; unfold ret;
      eexists h2, _; (split; [reflexivity|]); exists o2; rewrite Hs2;
      (split; [exact R12|]); (split; [exact Hc|]); (split; [reflexivity|]).
    + intros records H. injection H as <-. apply parseScanResults_records.
    + intros records H. discriminate.
  - unfold throw. eexists h1, _. split; [reflexivity|].
    split; [exact R1|reflexivity].
Qed.

(** X21: [listCertificates] never throws, and its log is pinned.  On a
    device without the companion app it spawns the package query only and
    reports no certificates.  With the app it spawns the write of the
    command file, the broadcast and the deletion of the result file, and
    then polls, whether the broadcast succeeded or not (the outcomes of the
    three commands are not looked at).  Certificates that it reports are
    the [certificates] property, when that is truthy, of the value that
    the last read of the poll delivered; in every other case it reports
    none. *)
Theorem listCertificates_polls_regardless (h : Host) :
  exists (o1 : ExecOutcome) (h' : Host) (r : CertificatesReturnOf Json),
    listCertificates h = (Return r, h') /\
    if includes COMPANION_PACKAGE (stdout (resultOfOutcome o1)) then
      exists (now : N) (o2 o3 o4 : ExecOutcome)
             (polls : list (str * ExecOutcome)) (result : option Json),
        let payload := mkListPayload (lit "list_certificates") now in
        ran h h' ([(sh h pmCommand, o1);
                   (sh h (echoJsonCommand (stringifyList payload)), o2);
                   (sh h listBroadcast, o3);
                   (sh h rmResultCommand, o4)] ++ polls)
        /\ (length polls <= 61)%nat
        /\ pollTrace h h' result polls
        /\ r = match result ≫= (fun j => json_get j (lit "certificates")) with
               | Some c => if json_truthy c then AgentCertificates c
                           else NoCertificates
               | None => NoCertificates
               end
    else
      ran h h' [(sh h pmCommand, o1)] /\ r = NoCertificates.
Proof.
  unfold listCertificates. unfold bind at 1.
  destruct (isCompanionAppInstalled_run h) as (o1 & h1 & R1 & ->).
  exists o1.
  destruct (includes COMPANION_PACKAGE (stdout (resultOfOutcome o1))) eqn:Hi;
    cbn [negb].
  2:{ unfold ret. eexists h1, _. split; [reflexivity|].
      split; [exact R1|reflexivity]. }
  unfold bind at 1, Date_now at 1. cbv iota beta.
  match goal with
  | |- context [bind (writeCommandJson ?json) (fun _ => bind (shell ?b _) ?k)] =>
      destruct (write_then_broadcast json b k h h1 _ R1)
        as (o2 & o3 & h3 & R3 & ->)
  end.
  cbn [app] in R3. cbv beta.
  unfold bind at 1.
  destruct (then_waitForResult (lit "list") h h3 _ R3)
    as (result & h4 & o4 & polls & -> & R4 & Hlen & Htr).
  cbn [app] in R4.
  unfold ret. eexists h4, _. split; [reflexivity|].
  exists (clock h1), o2, o3, o4, polls, result. cbv zeta. cbn [app].
  split; [exact R4|]. split; [exact Hlen|]. split; [exact Htr|reflexivity].
Qed.

(** X22: [connectEnterprise] never throws, leaves the selection and the
    cache alone and never runs without end: it spawns at most 65 commands
    (the package query, the write of the command file, the broadcast, the
    deletion, at most 60 reads and one more deletion). *)
Theorem connectEnterprise_bounded (config : EapConfig) (h : Host) :
  exists (r : EnterpriseReturn) (h' : Host) (log : list (str * ExecOutcome)),
    connectEnterprise config h = (Return r, h') /\
    ran h h' log /\ (length log <= 65)%nat.
Proof.
  unfold connectEnterprise.
  destruct (needsPassword (eapMethod config) && absent (password config)).
  { eexists _, h, []. split; [reflexivity|]. split; [apply ran_refl|simpl; lia]. }
  destruct (is_tls (eapMethod config)
            && (absent (clientCertificate config)
                || absent (privateKey config))).
  { eexists _, h, []. split; [reflexivity|]. split; [apply ran_refl|simpl; lia]. }
  unfold bind at 1.
  destruct (isCompanionAppInstalled_run h) as (o1 & h1 & R1 & ->).
  destruct (includes COMPANION_PACKAGE (stdout (resultOfOutcome o1)));
    cbn [negb].
  2:{ unfold ret. eexists _, h1, _. split; [reflexivity|].
      split; [exact R1|simpl; lia]. }
  unfold bind at 1, Date_now at 1. cbv iota beta.
  unfold bind at 1.
  match goal with
  | |- context [writeCommandFile ?payload h1] =>
      change (writeCommandFile payload h1)
        with (writeCommandJson (JSON_stringify payload) h1);
      destruct (writeCommandJson_run (JSON_stringify payload) h1)
        as (o2 & h2 & R2 & ->)
  end.
  pose proof (ran_trans _ _ _ _ _ R1 R2) as R12.
  unfold bind at 1.
  match goal with
  | |- context [shell ?c DEFAULT_TIMEOUT h2] =>
      destruct (shell_ran c DEFAULT_TIMEOUT h2) as (o3 & h3 & -> & R3)
  end.
  pose proof (ran_trans _ _ _ _ _ R12 R3) as R123.
  destruct (success (resultOfOutcome o3)); cbn [negb].
  2:{ unfold ret. eexists _, h3, _. split; [reflexivity|].
      split; [exact R123|simpl; lia]. }
  unfold bind at 1.
  destruct (waitForResult_ran (eap_ssid config) h3)
    as (result & h4 & o4 & polls & -> & R4 & Hlen & _).
  pose proof (ran_trans _ _ _ _ _ R123 R4) as R1234.
  unfold ret. eexists _, h4, _. split; [reflexivity|].
  split; [exact R1234|]. rewrite !length_app. cbn [length].
  lia.
Qed.

End Scan.

(** ** Two tool handlers *)

Section Tools.
Context `{P : Platform}.

(** X23: the [device_select] tool accepts every serial that is not empty,
    whether a device of that name is connected or not: it never throws,
    leaves the serial selected, spawns the six property reads on that
    serial and answers with a text that names it; when every read fails
    the text reports an unknown model and Android version and SDK 0. *)
Theorem device_select_accepts_any_serial (serial : str) (h : Host) :
  serial <> [] ->
  exists (r : ToolResultOf str) (h' : Host) (outcomes : list ExecOutcome),
    device_select serial h = (Return r, h') /\
    isError r = false /\
    selection h' = Some serial /\
    devices h' = devices h /\
    spawned h' = spawned h
                 ++ combine (map (fun prop => shOn h serial (lit "getprop " ++ prop))
                               props) outcomes /\
    length outcomes = 6%nat /\
    startsWith (lit "Selected device: " ++ serial) (content r) = true /\
    (List.Forall (fun o => success (resultOfOutcome o) = false) outcomes ->
     content r = lit "Selected device: " ++ serial ++ [LF]
                 ++ lit "Model: Unknown" ++ [LF]
                 ++ lit "Android: Unknown (SDK 0)").
Proof.
  intros Hne. unfold device_select, selectDevice, getSelectedDeviceInfo.
  unfold bind at 1, adb_selectDevice at 1. cbv iota beta.
  set (h1 := mkHost (world h) (clock h) (adbPath h) (Some serial)
               (devices h) (spawned h)).
  assert (Hsel : selection h1 = Some serial).
  { apply selection_Some. split; [reflexivity|exact Hne]. }
  unfold bind at 1.
  destruct (getDeviceInfo_run h1 serial Hsel)
    as (h2 & o0 & o1 & o2 & o3 & o4 & o5 & -> & R).
  unfold ret. eexists _, h2, [o0; o1; o2; o3; o4; o5].
  split; [reflexivity|]. cbn [isError content].
  split; [reflexivity|].
  destruct R as (Hlog & Hpath & Hs & Hdev & _).
  split; [unfold selection; rewrite Hs; exact Hsel|].
  split; [exact Hdev|].
  split.
  { rewrite Hlog. unfold getpropCommands. f_equal. f_equal.
    apply map_ext. intros prop. apply (sh_selected h1). exact Hsel. }
  split; [reflexivity|].
  split.
  { rewrite app_assoc. apply startsWith_app. }
  intros Hall.
  repeat match goal with
         | H : List.Forall _ (_ :: _) |- _ =>
             inversion H as [|? ? ?Hfail ?Hrest]; subst; clear H
         end.
  cbn [info_model info_androidVersion info_sdkVersion].
  unfold propValue.
  repeat match goal with
         | H : success (resultOfOutcome _) = false |- _ => rewrite H; clear H
         end.
  reflexivity.
Qed.

Lemma ensureDevice_selected (h : Host) (s : str) :
  selection h = Some s -> ensureDevice h = (Return tt, h).
Proof.
  intros Hs. apply selection_Some in Hs as [Hs Hne].
  apply truthy_true in Hne.
  unfold ensureDevice, ensureDeviceSelected, bind, getSelectedDevice.
  rewrite Hs. cbn [mbind option_bind]. rewrite Hne. reflexivity.
Qed.

Lemma connect_run (ssid : str) (security : SecurityType)
    (password : option str) (h : Host) :
  exists (o1 : ExecOutcome) (tail : list (str * ExecOutcome)) (h' : Host)
         (r : WifiConnectionResult),
    connect ssid security password h = (Return r, h') /\
    ran h h' ((sh h (connectCommand ssid security password), o1) :: tail) /\
    conn_ssid r = ssid /\
    if conn_success r then
      exists o2 o3,
        tail = [(sh h statusCommand, o2); (sh h dumpsysCommand, o3)]
        /\ success (resultOfOutcome o1) = true
        /\ st_connected (statusOfOutputs (stdout (resultOfOutcome o2))
                           (stdout (resultOfOutcome o3))) = true
        /\ st_ssid (statusOfOutputs (stdout (resultOfOutcome o2))
                      (stdout (resultOfOutcome o3))) = Some ssid
    else
      (tail = [] \/ length tail = 2%nat)
      /\ exists e, conn_error r = Some e /\ e <> [].
Proof.
  unfold connect. unfold bind at 1.
  destruct (shell_ran (connectCommand ssid security password) DEFAULT_TIMEOUT h)
    as (o1 & h1 & -> & R1).
  exists o1.
  destruct (negb (success (resultOfOutcome o1))
            || includes (lit "error") (toLowerCase (stdout (resultOfOutcome o1))))
    eqn:Hfail.
  { unfold ret. eexists [], h1, _. split; [reflexivity|]. split; [exact R1|].
    cbn [conn_ssid conn_success conn_error]. split; [reflexivity|].
    split; [left; reflexivity|]. eexists. split; [reflexivity|].
    apply or_else_truthy, or_else_truthy. discriminate. }
  apply orb_false_iff in Hfail as [Hs _]. apply negb_false_iff in Hs.
  unfold bind at 1.
  destruct (sleep_ran 3000 h1) as [Rs _].
  change (sleep 3000 h1) with (Return tt, (sleep 3000 h1).2). cbv iota beta.
  unfold bind at 1.
  destruct (getStatus_run (sleep 3000 h1).2) as (o2 & o3 & h2 & -> & R2).
  pose proof (ran_trans _ _ _ _ _ R1 Rs) as R1s. cbn [app] in R1s.
  rewrite !(ran_sh _ _ _ _ R1s) in R2.
  pose proof (ran_trans _ _ _ _ _ R1s R2) as R12. cbn [app] in R12.
  set (status := statusOfOutputs (stdout (resultOfOutcome o2))
                   (stdout (resultOfOutcome o3))) in *.
  unfold ret. eexists _, h2, _. split; [reflexivity|]. split; [exact R12|].
  cbn [conn_ssid conn_success conn_error]. split; [reflexivity|].
  destruct (st_connected status && ssid_is (st_ssid status) ssid) eqn:Hv.
  - apply andb_true_iff in Hv as [Hc Hssid]. apply ssid_is_true in Hssid.
    exists o2, o3. fold status. auto.
  - split; [right; reflexivity|]. eexists. split; [reflexivity|discriminate].
Qed.

(** X24: the [wifi_connect] tool with a device selected.  For WPA2 and
    WPA3 without a password it answers with the error text and spawns no
    command at all.  Otherwise it never throws; a report of success comes
    after the connect command succeeded and a reading of the status showed
    the device connected to the requested ssid, and carries the status of
    one more reading, taken afterwards; a report of failure is flagged as
    an error and carries an error text that is not empty. *)
Theorem wifi_connect_report (ssid : str) (security : SecurityType)
    (password : option str) (h : Host) (s : str) :
  selection h = Some s ->
  (needsPassphrase security && absent password = true ->
   wifi_connect ssid security password h
   = (Return (mkToolResult
                (ConnectText
                   (lit "Error: Password is required for WPA2/WPA3 networks"))
                true), h)) /\
  (needsPassphrase security && absent password = false ->
   exists (r : ToolResultOf ConnectContent) (h' : Host) (o1 : ExecOutcome)
          (tail : list (str * ExecOutcome)),
     wifi_connect ssid security password h = (Return r, h') /\
     ran h h' ((sh h (connectCommand ssid security password), o1) :: tail) /\
     match content r with
     | ConnectText _ => False
     | Connected ssid' status =>
         ssid' = ssid /\ isError r = false
         /\ success (resultOfOutcome o1) = true
         /\ exists o2 o3 o4 o5,
              tail = [(sh h statusCommand, o2); (sh h dumpsysCommand, o3);
                      (sh h statusCommand, o4); (sh h dumpsysCommand, o5)]
              /\ st_connected (statusOfOutputs (stdout (resultOfOutcome o2))
                                 (stdout (resultOfOutcome o3))) = true
              /\ st_ssid (statusOfOutputs (stdout (resultOfOutcome o2))
                            (stdout (resultOfOutcome o3))) = Some ssid
              /\ status = statusOfOutputs (stdout (resultOfOutcome o4))
                            (stdout (resultOfOutcome o5))
     | NotConnected ssid' error =>
         ssid' = ssid /\ isError r = true
         /\ (tail = [] \/ length tail = 2%nat)
         /\ exists e, error = Some e /\ e <> []
     end).
Proof.
  intros Hsel.
  pose proof (ensureDevice_selected h s Hsel) as Hensure.
  split; intros Hcond; unfold wifi_connect; unfold bind at 1;
    rewrite Hensure, Hcond.
  - reflexivity.
  - unfold bind at 1.
    destruct (connect_run ssid security password h)
      as (o1 & tail & h1 & r & -> & R1 & Hssid & Hr).
    destruct (conn_success r) eqn:Hok.
    + destruct Hr as (o2 & o3 & -> & Hs1 & Hc & Hs).
      unfold bind at 1.
      destruct (getStatus_run h1) as (o4 & o5 & h2 & -> & R2).
      rewrite !(ran_sh _ _ _ _ R1) in R2.
      pose proof (ran_trans _ _ _ _ _ R1 R2) as R12. cbn [app] in R12.
      unfold ret. eexists _, h2, o1, _. split; [reflexivity|].
      split; [exact R12|]. cbn [content isError].
      split; [exact Hssid|]. split; [reflexivity|]. split; [exact Hs1|].
      exists o2, o3, o4, o5. auto.
    + destruct Hr as (Hlen & e & He & Hne).
      unfold ret. eexists _, h1, o1, tail. split; [reflexivity|].
      split; [exact R1|]. cbn [content isError]. eauto 10.
Qed.

End Tools.

(** ** The further theorems at concrete inputs *)

Lemma keyed_sim_host (w : Sim) : keyed (devices (sim_host w)).
Proof.
  intros k i Hk. unfold sim_host in Hk. cbn [devices] in Hk.
  rewrite lookup_empty in Hk. discriminate.
Qed.

(** A run on the simulated device is evaluated once, before the theorem
    is applied to it. *)
Ltac evaluate run H :=
  let r := fresh "run" in
  let E := fresh "E" in
  remember run as r eqn:E in H |- *;
  vm_compute in E; subst r; cbv beta iota zeta in H |- *;
  cbn [fst snd returned default] in H |- *.

Lemma listDevices_wellformed_witness :
  let run := adb_listDevices (sim_host sim_two_ready) in
  length (default [] (returned run.1)) = 3%nat
  /\ List.Forall wellformedDevice (default [] (returned run.1)).
Proof.
  pose proof (listDevices_wellformed (sim_host sim_two_ready)) as H.
  evaluate (adb_listDevices (sim_host sim_two_ready)) H.
  split; [reflexivity|]. exact (H _ _ eq_refl).
Defined.

Lemma getDeviceInfo_tolerates_failed_reads_witness :
  let h := selecting (lit "NOSUCH") (sim_host sim_no_such_device) in
  selection h = Some (lit "NOSUCH")
  /\ exists info h', getDeviceInfo h = (Return info, h')
                     /\ info_serial info = lit "NOSUCH"
                     /\ info_model info <> [].
Proof.
  split; [reflexivity|].
  destruct (getDeviceInfo_tolerates_failed_reads
              (selecting (lit "NOSUCH") (sim_host sim_no_such_device))
              (lit "NOSUCH") eq_refl)
    as (info & h' & outcomes & Hrun & _ & _ & Hserial & Hmodel & _).
  exists info, h'. auto.
Defined.

Lemma getDeviceInfo_autoselects_witness :
  selection (sim_host sim_one_ready) = None
  /\ exists o h1 r h',
       getDeviceInfo (sim_host sim_one_ready) = (r, h')
       /\ ran (sim_host sim_one_ready) h1
            [(commandLine (sim_host sim_one_ready) [lit "devices"; lit "-l"], o)].
Proof.
  split; [reflexivity|].
  destruct (getDeviceInfo_autoselects (sim_host sim_one_ready) eq_refl)
    as (o & h1 & r & h' & Hrun & R & _).
  exists o, h1, r, h'. auto.
Defined.

Lemma refreshDevices_reconciles_witness :
  let run := refreshDevices (sim_host sim_two_ready) in
  length (default [] (returned run.1)) = 3%nat
  /\ keyed (devices run.2)
  /\ forall s, selection run.2 = Some s ->
               In s (map serial (default [] (returned run.1))).
Proof.
  pose proof (refreshDevices_reconciles (sim_host sim_two_ready)) as H.
  pose proof (keyed_sim_host sim_two_ready) as Hk.
  evaluate (refreshDevices (sim_host sim_two_ready)) H.
  destruct (H _ _ eq_refl) as (_ & Hkeyed & Hsel).
  split; [reflexivity|]. split; [exact (Hkeyed Hk)|exact Hsel].
Defined.

Lemma refreshDevices_moves_selection_witness :
  let run := refreshDevices (selecting (lit "emulator-5554")
                               (sim_host sim_two_ready)) in
  length (default [] (returned run.1)) = 3%nat
  /\ selection run.2 = Some (lit "R58M12345").
Proof.
  pose proof (refreshDevices_moves_selection
                (selecting (lit "emulator-5554") (sim_host sim_two_ready)))
    as H.
  evaluate (refreshDevices (selecting (lit "emulator-5554")
                              (sim_host sim_two_ready))) H.
  split; [reflexivity|]. rewrite (H _ _ eq_refl). vm_compute. reflexivity.
Defined.

Lemma ambiguity_is_reported_once_witness :
  exists h1,
    ensureDeviceSelected (sim_host sim_two_ready)
    = (Throw (ambiguityMessage [lit "emulator-5554"; lit "R58M12345"]), h1)
    /\ ensureDeviceSelected h1 = (Return (lit "R58M12345"), h1).
Proof.
  pose proof (fun h1 devs =>
                ambiguity_is_reported_once (sim_host sim_two_ready) h1 devs
                  (lit "R58M12345") eq_refl) as H.
  evaluate (refreshDevices (sim_host sim_two_ready)) H.
  eexists. apply (H _ _ eq_refl).
  - vm_compute. lia.
  - vm_compute. reflexivity.
Defined.

Lemma listDevices_entries_witness :
  let run := listDevices (sim_host sim_two_ready) in
  keyed (devices (sim_host sim_two_ready))
  /\ exists devs,
       map entry_serial (default [] (returned run.1)) = map serial devs
       /\ map entry_state (default [] (returned run.1)) = map state devs.
Proof.
  pose proof (keyed_sim_host sim_two_ready) as Hk.
  pose proof (listDevices_entries (sim_host sim_two_ready)) as H.
  split; [exact Hk|].
  evaluate (listDevices (sim_host sim_two_ready)) H.
  destruct (H _ _ Hk eq_refl) as (devs & _ & Hserial & Hstate & _).
  exists devs. auto.
Defined.

Lemma checkAndroidVersion_threshold_witness :
  let h := selecting (lit "NOSUCH") (sim_host sim_no_such_device) in
  selection h = Some (lit "NOSUCH")
  /\ exists r h', checkAndroidVersion h = (Return r, h')
                  /\ (supported r = false
                      <-> exists v, version r = Some v /\ v < 30).
Proof.
  split; [reflexivity|].
  destruct (checkAndroidVersion_threshold
              (selecting (lit "NOSUCH") (sim_host sim_no_such_device))
              (lit "NOSUCH") eq_refl)
    as (r & h' & outcomes & sdk & Hrun & _ & _ & _ & Hiff & _).
  exists r, h'. auto.
Defined.

Lemma status_disconnected_counts_as_connected_witness :
  let dumpsys :=
    lit "mWifiInfo SSID: <unknown ssid>, Supplicant state: DISCONNECTED" in
  includes (lit "DISCONNECTED") dumpsys = true
  /\ st_connected (statusOfOutputs (lit "Wifi is enabled") dumpsys) = true.
Proof.
  split; [vm_compute; reflexivity|].
  apply status_disconnected_counts_as_connected. vm_compute. reflexivity.
Defined.

Lemma device_select_accepts_any_serial_witness :
  lit "NOSUCH" <> []
  /\ exists r h',
       device_select (lit "NOSUCH") (sim_host sim_no_such_device)
         = (Return r, h')
       /\ isError r = false /\ selection h' = Some (lit "NOSUCH").
Proof.
  split; [discriminate|].
  destruct (device_select_accepts_any_serial (lit "NOSUCH")
              (sim_host sim_no_such_device))
    as (r & h' & outcomes & Hrun & He & Hsel & _).
  { discriminate. }
  exists r, h'. auto.
Defined.

Lemma wifi_connect_report_witness :
  let h := selecting (lit "R58M12345") (sim_host (mkSim None [] [])) in
  selection h = Some (lit "R58M12345")
  /\ wifi_connect (lit "HomeNet") sec_wpa2 None h
     = (Return (mkToolResult
                  (ConnectText
                     (lit "Error: Password is required for WPA2/WPA3 networks"))
                  true), h).
Proof.
  split; [reflexivity|].
  apply (proj1 (wifi_connect_report (lit "HomeNet") sec_wpa2 None
                  (selecting (lit "R58M12345") (sim_host (mkSim None [] [])))
                  (lit "R58M12345") eq_refl)).
  reflexivity.
Defined.

(** ** Runs on the simulated device *)

(** One ready device: it is selected, and stays selected. *)
Example getDeviceInfo_selects_the_only_device :
  exists info h',
    getDeviceInfo (sim_host sim_one_ready) = (Return info, h')
    /\ info_serial info = lit "R58M12345"
    /\ selection h' = Some (lit "R58M12345").
Proof. eexists _, _. split; [vm_compute; reflexivity|]. split; reflexivity. Qed.

(** A listing moves the selection: the first device was selected, the
    refresh has probed both ready devices, the second is selected
    afterwards. *)
Example refresh_switches_selection :
  selection (listDevices (selecting (lit "emulator-5554")
                            (sim_host sim_two_ready))).2
  = Some (lit "R58M12345").
Proof. vm_compute. reflexivity. Qed.

(** A device that answers no property read is selected all the same. *)
Example device_select_unknown_serial :
  (device_select (lit "NOSUCH") (sim_host sim_no_such_device)).1
  = Return (mkToolResult
              (lit "Selected device: NOSUCH" ++ [LF] ++ lit "Model: Unknown"
               ++ [LF] ++ lit "Android: Unknown (SDK 0)") false).
Proof. vm_compute. reflexivity. Qed.

(** An SDK level that is not a number passes the version check. *)
Example version_check_of_NaN :
  (checkAndroidVersion
     (selecting (lit "R58M12345") (sim_host sim_sdk_not_a_number))).1
  = Return (mkVersionCheck true None
              (lit "Android SDK NaN detected. Full functionality available.")).
Proof. vm_compute. reflexivity. Qed.

(** Two blanks in the loss line: the host counts as alive at a loss of
    100 percent. *)
Example ping_alive_at_total_loss :
  (ping (lit "8.8.8.8") 1 (sim_host sim_ping_two_blanks)).1
  = Return (mkPingResult (lit "8.8.8.8") true None (Some 100)
              (lit "1 packets transmitted, 0 received, 100%  packet loss, time 0ms")).
Proof. vm_compute. reflexivity. Qed.

(** The tool reports success with a status that is not connected, when
    the network drops between the verification and the report. *)
Example wifi_connect_success_with_stale_verification :
  exists status,
    (wifi_connect (lit "HomeNet") sec_wpa2 (Some (lit "secret"))
       (selecting (lit "R58M12345")
          (sim_host (sim_connects_then_drops (lit "HomeNet"))))).1
    = Return (mkToolResult (Connected (lit "HomeNet") status) false)
    /\ st_connected status = false.
Proof. eexists. split; vm_compute; reflexivity. Qed.

(** The forget mode forgets the network that the device is connected to,
    by the id under which it is saved. *)
Example disconnect_forgets_the_connected_network :
  let run := disconnect forget (sim_host sim_forget) in
  run.1 = Return tt
  /\ map fst (spawned run.2)
     = [lit "adb shell cmd wifi status";
        lit "adb shell " ++ dumpsysCommand;
        lit "adb shell cmd wifi list-networks";
        lit "adb shell cmd wifi forget-network 3"].
Proof. vm_compute. split; reflexivity. Qed.

(** An id beyond 2^53 is rounded before it is printed, and an id from
    1e21 on is printed in exponent notation. *)
Example disconnect_forgets_a_rounded_id :
  List.last (map fst (spawned (disconnect forget
                                 (sim_host (sim_forget_far
                                              (lit "9007199254740993")))).2))
    []
  = lit "adb shell cmd wifi forget-network 9007199254740992"
  /\ List.last (map fst (spawned (disconnect forget
                                    (sim_host (sim_forget_far
                                                 (lit "1000000000000000000000")))).2))
       []
     = lit "adb shell cmd wifi forget-network 1e+21".
Proof. vm_compute. split; reflexivity. Qed.

(** A result file that holds the JSON null ends the poll at once, with
    null, long before the thirty seconds are over. *)
Example waitForResult_null_answer :
  let run := @waitForResult SimPlatform (lit "corp")
               (sim_host sim_null_at_second_read) in
  run.1 = Return None
  /\ clock run.2 = 1080%N
  /\ map fst (spawned run.2)
     = [lit "adb shell " ++ rmResultCommand;
        lit "adb shell " ++ catResultCommand;
        lit "adb shell " ++ catResultCommand;
        lit "adb shell " ++ rmResultCommand].
Proof. vm_compute. repeat split. Qed.

(** The second test URL answers. *)
Example checkInternet_second_probe :
  (checkInternet (sim_host sim_second_probe)).1
  = Return (mkConnectivityResult true (Some (Elapsed 20))
              (Some (lit "https://connectivitycheck.gstatic.com/generate_204"))
              None).
Proof. vm_compute. reflexivity. Qed.

(** A redirect with a target is a captive portal. *)
Example checkCaptivePortal_redirect :
  (checkCaptivePortal (sim_host sim_portal)).1
  = Return (mkCaptivePortalResult true
              (Some (lit "http://portal.example/login")) None).
Proof. vm_compute. reflexivity. Qed.
